(** * weectllib/db_actions.py: the interactive database actions of weectl

    The module is a set of command handlers.  Each one reads the
    configuration, opens a database manager, asks the user to confirm,
    and delegates the work to the libraries [weecfg], [weedb] and
    [weewx.manager].  The handlers are embedded as command trees: a
    handler is a Rocq function that returns the tree of the library
    calls, prompts, prints and logging calls it performs, with Python's
    exceptions as leaves.  The trees are run against a library, which is
    a transition function on an abstract world of databases. *)

From Stdlib Require Import List String Ascii ZArith Bool Lia DecimalString.
Import ListNotations.

Local Open Scope string_scope.
Local Open Scope Z_scope.
Local Open Scope list_scope.

Set Implicit Arguments.

(** String concatenation, Python's [+] on [str] and the filling of a format
    string. *)
Local Infix "^^" := String.append (at level 60, right associativity).

(* ================================================================== *)
(** ** Python values the handlers handle *)

(** [str(n)] and ['%s' % n] for an integer. *)
Definition str_Z (z : Z) : string := NilZero.string_of_int (Z.to_int z).

(** [str.upper] on the ASCII letters. *)
Definition upper_ascii (c : ascii) : ascii :=
  let n := N_of_ascii c in
  if ((97 <=? n) && (n <=? 122))%N then ascii_of_N (n - 32) else c.

Fixpoint upper (s : string) : string :=
  match s with
  | EmptyString => EmptyString
  | String c r => String (upper_ascii c) (upper r)
  end.

(** [sep.join(names)]. *)
Definition join (sep : string) (names : list string) : string :=
  String.concat sep names.

(** [set(names)]: the distinct names, as a list without repetition.  The
    list says which names are in the set and nothing more: the order in
    which Python iterates over a set is its own (it goes by the hashes), and
    a library that iterates over the set is given that order separately
    (see [RefLib.lib_in_order]). *)
Definition py_set (names : list string) : list string :=
  nodup string_dec names.

(** The line feed of ["\nCompleted."]. *)
Definition LF : string := String (ascii_of_nat 10) EmptyString.

(** The exception classes the module names, and the built-in ones its
    expressions can raise.  An instance of a subclass is represented by the
    class an [except] clause names for it. *)
Inductive exc_class : Type :=
| OperationalError | NoColumnError | DatabaseExists
| UnknownBinding | UnknownDatabase | UnknownDatabaseType
| ValueError | AttributeError | ImportError | OSError
| KeyError | TypeError | IndexError | EOFError | SystemExit.

Record exn : Type := Exn { exn_class : exc_class; exn_msg : string }.

Definition exc_class_eqb (a b : exc_class) : bool :=
  match a, b with
  | OperationalError, OperationalError | NoColumnError, NoColumnError
  | DatabaseExists, DatabaseExists | UnknownBinding, UnknownBinding
  | UnknownDatabase, UnknownDatabase
  | UnknownDatabaseType, UnknownDatabaseType
  | ValueError, ValueError | AttributeError, AttributeError
  | ImportError, ImportError | OSError, OSError | KeyError, KeyError
  | TypeError, TypeError | IndexError, IndexError | EOFError, EOFError
  | SystemExit, SystemExit => true
  | _, _ => false
  end.

(** [isinstance(e, cls)], for the class list of an [except] clause. *)
Definition is_a (e : exn) (classes : list exc_class) : bool :=
  existsb (exc_class_eqb (exn_class e)) classes.

(** A call returns a value or raises. *)
Definition result (X : Type) : Type := (exn + X)%type.

(** The answer of [y_or_n], which returns ['y'] or ['n']. *)
Inductive yn : Type := ans_y | ans_n.

Inductive stream : Type := stdout | stderr.

(** [logging]'s levels. *)
Definition NOTSET : Z := 0.
Definition INFO : Z := 20.
Definition ERROR : Z := 40.

(** A column list as a schema. *)
Definition Schema : Type := list (string * string).

(** [manager_dict['database_dict']]. *)
Record DatabaseDict : Type := mkDatabaseDict {
  dd_database_name : string;
  dd_driver : string
}.

(** The dictionary [get_manager_dict_from_config] returns. *)
Record ManagerDict : Type := mkManagerDict {
  md_database_dict : DatabaseDict;
  md_table_name : string;
  md_schema : Schema
}.

(** The configuration dictionary, with the entries the handlers read:
    [config_dict['StdConvert']['target_unit']] and the data bindings. *)
Record Config : Type := mkConfig {
  cfg_target_unit : option string;
  cfg_bindings : list (string * ManagerDict)
}.

(** An open manager, with the attributes the handlers read. *)
Record Manager : Type := mkManager {
  m_database_name : string;
  m_table_name : string;
  m_std_unit_system : option Z
}.

(** The dictionary [calc_missing] hands to [CalcMissing]. *)
Record CalcMissingConfig : Type := mkCalcMissingConfig {
  cm_name : string;
  cm_binding : string;
  cm_start_ts : Z;
  cm_stop_ts : option Z;
  cm_trans_days : Z;
  cm_dry_run : bool
}.

(* ================================================================== *)
(** ** The calls into the libraries *)

(** One constructor per function or method of [weecfg], [weedb] and
    [weewx.manager] the module calls, indexed by the type of what it
    returns.  [dbm_addRecord dest src] is
    [dest.addRecord(src.genBatchRecords(), ...)]: the generator reads the
    source while [addRecord] consumes it.  [Manager_close] is the [__exit__]
    of a [with] block.  [CalcMissing_init] is the constructor
    [weecfg.database.CalcMissing(config_dict, calc_missing_config_dict)]
    and [CalcMissing_run] the method [run] of the object it made, which is
    named by the arguments it was made from. *)
Inductive libcall : Type -> Type :=
| weecfg_read_config (config_path : string) : libcall (string * Config)
| get_manager_dict_from_config (config_dict : Config) (db_binding : string)
  : libcall ManagerDict
| open_manager_with_config (config_dict : Config) (db_binding : string)
    (initialize : bool) : libcall Manager
| Manager_open (database_dict : DatabaseDict) (table_name : option string)
  : libcall Manager
| Manager_open_with_create (database_dict : DatabaseDict)
    (table_name : string) (schema : Schema) : libcall Manager
| Manager_close (m : Manager) : libcall unit
| dbm_drop_daily (m : Manager) : libcall unit
| dbm_add_column (m : Manager) (column_name column_type : string)
  : libcall unit
| dbm_rename_column (m : Manager) (column_name new_name : string)
  : libcall unit
| dbm_drop_columns (m : Manager) (drop_set : list string) : libcall unit
| dbm_backfill_day_summary (m : Manager) (start_d stop_d : option Z)
    (trans_days : Z) : libcall (Z * Z)
| dbm_recalculate_weights (m : Manager) (start_d stop_d : option Z)
  : libcall unit
| dbm_getSql (m : Manager) (sql : string) : libcall (option (list Z))
| dbm_addRecord (dest src : Manager) : libcall Z
| dbm_firstGoodStamp (m : Manager) : libcall (option Z)
| dbm_lastGoodStamp (m : Manager) : libcall (option Z)
| dbm_read_metadata (m : Manager) (key : string) : libcall (option string)
| weedb_create (database_dict : DatabaseDict) : libcall unit
| weedb_drop (database_dict : DatabaseDict) : libcall unit
| manager_reconfig (old_db_dict new_db_dict : DatabaseDict)
    (new_unit_system : option Z) (new_schema : Schema) (dry_run : bool)
  : libcall unit
| CalcMissing_init (config_dict : Config) (cm : CalcMissingConfig)
  : libcall unit
| CalcMissing_run (config_dict : Config) (cm : CalcMissingConfig)
  : libcall unit.

(** A call of any return type, for the record of the calls made. *)
Inductive anycall : Type :=
| AnyCall (X : Type) (c : libcall X).

(** The calls that may write to a database.  Besides the methods that
    change the schema or the data, the creation and the dropping of a
    database and the opens that create what is missing, these are the calls
    whose writing is the library's own business: the open of a manager that
    keeps daily summaries ([open_manager_with_config], also without
    [initialize]), which may bring the summaries up to the current version
    on its way, and [reconfig] and [CalcMissing], whatever dry-run flag
    they are handed.  [Manager.open] on the archive alone, the reading of
    the configuration, the queries and a close only read. *)
Definition mutating (X : Type) (c : libcall X) : bool :=
  match c with
  | weecfg_read_config _ => false
  | get_manager_dict_from_config _ _ => false
  | open_manager_with_config _ _ _ => true
  | Manager_open _ _ => false
  | Manager_open_with_create _ _ _ => true
  | Manager_close _ => false
  | dbm_drop_daily _ => true
  | dbm_add_column _ _ _ => true
  | dbm_rename_column _ _ _ => true
  | dbm_drop_columns _ _ => true
  | dbm_backfill_day_summary _ _ _ _ => true
  | dbm_recalculate_weights _ _ _ => true
  | dbm_getSql _ _ => false
  | dbm_addRecord _ _ => true
  | dbm_firstGoodStamp _ => false
  | dbm_lastGoodStamp _ => false
  | dbm_read_metadata _ _ => false
  | weedb_create _ => true
  | weedb_drop _ => true
  | manager_reconfig _ _ _ _ _ => true
  | CalcMissing_init _ _ => true
  | CalcMissing_run _ _ => true
  end.

(** The calls a dry run holds back: the ones the handlers put behind
    [if not dry_run], which are the methods that change the schema or the
    data, [weedb.create] and [weedb.drop] and the open with
    [initialize=True]; [open_with_create] and [addRecord]; and [reconfig]
    and [CalcMissing] when they are not handed the dry-run flag.  What a
    call that is not held back does in the library, a plain open or a
    [reconfig] under the flag, is not said here. *)
Definition held_back (X : Type) (c : libcall X) : bool :=
  match c with
  | weecfg_read_config _ => false
  | get_manager_dict_from_config _ _ => false
  | open_manager_with_config _ _ initialize => initialize
  | Manager_open _ _ => false
  | Manager_open_with_create _ _ _ => true
  | Manager_close _ => false
  | dbm_drop_daily _ => true
  | dbm_add_column _ _ _ => true
  | dbm_rename_column _ _ _ => true
  | dbm_drop_columns _ _ => true
  | dbm_backfill_day_summary _ _ _ _ => true
  | dbm_recalculate_weights _ _ _ => true
  | dbm_getSql _ _ => false
  | dbm_addRecord _ _ => true
  | dbm_firstGoodStamp _ => false
  | dbm_lastGoodStamp _ => false
  | dbm_read_metadata _ _ => false
  | weedb_create _ => true
  | weedb_drop _ => true
  | manager_reconfig _ _ _ _ dry_run => negb dry_run
  | CalcMissing_init _ cm => negb (cm_dry_run cm)
  | CalcMissing_run _ cm => negb (cm_dry_run cm)
  end.

Definition mutating_any (a : anycall) : bool :=
  match a with AnyCall c => mutating c end.

Definition held_back_any (a : anycall) : bool :=
  match a with AnyCall c => held_back c end.

(* ================================================================== *)
(** ** Command trees *)

(** What a handler does, step by step.  A library call and a prompt hand
    their outcome, a value or an exception, to the rest of the handler. *)
Inductive prog (A : Type) : Type :=
| Ret (a : A)
| Raise (e : exn)
| Call (X : Type) (c : libcall X) (k : result X -> prog A)
| Input (prompt : string) (k : result yn -> prog A)
| Print (f : stream) (line : string) (k : prog A)
| Log (level : Z) (msg : string) (k : prog A)
| LoggingDisable (level : Z) (k : prog A)
| TimeTime (k : Z -> prog A).

Arguments Ret {A} a.
Arguments Raise {A} e.
Arguments Call {A X} c k.
Arguments Input {A} prompt k.
Arguments Print {A} f line k.
Arguments Log {A} level msg k.
Arguments LoggingDisable {A} level k.
Arguments TimeTime {A} k.

Fixpoint bind (A B : Type) (p : prog A) (f : A -> prog B) : prog B :=
  match p with
  | Ret a => f a
  | Raise e => Raise e
  | Call c k => Call c (fun r => bind (k r) f)
  | Input q k => Input q (fun r => bind (k r) f)
  | Print fd l k => Print fd l (bind k f)
  | Log lv m k => Log lv m (bind k f)
  | LoggingDisable lv k => LoggingDisable lv (bind k f)
  | TimeTime k => TimeTime (fun t => bind (k t) f)
  end.

Declare Scope prog_scope.
Delimit Scope prog_scope with prog.
Notation "x <- p ;; q" := (bind p (fun x => q))
  (at level 61, p at next level, right associativity) : prog_scope.
Notation "' pat <- p ;; q" := (bind p (fun x => match x with pat => q end))
  (at level 61, pat pattern, p at next level, right associativity)
  : prog_scope.
Notation "p ;; q" := (bind p (fun _ => q))
  (at level 61, right associativity) : prog_scope.
Local Open Scope prog_scope.

(** [try: p except classes: h  else: els].  [h] answers [None] for an
    exception no clause matches, which then propagates; what [h] and [els]
    raise is not caught. *)
Fixpoint try_else (X A : Type) (p : prog X) (h : exn -> option (prog A))
    (els : X -> prog A) : prog A :=
  match p with
  | Ret x => els x
  | Raise e => match h e with Some q => q | None => Raise e end
  | Call c k => Call c (fun r => try_else (k r) h els)
  | Input q k => Input q (fun r => try_else (k r) h els)
  | Print fd l k => Print fd l (try_else k h els)
  | Log lv m k => Log lv m (try_else k h els)
  | LoggingDisable lv k => LoggingDisable lv (try_else k h els)
  | TimeTime k => TimeTime (fun t => try_else (k t) h els)
  end.

Definition try_ (A : Type) (p : prog A) (h : exn -> option (prog A))
  : prog A :=
  try_else p h (fun a => Ret a).

(** [p] followed by [q] on every way out of [p]. *)
Fixpoint finally_ (A : Type) (p : prog A) (q : prog unit) : prog A :=
  match p with
  | Ret a => q ;; Ret a
  | Raise e => q ;; Raise e
  | Call c k => Call c (fun r => finally_ (k r) q)
  | Input pr k => Input pr (fun r => finally_ (k r) q)
  | Print fd l k => Print fd l (finally_ k q)
  | Log lv m k => Log lv m (finally_ k q)
  | LoggingDisable lv k => LoggingDisable lv (finally_ k q)
  | TimeTime k => TimeTime (fun t => finally_ (k t) q)
  end.

(** A library call that raises what the library raises. *)
Definition call (X : Type) (c : libcall X) : prog X :=
  Call c (fun r => match r with inl e => Raise e | inr x => Ret x end).

(** [y_or_n(prompt)]. *)
Definition y_or_n (prompt : string) : prog yn :=
  Input prompt (fun r => match r with inl e => Raise e | inr a => Ret a end).

Definition print (line : string) : prog unit := Print stdout line (Ret tt).
Definition print_err (line : string) : prog unit :=
  Print stderr line (Ret tt).
Definition log_info (msg : string) : prog unit := Log INFO msg (Ret tt).
Definition log_error (msg : string) : prog unit := Log ERROR msg (Ret tt).
Definition logging_disable (level : Z) : prog unit :=
  LoggingDisable level (Ret tt).
Definition time_time : prog Z := TimeTime (fun t => Ret t).

Definition when (b : bool) (p : prog unit) : prog unit :=
  if b then p else Ret tt.

(** [with opening as m: body]: the manager is closed on every way out of
    the body. *)
Definition with_ (A : Type) (opening : libcall Manager)
    (body : Manager -> prog A) : prog A :=
  m <- call opening ;;
  finally_ (body m) (call (Manager_close m)).

(** How a block ends: it falls through to the next statement, or the
    function returns. *)
Inductive ctl : Type := Normal | Returned.

(* ================================================================== *)
(** ** Running a command tree *)

Section Run.

(** The databases and configuration files, as the library sees them. *)
Variable W : Type.

(** A library answers a call in a world and leaves a world. *)
Definition Library : Type := forall X : Type, libcall X -> W -> result X * W.

(** The world, the user at the terminal, the two output streams, the
    state of [logging], the clock, and the record of the calls made, with
    the level [logging] was disabled at when each call was made. *)
Record State : Type := mkState {
  world : W;
  answers : list yn;
  prompts : list string;
  output : list (stream * string);
  disabled : Z;
  logged : list (Z * string);
  clock : nat -> Z;
  reads : nat;
  trace : list anycall;
  levels : list Z
}.

Definition called (X : Type) (c : libcall X) (w : W) (s : State) : State :=
  mkState w (answers s) (prompts s) (output s) (disabled s) (logged s)
          (clock s) (reads s) (trace s ++ [AnyCall c])
          (levels s ++ [disabled s]).

Definition asked (q : string) (rest : list yn) (s : State) : State :=
  mkState (world s) rest (prompts s ++ [q]) (output s) (disabled s)
          (logged s) (clock s) (reads s) (trace s) (levels s).

Definition printed (f : stream) (l : string) (s : State) : State :=
  mkState (world s) (answers s) (prompts s) (output s ++ [(f, l)])
          (disabled s) (logged s) (clock s) (reads s) (trace s) (levels s).

(** [logging.disable(level)] suppresses the records of that severity and
    below. *)
Definition log_record (lv : Z) (m : string) (s : State) : State :=
  mkState (world s) (answers s) (prompts s) (output s) (disabled s)
          (logged s ++ (if lv <=? disabled s then [] else [(lv, m)]))
          (clock s) (reads s) (trace s) (levels s).

Definition set_disabled (lv : Z) (s : State) : State :=
  mkState (world s) (answers s) (prompts s) (output s) lv (logged s)
          (clock s) (reads s) (trace s) (levels s).

Definition ticked (s : State) : State :=
  mkState (world s) (answers s) (prompts s) (output s) (disabled s)
          (logged s) (clock s) (S (reads s)) (trace s) (levels s).

Definition EOF : exn := Exn EOFError "EOF when reading a line".

Variable lib : Library.

Fixpoint run (A : Type) (p : prog A) (s : State) : result A * State :=
  match p with
  | Ret a => (inr a, s)
  | Raise e => (inl e, s)
  | Call c k =>
      run (k (fst (lib c (world s)))) (called c (snd (lib c (world s))) s)
  | Input q k =>
      match answers s with
      | [] => run (k (inl EOF)) (asked q [] s)
      | a :: rest => run (k (inr a)) (asked q rest s)
      end
  | Print f l k => run k (printed f l s)
  | Log lv m k => run k (log_record lv m s)
  | LoggingDisable lv k => run k (set_disabled lv s)
  | TimeTime k => run (k (clock s (reads s))) (ticked s)
  end.

(** The library keeps its side of the classification: a call that only
    reads leaves the world as it was. *)
Definition read_only_calls : Prop :=
  forall (X : Type) (c : libcall X) (w : W),
    mutating c = false -> snd (lib c w) = w.

End Run.

Arguments mkState {W}.

(* ================================================================== *)
(** ** The imported helpers *)

(** What the module imports besides the database libraries: the colour
    codes of [weeutil.bcolors], [weectllib.parse_dates] (its last argument
    is [as_datetime]), [str] of a date, [time.mktime] of a datetime's
    tuple, [weeutil.timestamp_to_string], the tables
    [weewx.units.unit_constants] and [weewx.units.unit_nicknames], and the
    formatting of a duration with a number of decimals.  Dates, datetimes,
    timestamps and clock readings are integers. *)
Record Helpers : Type := mkHelpers {
  BOLD : string;
  ENDC : string;
  parse_dates : option string -> option string -> option string -> bool ->
                result (option Z * option Z);
  str_date : Z -> string;
  mktime : Z -> Z;
  timestamp_to_string : option Z -> string;
  unit_constants : string -> option Z;
  unit_nicknames : Z -> option string;
  fmt_f : nat -> Z -> string
}.

(** [str(x)] of a value that may be [None]. *)
Definition str_opt (o : option string) : string :=
  match o with Some s => s | None => "None" end.

(** [row[0]]. *)
Definition index0 (row : option (list Z)) : prog Z :=
  match row with
  | None => Raise (Exn TypeError "'NoneType' object is not subscriptable")
  | Some [] => Raise (Exn IndexError "tuple index out of range")
  | Some (x :: _) => Ret x
  end.

(** [d[key]] on a table. *)
Definition getitem (X : Type) (key : string) (o : option X) : prog X :=
  match o with
  | Some x => Ret x
  | None => Raise (Exn KeyError key)
  end.

(** [a >= b] on two [str]: Python compares code point by code point, the
    first difference decides, and a proper prefix is smaller. *)
Definition str_ge (a b : string) : bool := String.leb b a.

(* ================================================================== *)
(** ** The handlers *)

Section Handlers.

Variable H : Helpers.

Definition dry_run_banner : string :=
  "This is a dry run. Nothing will actually be done.".
Definition dry_run_footer : string :=
  "This was a dry run. Nothing was actually done.".
Definition nothing_done : string := "Nothing done.".

Definition will_be_used (config_path : string) : string :=
  "The configuration file " ^^ BOLD H ^^ config_path ^^ ENDC H
    ^^ " will be used.".

(** Common preamble, used by most of the action functions. *)
Definition _prepare (config_path db_binding : string) (dry_run : bool)
  : prog (string * Config * string) :=
  when dry_run (print dry_run_banner) ;;
  '(config_path, config_dict) <- call (weecfg_read_config config_path) ;;
  print (will_be_used config_path) ;;
  manager_dict <- call (get_manager_dict_from_config config_dict db_binding) ;;
  let database_name := dd_database_name (md_database_dict manager_dict) in
  Ret (config_path, config_dict, database_name).

(** Create a new database. *)
Definition create_database (config_path db_binding : string)
    (dry_run : bool) : prog unit :=
  when dry_run (print dry_run_banner) ;;
  '(config_path, config_dict) <- call (weecfg_read_config config_path) ;;
  print (will_be_used config_path) ;;
  try_
    (with_ (open_manager_with_config config_dict db_binding false)
       (fun dbmanager =>
          print ("Database '" ^^ m_database_name dbmanager
                   ^^ "' already exists. Nothing done.")))
    (fun e =>
       if is_a e [OperationalError] then
         Some (if negb dry_run then
                 with_ (open_manager_with_config config_dict db_binding true)
                   (fun dbmanager =>
                      print ("Created database '"
                               ^^ m_database_name dbmanager ^^ "'."))
               else Ret tt)
       else None).

(** Drop the daily summary from a WeeWX database. *)
Definition drop_daily (config_path db_binding : string) (dry_run : bool)
  : prog unit :=
  '(config_path, config_dict, database_name) <-
     _prepare config_path db_binding dry_run ;;
  print ("Proceeding will delete all your daily summaries from database '"
           ^^ database_name ^^ "'") ;;
  ans <- y_or_n "Are you sure you want to proceed (y/n)? " ;;
  match ans with
  | ans_y =>
      t1 <- time_time ;;
      print ("Dropping daily summary tables from '" ^^ database_name
               ^^ "' ... ") ;;
      try_
        (with_ (open_manager_with_config config_dict db_binding false)
           (fun dbmanager =>
              try_else
                (when (negb dry_run) (call (dbm_drop_daily dbmanager)))
                (fun e =>
                   if is_a e [OperationalError] then
                     Some (print_err ("Error '" ^^ exn_msg e ^^ "'") ;;
                           print ("Drop daily summary tables failed for "
                                    ^^ "database '" ^^ database_name ^^ "'"))
                   else None)
                (fun _ =>
                   t2 <- time_time ;;
                   let tdiff := t2 - t1 in
                   print ("Daily summary tables dropped from database '"
                            ^^ database_name ^^ "' in " ^^ fmt_f H 2 tdiff
                            ^^ " seconds"))))
        (fun e =>
           if is_a e [OperationalError] then
             Some (print ("No daily summaries found in database '"
                            ^^ database_name ^^ "'. Nothing done."))
           else None)
  | ans_n => print nothing_done
  end ;;
  when dry_run (print dry_run_footer).

(** Rebuild the daily summaries. *)
Definition rebuild_daily (config_path : string)
    (date from_date to_date : option string) (db_binding : string)
    (dry_run : bool) : prog unit :=
  '(config_path, config_dict, database_name) <-
     _prepare config_path db_binding dry_run ;;
  '(from_d, to_d) <-
     match parse_dates H date from_date to_date false with
     | inl e => Raise e
     | inr ds => Ret ds
     end ;;
  let msg :=
    match from_d, to_d with
    | None, None => "All daily summaries will be rebuilt."
    | Some f, None =>
        "Daily summaries starting with " ^^ str_date H f
          ^^ " will be rebuilt."
    | None, Some t =>
        "Daily summaries through " ^^ str_date H t ^^ " will be rebuilt."
    | Some f, Some t =>
        if f =? t then
          "Daily summary for " ^^ str_date H f ^^ " will be rebuilt."
        else
          "Daily summaries from " ^^ str_date H f ^^ " through "
            ^^ str_date H t ^^ ", inclusive, will be rebuilt."
    end in
  log_info msg ;;
  print msg ;;
  ans <- y_or_n ("Rebuild the daily summaries in the database '"
                   ^^ database_name ^^ "'? (y/n) ") ;;
  match ans with
  | ans_n => log_info nothing_done ;; print nothing_done
  | ans_y =>
      t1 <- time_time ;;
      log_info ("Rebuilding daily summaries in database '" ^^ database_name
                  ^^ "' ...") ;;
      print ("Rebuilding daily summaries in database '" ^^ database_name
               ^^ "' ...") ;;
      if dry_run then print dry_run_footer
      else
        '(nrecs, ndays) <-
           with_ (open_manager_with_config config_dict db_binding true)
             (fun dbm => call (dbm_backfill_day_summary dbm from_d to_d 20)) ;;
        t2 <- time_time ;;
        let tdiff := t2 - t1 in
        log_info ("Rebuild of daily summaries in database '"
                    ^^ database_name ^^ "' complete.") ;;
        if negb (nrecs =? 0) then
          when (nrecs >=? 1000) (print "") ;;
          let msg :=
            if ndays =? 1 then
              "Processed " ^^ str_Z nrecs
                ^^ " records to rebuild 1 daily summary in "
                ^^ fmt_f H 2 tdiff ^^ " seconds."
            else
              "Processed " ^^ str_Z nrecs ^^ " records to rebuild "
                ^^ str_Z ndays ^^ " daily summaries in "
                ^^ fmt_f H 2 tdiff ^^ " seconds." in
          print msg ;;
          print ("Rebuild of daily summaries in database '"
                   ^^ database_name ^^ "' complete.")
        else
          print ("Daily summaries up to date in '" ^^ database_name ^^ "'.")
  end.

(** Add a single column to the database. *)
Definition add_column (config_path column_name : string)
    (column_type : option string) (db_binding : string) (dry_run : bool)
  : prog unit :=
  '(config_path, config_dict, database_name) <-
     _prepare config_path db_binding dry_run ;;
  let column_type :=
    match column_type with
    | Some t => if String.eqb t "" then "REAL" else t
    | None => "REAL"
    end in
  ans <- y_or_n ("Add new column '" ^^ column_name ^^ "' of type '"
                   ^^ column_type ^^ "' to database '" ^^ database_name
                   ^^ "'? (y/n) ") ;;
  match ans with
  | ans_y =>
      with_ (open_manager_with_config config_dict db_binding false)
        (fun dbm =>
           when (negb dry_run)
                (call (dbm_add_column dbm column_name column_type))) ;;
      print ("New column " ^^ column_name ^^ " of type " ^^ column_type
               ^^ " added to database.")
  | ans_n => print nothing_done
  end ;;
  when dry_run (print dry_run_footer).

Definition rename_column (config_path column_name new_name : string)
    (db_binding : string) (dry_run : bool) : prog unit :=
  '(config_path, config_dict, database_name) <-
     _prepare config_path db_binding dry_run ;;
  ans <- y_or_n ("Rename column '" ^^ column_name ^^ "' to '" ^^ new_name
                   ^^ "' in database " ^^ database_name ^^ "? (y/n) ") ;;
  match ans with
  | ans_y =>
      with_ (open_manager_with_config config_dict db_binding false)
        (fun dbm =>
           when (negb dry_run)
                (call (dbm_rename_column dbm column_name new_name))) ;;
      print ("Column '" ^^ column_name ^^ "' renamed to '" ^^ new_name
               ^^ "'.")
  | ans_n => print nothing_done
  end ;;
  when dry_run (print dry_run_footer).

(** Drop a set of columns from the database. *)
Definition drop_columns (config_path : string) (column_names : list string)
    (db_binding : string) (dry_run : bool) : prog unit :=
  '(config_path, config_dict, database_name) <-
     _prepare config_path db_binding dry_run ;;
  ans <- y_or_n ("Drop column(s) '" ^^ join ", " column_names
                   ^^ "' from the database? (y/n) ") ;;
  match ans with
  | ans_y =>
      let drop_set := py_set column_names in
      print "This may take a while..." ;;
      when (negb dry_run)
        (with_ (open_manager_with_config config_dict db_binding false)
           (fun dbm =>
              try_else (call (dbm_drop_columns dbm drop_set))
                (fun e =>
                   if is_a e [NoColumnError] then
                     Some (print_err (exn_msg e) ;; print nothing_done)
                   else None)
                (fun _ =>
                   print ("Column(s) '" ^^ join ", " column_names
                            ^^ "' dropped from the database."))))
  | ans_n => print nothing_done
  end ;;
  when dry_run (print dry_run_footer).

(** Create a new database, then populate it with the contents of an old
    database, but use the current configuration options. *)
Definition reconfigure_database (config_path db_binding : string)
    (dry_run : bool) : prog unit :=
  '(config_path, config_dict, database_name) <-
     _prepare config_path db_binding dry_run ;;
  manager_dict <- call (get_manager_dict_from_config config_dict db_binding) ;;
  let new_database_dict :=
    mkDatabaseDict
      (dd_database_name (md_database_dict manager_dict) ^^ "_new")
      (dd_driver (md_database_dict manager_dict)) in
  c <- try_else
         (when (negb dry_run) (call (weedb_create new_database_dict)))
         (fun e =>
            if is_a e [DatabaseExists] then
              Some (ans <- y_or_n ("New database '"
                                     ^^ dd_database_name new_database_dict
                                     ^^ "' already exists. "
                                     ^^ "Delete it first? (y/n) ") ;;
                    match ans with
                    | ans_y =>
                        call (weedb_drop new_database_dict) ;; Ret Normal
                    | ans_n => print nothing_done ;; Ret Returned
                    end)
            else None)
         (fun _ => Ret Normal) ;;
  match c with
  | Returned => Ret tt
  | Normal =>
      old_unit_system <-
        with_ (Manager_open (md_database_dict manager_dict) None)
          (fun old_dbmanager => Ret (m_std_unit_system old_dbmanager)) ;;
      match old_unit_system with
      | None =>
          print "Old database has not been initialized. Nothing to be done."
      | Some old_unit_system =>
          target_unit_system <-
            match cfg_target_unit config_dict with
            | None => Ret None
            | Some target_unit_nickname =>
                u <- getitem (upper target_unit_nickname)
                       (unit_constants H (upper target_unit_nickname)) ;;
                Ret (Some u)
            end ;;
          print ("Copying database '"
                   ^^ dd_database_name (md_database_dict manager_dict)
                   ^^ "' to '" ^^ dd_database_name new_database_dict ^^ "'") ;;
          match target_unit_system with
          | None =>
              old_nick <- getitem (str_Z old_unit_system)
                            (unit_nicknames H old_unit_system) ;;
              print ("The new database will use the same unit system as "
                       ^^ "the old ('" ^^ old_nick ^^ "').")
          | Some target =>
              if old_unit_system =? target then
                old_nick <- getitem (str_Z old_unit_system)
                              (unit_nicknames H old_unit_system) ;;
                print ("The new database will use the same unit system as "
                         ^^ "the old ('" ^^ old_nick ^^ "').")
              else
                old_nick <- getitem (str_Z old_unit_system)
                              (unit_nicknames H old_unit_system) ;;
                new_nick <- getitem (str_Z target)
                              (unit_nicknames H target) ;;
                print ("Units will be converted from the '" ^^ old_nick
                         ^^ "' system to the '" ^^ new_nick ^^ "' system.")
          end ;;
          ans <- y_or_n "Are you sure you wish to proceed? (y/n) " ;;
          match ans with
          | ans_y =>
              t1 <- time_time ;;
              call (manager_reconfig (md_database_dict manager_dict)
                      new_database_dict target_unit_system
                      (md_schema manager_dict) dry_run) ;;
              t2 <- time_time ;;
              let tdiff := t2 - t1 in
              print ("Database '"
                       ^^ dd_database_name (md_database_dict manager_dict)
                       ^^ "' copied to '"
                       ^^ dd_database_name new_database_dict ^^ "' in "
                       ^^ fmt_f H 2 tdiff ^^ " seconds.")
          | ans_n => print nothing_done
          end ;;
          when dry_run (print dry_run_footer)
      end
  end.

Definition nothing_Done_aborting : string := "Nothing Done. Aborting.".
Definition nothing_done_aborting : string := "Nothing done. Aborting.".

Definition error_accessing (database_name : string) : string :=
  "Error accessing destination database '" ^^ database_name ^^ "'.".

(** Transfer 'archive' data from one database to another. *)
Definition transfer_database (config_path : string)
    (dest_binding : option string) (db_binding : string) (dry_run : bool)
  : prog unit :=
  match dest_binding with
  | None =>
      print_err "Destination binding not specified. Nothing Done. Aborting."
  | Some dest_binding =>
  if String.eqb dest_binding "" then
    print_err "Destination binding not specified. Nothing Done. Aborting."
  else
  when dry_run (print dry_run_banner) ;;
  '(config_path, config_dict) <- call (weecfg_read_config config_path) ;;
  print (will_be_used config_path) ;;
  src_manager_dict <-
    call (get_manager_dict_from_config config_dict db_binding) ;;
  dest <-
    try_else (call (get_manager_dict_from_config config_dict dest_binding))
      (fun e =>
         if is_a e [UnknownBinding] then
           Some (print ("Unknown destination binding '" ^^ dest_binding
                          ^^ "'. Please confirm the destination binding.") ;;
                 print_err nothing_Done_aborting ;;
                 Ret None)
         else if is_a e [UnknownDatabase] then
           Some (print_err ("Error accessing destination database: "
                              ^^ exn_msg e) ;;
                 print_err nothing_Done_aborting ;;
                 Ret None)
         else if is_a e [ValueError; AttributeError] then
           Some (print_err "Error accessing destination database." ;;
                 print_err ("Maybe the destination schema is incorrectly "
                              ^^ "specified in binding '" ^^ dest_binding
                              ^^ "' in weewx.conf?") ;;
                 print_err nothing_Done_aborting ;;
                 Ret None)
         else if is_a e [UnknownDatabaseType] then
           Some (print_err "Error accessing destination database." ;;
                 print_err ("Maybe the destination database is incorrectly "
                              ^^ "defined in weewx.conf?") ;;
                 print_err nothing_Done_aborting ;;
                 Ret None)
         else None)
      (fun d => Ret (Some d)) ;;
  match dest with
  | None => Ret tt
  | Some dest_manager_dict =>
  let dest_name := dd_database_name (md_database_dict dest_manager_dict) in
  c <- with_ (Manager_open (md_database_dict src_manager_dict) None)
         (fun src_manager =>
            row <- call (dbm_getSql src_manager
                           ("SELECT COUNT(dateTime) from "
                              ^^ m_table_name src_manager ^^ ";")) ;;
            num_recs <- index0 row ;;
            if num_recs =? 0 then
              print ("No records found in source database '"
                       ^^ m_database_name src_manager ^^ "'.") ;;
              print nothing_done_aborting ;;
              Ret Returned
            else
              ans <- y_or_n ("Transfer " ^^ str_Z num_recs
                               ^^ " records from source database '"
                               ^^ m_database_name src_manager
                               ^^ "' to destination database '"
                               ^^ dest_name ^^ "'? (y/n) ") ;;
              match ans with
              | ans_n => print nothing_done ;; Ret Returned
              | ans_y =>
                  t1 <- time_time ;;
                  let nrecs := 0 in
                  try_
                    (with_ (Manager_open_with_create
                              (md_database_dict dest_manager_dict)
                              (md_table_name dest_manager_dict)
                              (md_schema dest_manager_dict))
                       (fun dest_manager =>
                          print "Transferring, this may take a while.... " ;;
                          nrecs <-
                            (if negb dry_run then
                               logging_disable INFO ;;
                               n <- call (dbm_addRecord dest_manager
                                            src_manager) ;;
                               logging_disable NOTSET ;;
                               Ret n
                             else Ret nrecs) ;;
                          t2 <- time_time ;;
                          let tdiff := t2 - t1 in
                          print (LF ^^ "Completed.") ;;
                          print (str_Z nrecs
                                   ^^ " records transferred from source "
                                   ^^ "database '"
                                   ^^ m_database_name src_manager
                                   ^^ "' to destination database '"
                                   ^^ m_database_name dest_manager ^^ "' in "
                                   ^^ fmt_f H 2 tdiff ^^ " seconds.")))
                    (fun e =>
                       if is_a e [ImportError] then
                         Some (print_err (error_accessing dest_name) ;;
                               print_err nothing_done_aborting ;;
                               Raise e)
                       else if is_a e [OSError; OperationalError] then
                         Some (print_err (error_accessing dest_name) ;;
                               print_err ("Maybe it does not exist (MySQL) "
                                            ^^ "or is incorrectly defined in "
                                            ^^ "weewx.conf?") ;;
                               print_err nothing_done_aborting ;;
                               Raise e)
                       else None) ;;
                  Ret Normal
              end) ;;
  match c with
  | Returned => Ret tt
  | Normal => when dry_run (print dry_run_footer)
  end
  end
  end.

(** [first_ts - 1], where [first_ts] may be [None]. *)
Definition minus_one (first_ts : option Z) : prog Z :=
  match first_ts with
  | Some t => Ret (t - 1)
  | None =>
      Raise (Exn TypeError
               "unsupported operand type(s) for -: 'NoneType' and 'int'")
  end.

(** Calculate any missing derived observations and save to database. *)
Definition calc_missing (config_path : string)
    (date from_date to_date : option string) (db_binding : string)
    (dry_run : bool) : prog unit :=
  '(config_path, config_dict, database_name) <-
     _prepare config_path db_binding dry_run ;;
  log_info "Preparing to calculate missing derived observations..." ;;
  manager_dict <- call (get_manager_dict_from_config config_dict db_binding) ;;
  let table_name := md_table_name manager_dict in
  '(first_ts, last_ts) <-
     with_ (Manager_open (md_database_dict manager_dict) (Some table_name))
       (fun dbmanager =>
          first_ts <- call (dbm_firstGoodStamp dbmanager) ;;
          last_ts <- call (dbm_lastGoodStamp dbmanager) ;;
          Ret (first_ts, last_ts)) ;;
  '(start_dt, stop_dt) <-
     match parse_dates H date from_date to_date true with
     | inl e => Raise e
     | inr ds => Ret ds
     end ;;
  start_ts <- match start_dt with
              | Some dt => Ret (mktime H dt)
              | None => minus_one first_ts
              end ;;
  let stop_ts := match stop_dt with
                 | Some dt => Some (mktime H dt)
                 | None => last_ts
                 end in
  when dry_run
    (let msg := "This is a dry run, missing derived observations will be "
                  ^^ "calculated but not saved" in
     log_info msg ;; print msg) ;;
  let _head := "Missing derived observations will be calculated " in
  let _tail :=
    match start_dt, stop_dt with
    | None, None => "for all records."
    | Some _, None =>
        "from " ^^ timestamp_to_string H (Some start_ts)
          ^^ " through to the end (" ^^ timestamp_to_string H stop_ts ^^ ")."
    | None, Some _ =>
        "from the beginning (" ^^ timestamp_to_string H (Some start_ts)
          ^^ ") through to " ^^ timestamp_to_string H stop_ts ^^ "."
    | Some _, Some _ =>
        "from " ^^ timestamp_to_string H (Some start_ts) ^^ " through to "
          ^^ timestamp_to_string H stop_ts ^^ " inclusive."
    end in
  let msg := _head ^^ _tail in
  log_info msg ;;
  print msg ;;
  ans <- y_or_n "Proceed? (y/n) " ;;
  match ans with
  | ans_n => log_info nothing_done ;; print nothing_done
  | ans_y =>
      t1 <- time_time ;;
      let calc_missing_config_dict :=
        mkCalcMissingConfig "Calculate Missing Derived Observations"
          db_binding start_ts stop_ts 20 dry_run in
      call (CalcMissing_init config_dict calc_missing_config_dict) ;;
      log_info "Calculating missing derived observations..." ;;
      print "Calculating missing derived observations..." ;;
      try_else (call (CalcMissing_run config_dict calc_missing_config_dict))
        (fun e =>
           if is_a e [UnknownBinding] then
             Some (let msg := "Error: '" ^^ exn_msg e ^^ "'" in
                   print msg ;;
                   log_error msg ;;
                   print ("Perhaps StdWXCalculate is using a different "
                            ^^ "binding. Check configuration file "
                            ^^ "[StdWXCalculate] stanza") ;;
                   Raise (Exn SystemExit nothing_done_aborting))
           else None)
        (fun _ =>
           t2 <- time_time ;;
           let msg := "Missing derived observations calculated in "
                        ^^ fmt_f H 2 (t2 - t1) ^^ " seconds" in
           log_info msg ;;
           print msg)
  end.

Definition fix_not_required : string :=
  "Interval Weighting Fix is not required.".
Definition recommend_update : string :=
  "Recommend running --update to recalculate interval weightings.".

(** Check the database for any issues. *)
Definition check (config_path db_binding : string) : prog unit :=
  '(config_path, config_dict, database_name) <-
     _prepare config_path db_binding false ;;
  print "Checking daily summary tables version..." ;;
  daily_summary_version <-
    with_ (open_manager_with_config config_dict db_binding false)
      (fun dbm => call (dbm_read_metadata dbm "Version")) ;;
  let msg := "Daily summary tables are at version "
               ^^ str_opt daily_summary_version ^^ "." in
  log_info msg ;;
  print msg ;;
  match daily_summary_version with
  | Some v =>
      if str_ge v "2.0" then
        log_info fix_not_required ;; print fix_not_required
      else print recommend_update
  | None => print recommend_update
  end.

(** Recalculate the weighted sums in the daily summaries. *)
Definition reweight_daily (config_path : string)
    (date from_date to_date : option string) (db_binding : string)
    (dry_run : bool) : prog unit :=
  '(config_path, config_dict, database_name) <-
     _prepare config_path db_binding dry_run ;;
  '(from_d, to_d) <-
     match parse_dates H date from_date to_date false with
     | inl e => Raise e
     | inr ds => Ret ds
     end ;;
  let msg :=
    match from_d, to_d with
    | None, None =>
        "The weighted sums in all the daily summaries will be recalculated."
    | Some f, None =>
        "The weighted sums in the daily summaries from " ^^ str_date H f
          ^^ " through the end will be recalculated."
    | None, Some t =>
        "The weighted sums in the daily summaries from the beginning "
          ^^ "through " ^^ str_date H t ^^ "will be recalculated."
    | Some f, Some t =>
        if f =? t then
          "The weighted sums in the daily summary for " ^^ str_date H f
            ^^ " will be recalculated."
        else
          "The weighted sums in the daily summaries from " ^^ str_date H f
            ^^ " through " ^^ str_date H t
            ^^ ", inclusive, will be recalculated."
    end in
  log_info msg ;;
  print msg ;;
  ans <- y_or_n "Proceed (y/n)? " ;;
  match ans with
  | ans_n => log_info nothing_done ;; print nothing_done
  | ans_y =>
      t1 <- time_time ;;
      with_ (open_manager_with_config config_dict db_binding false)
        (fun dbmanager =>
           let msg := "Recalculating the weighted summaries in database '"
                        ^^ database_name ^^ "' ..." in
           log_info msg ;;
           print msg ;;
           when (negb dry_run)
                (call (dbm_recalculate_weights dbmanager from_d to_d))) ;;
      t2 <- time_time ;;
      let msg := "Finished reweighting in " ^^ fmt_f H 1 (t2 - t1)
                   ^^ " seconds." in
      log_info msg ;;
      print "" ;;
      print msg ;;
      when dry_run (print dry_run_footer)
  end.

End Handlers.

(* ================================================================== *)
(** ** The reference library

    A small model of the world the libraries act on: configuration files,
    and databases with a schema, archive records, daily summaries and the
    version metadata. *)

Module RefLib.

(** Dictionaries as association lists. *)
Fixpoint lookup (X : Type) (key : string) (l : list (string * X))
  : option X :=
  match l with
  | [] => None
  | (k, x) :: r => if String.eqb key k then Some x else lookup key r
  end.

Fixpoint remove (X : Type) (key : string) (l : list (string * X))
  : list (string * X) :=
  match l with
  | [] => []
  | (k, x) :: r =>
      if String.eqb key k then remove key r else (k, x) :: remove key r
  end.

Definition put (X : Type) (key : string) (x : X) (l : list (string * X))
  : list (string * X) :=
  (key, x) :: remove key l.

(** An archive record (section 3): its timestamp, the interval it covers,
    which is its weight, and its values by observation type.  A value may
    be null, and a type the record does not mention has no value. *)
Record ArchiveRecord : Type := mkRecord {
  dateTime : Z;
  interval : Z;
  values : list (string * option Z)
}.

Definition value_of (ty : string) (r : ArchiveRecord) : option Z :=
  match lookup ty (values r) with
  | Some v => v
  | None => None
  end.

(** A row of the daily summary, for one observation type and one day
    (section 3): count, sum, the minimum and the maximum, each with the
    time it was recorded at, the weighted sum and the total weight.  There
    is no minimum and no maximum as long as no value has been counted. *)
Record DaySummary : Type := mkDaySummary {
  ds_count : Z;
  ds_sum : Z;
  ds_min : option (Z * Z);
  ds_max : option (Z * Z);
  ds_wsum : Z;
  ds_sumtime : Z
}.

(** The daily summaries, keyed by observation type and day. *)
Definition SummaryTable : Type := list ((string * Z) * DaySummary).

(** A database.  [db_zone] is the local time zone the archive is
    configured for: the offset of local time from UTC, in seconds, that is
    in force at an instant. *)
Record Database : Type := mkDatabase {
  db_schema : Schema;
  db_records : list ArchiveRecord;
  db_daily : option SummaryTable;
  db_version : option string;
  db_unit : option Z;
  db_zone : Z -> Z
}.

Record World : Type := mkWorld {
  w_files : list (string * Config);
  w_dbs : list (string * Database)
}.

Definition key_eqb (a b : string * Z) : bool :=
  String.eqb (fst a) (fst b) && (snd a =? snd b).

Fixpoint row_of (key : string * Z) (t : SummaryTable) : option DaySummary :=
  match t with
  | [] => None
  | (k, row) :: r => if key_eqb key k then Some row else row_of key r
  end.

Fixpoint set_row (key : string * Z) (row : DaySummary) (t : SummaryTable)
  : SummaryTable :=
  match t with
  | [] => [(key, row)]
  | (k, x) :: r =>
      if key_eqb key k then (k, row) :: r else (k, x) :: set_row key row r
  end.

(** Local time, and the calendar day of a timestamp: the days of the
    archive's zone, counted from the epoch. *)
Definition local_time (db : Database) (ts : Z) : Z := ts + db_zone db ts.

Definition day_of (db : Database) (ts : Z) : Z := local_time db ts / 86400.

(** A timestamp falls in day [D] when its local time lies between the
    midnight that begins [D] and the one that ends it. *)
Definition falls_in (db : Database) (D : Z) (ts : Z) : bool :=
  (86400 * D <=? local_time db ts) && (local_time db ts <? 86400 * (D + 1)).

Definition get_db (name : string) (w : World) : option Database :=
  lookup name (w_dbs w).

Definition put_db (name : string) (db : Database) (w : World) : World :=
  mkWorld (w_files w) (put name db (w_dbs w)).

Definition del_db (name : string) (w : World) : World :=
  mkWorld (w_files w) (remove name (w_dbs w)).

(* ---------------------------------------------------------------- *)
(** *** The summary builder *)

(** The observation types a database keeps summaries of: the columns of
    its schema but the three that describe the record itself. *)
Definition obs_types (sch : Schema) : list string :=
  nodup string_dec
    (filter (fun c => negb (existsb (String.eqb c)
                              ["dateTime"; "usUnits"; "interval"]))
            (map fst sch)).

(** The row of a day nothing has been counted in yet. *)
Definition empty_row : DaySummary := mkDaySummary 0 0 None None 0 0.

(** Folding one more value into a row: the value [x], recorded at [ts]
    with weight [w]. *)
Definition add_value (row : DaySummary) (ts w x : Z) : DaySummary :=
  mkDaySummary
    (ds_count row + 1)
    (ds_sum row + x)
    (match ds_min row with
     | Some (m, t) => if x <? m then Some (x, ts) else Some (m, t)
     | None => Some (x, ts)
     end)
    (match ds_max row with
     | Some (m, t) => if m <? x then Some (x, ts) else Some (m, t)
     | None => Some (x, ts)
     end)
    (ds_wsum row + x * w)
    (ds_sumtime row + w).

(** Folding a record into the row of an observation type.  A null value
    adds nothing: sum over count is to be the simple average of the
    values, and weighted sum over total weight their time-weighted average
    (the invariant of section 3), so what is not a value is not counted. *)
Definition add_record (ty : string) (row : DaySummary) (r : ArchiveRecord)
  : DaySummary :=
  match value_of ty r with
  | Some x => add_value row (dateTime r) (interval r) x
  | None => row
  end.

Definition row_or_empty (o : option DaySummary) : DaySummary :=
  match o with Some row => row | None => empty_row end.

(** Folding a record into the aggregate of its day [d] and of one
    observation type. *)
Definition fold_type (d : Z) (r : ArchiveRecord) (t : SummaryTable)
    (ty : string) : SummaryTable :=
  set_row (ty, d) (add_record ty (row_or_empty (row_of (ty, d) t)) r) t.

(** Folding a record into the aggregates of its day, one observation type
    after the other. *)
Definition fold_record (db : Database) (t : SummaryTable)
    (r : ArchiveRecord) : SummaryTable :=
  fold_left (fold_type (day_of db (dateTime r)) r)
            (obs_types (db_schema db)) t.

Definition in_range (start_d stop_d : option Z) (d : Z) : bool :=
  match start_d with Some a => a <=? d | None => true end
  && match stop_d with Some b => d <=? b | None => true end.

Definition has_row (key : string * Z) (t : SummaryTable) : bool :=
  match row_of key t with Some _ => true | None => false end.

(** The rows of [fresh] replace those of [old] for their keys; the rows of
    [old] for the other keys stay. *)
Definition overlay (fresh old : SummaryTable) : SummaryTable :=
  fresh ++ filter (fun kr => negb (has_row (fst kr) fresh)) old.

(** Modelled from the spec: [Manager.backfill_day_summary], which is in
    [weewx.manager] and not in this module.  Section 4.1: the records of
    the days in the bounds, unbounded meaning all history, are scanned in
    store order, grouped by calendar day in the zone of the archive, and
    each is folded into the aggregate of its day and observation type; the
    aggregate of a rebuilt day starts afresh and replaces the row the
    table held; the result is the number of records processed and of days
    rebuilt.  The batches of [trans_days] days are transactions, which a
    run without failure does not show. *)
Definition backfill_day_summary (start_d stop_d : option Z)
    (trans_days : Z) (db : Database) : (Z * Z) * Database :=
  let recs :=
    filter (fun r => in_range start_d stop_d (day_of db (dateTime r)))
           (db_records db) in
  let fresh := fold_left (fold_record db) recs [] in
  let days := nodup Z.eq_dec (map (fun r => day_of db (dateTime r)) recs) in
  let old := match db_daily db with Some t => t | None => [] end in
  ((Z.of_nat (List.length recs), Z.of_nat (List.length days)),
   mkDatabase (db_schema db) (db_records db) (Some (overlay fresh old))
              (db_version db) (db_unit db) (db_zone db)).

(** Modelled from the spec: [Manager.recalculate_weights], which is in
    [weewx.manager].  Section 4.2: the weighted sum and the total weight
    of the existing rows in the bounds are recomputed from the interval
    of the day's records; count, sum, minimum and maximum stay. *)
Definition reweight_row (db : Database) (ty : string) (d : Z)
    (row : DaySummary) : DaySummary :=
  let recs := filter (fun r => day_of db (dateTime r) =? d) (db_records db) in
  mkDaySummary (ds_count row) (ds_sum row) (ds_min row) (ds_max row)
    (fold_left (fun a r => match value_of ty r with
                           | Some x => a + x * interval r
                           | None => a
                           end) recs 0)
    (fold_left (fun a r => match value_of ty r with
                           | Some _ => a + interval r
                           | None => a
                           end) recs 0).

Definition recalculate_weights (start_d stop_d : option Z) (db : Database)
  : Database :=
  mkDatabase (db_schema db) (db_records db)
    (option_map
       (map (fun kr : (string * Z) * DaySummary =>
               if in_range start_d stop_d (snd (fst kr))
               then (fst kr,
                     reweight_row db (fst (fst kr)) (snd (fst kr)) (snd kr))
               else kr))
       (db_daily db))
    (db_version db) (db_unit db) (db_zone db).

Definition has_value (ty : string) (r : ArchiveRecord) : bool :=
  match value_of ty r with Some _ => true | None => false end.

(** The values a list of records holds for an observation type, each with
    the time and the interval of its record. *)
Definition samples (ty : string) (rs : list ArchiveRecord)
  : list (Z * Z * Z) :=
  flat_map (fun r => match value_of ty r with
                     | Some x => [(dateTime r, interval r, x)]
                     | None => []
                     end) rs.

(** A row that is complete and consistent for a list of samples: the
    count is their number, the sum and the weighted sum are theirs, the
    total weight is the sum of their intervals, and the minimum and the
    maximum, absent exactly when there is no sample, bound every value and
    each is the value of a sample, with its time.  (Sum over count is then
    the simple average, weighted sum over total weight the time-weighted
    one.) *)
Definition summarises (row : DaySummary) (vs : list (Z * Z * Z)) : Prop :=
  ds_count row = Z.of_nat (List.length vs)
  /\ ds_sum row = fold_right Z.add 0 (map (fun v => snd v) vs)
  /\ ds_wsum row
     = fold_right Z.add 0 (map (fun v => snd v * snd (fst v)) vs)
  /\ ds_sumtime row = fold_right Z.add 0 (map (fun v => snd (fst v)) vs)
  /\ match ds_min row with
     | None => vs = []
     | Some (m, t) =>
         (forall v, In v vs -> m <= snd v) /\ exists w, In (t, w, m) vs
     end
  /\ match ds_max row with
     | None => vs = []
     | Some (m, t) =>
         (forall v, In v vs -> snd v <= m) /\ exists w, In (t, w, m) vs
     end.

(** The records whose timestamp falls in a day. *)
Definition records_of_day (db : Database) (day : Z) : list ArchiveRecord :=
  filter (fun r => falls_in db day (dateTime r)) (db_records db).

(** The row the database holds for an observation type and a day. *)
Definition daily_row (db : Database) (ty : string) (day : Z)
  : option DaySummary :=
  match db_daily db with
  | Some t => row_of (ty, day) t
  | None => None
  end.

(* ---------------------------------------------------------------- *)
(** *** Columns *)

Definition has_column (sch : Schema) (name : string) : bool :=
  existsb (fun c => String.eqb name (fst c)) sch.

Definition no_column_msg (name : string) : string :=
  "Cannot DROP '" ^^ name ^^ "'; column does not exist.".

(** An error message names a column when the name stands in it. *)
Definition names_column (msg n : string) : Prop :=
  exists pre post, msg = pre ^^ n ^^ post.

(** The first of the requested names the schema lacks. *)
Definition first_missing (sch : Schema) (names : list string)
  : option string :=
  find (fun n => negb (has_column sch n)) names.

(** Modelled from the spec: [Manager.drop_columns], which is in
    [weewx.manager].  Section 4.3: it takes a set of names, fails with
    NoColumnError listing the first missing name, and leaves the schema
    unchanged if any requested name is missing.  [names] is the set in the
    order the manager goes through it. *)
Definition drop_columns_db (names : list string) (db : Database)
  : result Database :=
  match first_missing (db_schema db) names with
  | Some n => inl (Exn NoColumnError (no_column_msg n))
  | None =>
      inr (mkDatabase
             (filter (fun c => negb (existsb (String.eqb (fst c)) names))
                     (db_schema db))
             (db_records db) (db_daily db) (db_version db) (db_unit db)
             (db_zone db))
  end.

(** Modelled from the spec: [Manager.add_column] and
    [Manager.rename_column], which are in [weewx.manager].  Section 4.3:
    adding fails if the name is already present (the specification's
    ColumnExists, a class this module never names, is represented by
    OperationalError), renaming fails with NoColumnError if the source
    name is absent. *)
Definition add_column_db (name type : string) (db : Database)
  : result Database :=
  if has_column (db_schema db) name then
    inl (Exn OperationalError ("duplicate column name: " ^^ name))
  else
    inr (mkDatabase (db_schema db ++ [(name, type)]) (db_records db)
                    (db_daily db) (db_version db) (db_unit db)
                    (db_zone db)).

Definition rename_column_db (name new_name : string) (db : Database)
  : result Database :=
  if has_column (db_schema db) name then
    inr (mkDatabase
           (map (fun c => if String.eqb name (fst c)
                          then (new_name, snd c) else c) (db_schema db))
           (db_records db) (db_daily db) (db_version db) (db_unit db)
           (db_zone db))
  else inl (Exn NoColumnError ("no such column: " ^^ name)).

(* ---------------------------------------------------------------- *)
(** *** The transition function *)

Definition manager_of (name table : string) (db : Database) : Manager :=
  mkManager name table (db_unit db).

(** A database [weedb.create] has just made: no tables yet. *)
Definition created_db : Database :=
  mkDatabase [] [] None None None (fun _ => 0).

(** A database with its archive table, and with the daily summary tables
    when the manager that initializes it keeps them. *)
Definition initialized_db (sch : Schema) (daily : bool) : Database :=
  mkDatabase sch [] (if daily then Some [] else None) None None
             (fun _ => 0).

Definition no_database (name : string) : exn :=
  Exn OperationalError ("no such database: " ^^ name).

Definition on_db (X : Type) (name : string) (w : World)
    (f : Database -> result X * World) : result X * World :=
  match get_db name w with
  | Some db => f db
  | None => (inl (no_database name), w)
  end.

(** An update of one database that may fail. *)
Definition update_db (name : string) (w : World)
    (f : Database -> result Database) : result unit * World :=
  on_db name w (fun db =>
                  match f db with
                  | inl e => (inl e, w)
                  | inr db' => (inr tt, put_db name db' w)
                  end).

Definition has_stamp (rs : list ArchiveRecord) (ts : Z) : bool :=
  existsb (fun r => dateTime r =? ts) rs.

(** The records of [src] whose timestamp [dest] does not hold yet. *)
Definition new_records (dest src : list ArchiveRecord) : list ArchiveRecord :=
  filter (fun r => negb (has_stamp dest (dateTime r))) src.

Definition first_stamp (rs : list ArchiveRecord) : option Z :=
  fold_left (fun acc r =>
               match acc with
               | None => Some (dateTime r)
               | Some t => Some (Z.min t (dateTime r))
               end) rs None.

Definition last_stamp (rs : list ArchiveRecord) : option Z :=
  fold_left (fun acc r =>
               match acc with
               | None => Some (dateTime r)
               | Some t => Some (Z.max t (dateTime r))
               end) rs None.

(** What the manager of the daily summaries does to their version when it
    is opened, which is in [weewx.manager] and in no section of the
    specification: a stored version that lies, compared as a string,
    strictly between "1.0" and "4.0" is patched to "4.0", and the database
    then holds "4.0".  [None] when there is nothing to patch.  (What the
    patch does to the sums is not part of the model.) *)
Definition needs_patch (v : string) : bool :=
  negb (str_ge "1.0" v) && negb (str_ge v "4.0").

Definition patch_version (db : Database) : option Database :=
  match db_version db with
  | Some v =>
      if needs_patch v then
        Some (mkDatabase (db_schema db) (db_records db) (db_daily db)
                (Some "4.0") (db_unit db) (db_zone db))
      else None
  | None => None
  end.

(** The database an open of that manager leaves, and the world with it. *)
Definition after_open (db : Database) : Database :=
  match patch_version db with Some db' => db' | None => db end.

Definition world_after_open (name : string) (db : Database) (w : World)
  : World :=
  match patch_version db with Some db' => put_db name db' w | None => w end.

(** The reference library.  The summary builder, the weight recalculation
    and the column operations are the ones above; the other calls do what
    their names and the handlers' comments say: a plain open fails on a
    database that does not exist, an open that may initialize or create
    makes it, the open of the manager of the daily summaries patches their
    version as said above, [weedb.create] fails on a database that exists,
    and [drop_columns] goes through the names in the order of the list it
    is handed (see [lib_in_order] for any other order).  The values
    are copied as they are: the conversion between unit systems is outside
    the model, and so is what [CalcMissing] derives. *)
Definition lib : Library World :=
  fun X c =>
    match c in libcall X return World -> result X * World with
    | weecfg_read_config path => fun w =>
        match lookup path (w_files w) with
        | Some cfg => (inr (path, cfg), w)
        | None => (inl (Exn OSError ("Unable to find file: " ^^ path)), w)
        end
    | get_manager_dict_from_config cfg binding => fun w =>
        match lookup binding (cfg_bindings cfg) with
        | Some md => (inr md, w)
        | None => (inl (Exn UnknownBinding binding), w)
        end
    | open_manager_with_config cfg binding initialize => fun w =>
        match lookup binding (cfg_bindings cfg) with
        | None => (inl (Exn UnknownBinding binding), w)
        | Some md =>
            let name := dd_database_name (md_database_dict md) in
            match get_db name w with
            | Some db =>
                (inr (manager_of name (md_table_name md) (after_open db)),
                 world_after_open name db w)
            | None =>
                if initialize then
                  let db := initialized_db (md_schema md) true in
                  (inr (manager_of name (md_table_name md) db),
                   put_db name db w)
                else (inl (no_database name), w)
            end
        end
    | Manager_open dd table => fun w =>
        on_db (dd_database_name dd) w
          (fun db =>
             (inr (manager_of (dd_database_name dd)
                     (match table with Some t => t | None => "archive" end)
                     db), w))
    | Manager_open_with_create dd table sch => fun w =>
        match get_db (dd_database_name dd) w with
        | Some db => (inr (manager_of (dd_database_name dd) table db), w)
        | None =>
            let db := initialized_db sch false in
            (inr (manager_of (dd_database_name dd) table db),
             put_db (dd_database_name dd) db w)
        end
    | Manager_close m => fun w => (inr tt, w)
    | dbm_drop_daily m => fun w =>
        update_db (m_database_name m) w
          (fun db =>
             match db_daily db with
             | None => inl (Exn OperationalError "no such table")
             | Some _ =>
                 inr (mkDatabase (db_schema db) (db_records db) None
                        (db_version db) (db_unit db) (db_zone db))
             end)
    | dbm_add_column m name type => fun w =>
        update_db (m_database_name m) w (add_column_db name type)
    | dbm_rename_column m name new_name => fun w =>
        update_db (m_database_name m) w (rename_column_db name new_name)
    | dbm_drop_columns m names => fun w =>
        update_db (m_database_name m) w (drop_columns_db names)
    | dbm_backfill_day_summary m start_d stop_d trans_days => fun w =>
        on_db (m_database_name m) w
          (fun db =>
             let '(n, db') := backfill_day_summary start_d stop_d trans_days db in
             (inr n, put_db (m_database_name m) db' w))
    | dbm_recalculate_weights m start_d stop_d => fun w =>
        update_db (m_database_name m) w
          (fun db => inr (recalculate_weights start_d stop_d db))
    | dbm_getSql m sql => fun w =>
        on_db (m_database_name m) w
          (fun db => (inr (Some [Z.of_nat (List.length (db_records db))]), w))
    | dbm_addRecord dest src => fun w =>
        on_db (m_database_name src) w
          (fun sdb =>
             on_db (m_database_name dest) w
               (fun ddb =>
                  let added := new_records (db_records ddb) (db_records sdb) in
                  (inr (Z.of_nat (List.length added)),
                   put_db (m_database_name dest)
                     (mkDatabase (db_schema ddb) (db_records ddb ++ added)
                        (db_daily ddb) (db_version ddb)
                        (match db_unit ddb with
                         | Some u => Some u
                         | None => db_unit sdb
                         end)
                        (db_zone ddb)) w)))
    | dbm_firstGoodStamp m => fun w =>
        on_db (m_database_name m) w
          (fun db => (inr (first_stamp (db_records db)), w))
    | dbm_lastGoodStamp m => fun w =>
        on_db (m_database_name m) w
          (fun db => (inr (last_stamp (db_records db)), w))
    | dbm_read_metadata m key => fun w =>
        on_db (m_database_name m) w
          (fun db =>
             (inr (if String.eqb key "Version" then db_version db else None),
              w))
    | weedb_create dd => fun w =>
        match get_db (dd_database_name dd) w with
        | Some _ => (inl (Exn DatabaseExists (dd_database_name dd)), w)
        | None => (inr tt, put_db (dd_database_name dd) created_db w)
        end
    | weedb_drop dd => fun w =>
        on_db (dd_database_name dd) w
          (fun _ => (inr tt, del_db (dd_database_name dd) w))
    | manager_reconfig old_dd new_dd unit sch dry_run => fun w =>
        on_db (dd_database_name old_dd) w
          (fun odb =>
             if dry_run then (inr tt, w)
             else
               (inr tt,
                put_db (dd_database_name new_dd)
                  (mkDatabase sch (db_records odb) None None
                     (match unit with
                      | Some u => Some u
                      | None => db_unit odb
                      end)
                     (db_zone odb)) w))
    | CalcMissing_init cfg cm => fun w =>
        match lookup (cm_binding cm) (cfg_bindings cfg) with
        | Some _ => (inr tt, w)
        | None => (inl (Exn UnknownBinding (cm_binding cm)), w)
        end
    | CalcMissing_run cfg cm => fun w =>
        match lookup (cm_binding cm) (cfg_bindings cfg) with
        | Some _ => (inr tt, w)
        | None => (inl (Exn UnknownBinding (cm_binding cm)), w)
        end
    end.

(** The reference library with the order in which the manager goes
    through the set it is handed: [iter] is that order, Python's own for a
    set, and [drop_columns] looks for the first missing name along it.
    All other calls are those of [lib]. *)
Definition lib_in_order (iter : list string -> list string)
  : Library World :=
  fun X c =>
    match c in libcall X return World -> result X * World with
    | dbm_drop_columns m names => fun w =>
        update_db (m_database_name m) w (drop_columns_db (iter names))
    | c' => lib c'
    end.

(** An initial state: nothing asked, printed or logged yet. *)
Definition start (w : World) (user : list yn) : State World :=
  mkState w user [] [] NOTSET [] (fun n => Z.of_nat n) 0%nat [] [].

End RefLib.

(* ================================================================== *)
(** ** Version numbers, as the specification compares them *)

(** The specification speaks of a stored version that "is at least
    version 2.0", the version number "compared as a version": the dotted
    fields are numbers, compared field by field, a missing field counting
    as zero.  This is the comparison of the specification, to be set beside
    [str_ge], the one of the code. *)
Definition digit_of (c : ascii) : option N :=
  let n := N_of_ascii c in
  if ((48 <=? n) && (n <=? 57))%N then Some (n - 48)%N else None.

Fixpoint fields_from (s : string) (cur : option N) : option (list N) :=
  match s with
  | EmptyString =>
      match cur with Some n => Some [n] | None => None end
  | String c r =>
      if Ascii.eqb c "."%char then
        match cur with
        | Some n => option_map (cons n) (fields_from r None)
        | None => None
        end
      else
        match digit_of c with
        | Some d =>
            fields_from r
              (Some (10 * match cur with Some n => n | None => 0 end + d)%N)
        | None => None
        end
  end.

Definition version_fields (s : string) : option (list N) :=
  fields_from s None.

Fixpoint fields_ge (a b : list N) {struct b} : bool :=
  match b with
  | [] => true
  | y :: b' =>
      match a with
      | [] => (y =? 0)%N && fields_ge [] b'
      | x :: a' =>
          if (x <? y)%N then false
          else if (y <? x)%N then true
          else fields_ge a' b'
      end
  end.

Definition version_at_least (v bound : string) : bool :=
  match version_fields v, version_fields bound with
  | Some a, Some b => fields_ge a b
  | _, _ => false
  end.

(* ================================================================== *)
(** ** Two shapes of command tree *)

(** A tree that makes none of the calls a dry run holds back, whatever
    the library returns and the user answers. *)
Inductive holds_back (A : Type) : prog A -> Prop :=
| hb_Ret (a : A) : holds_back (Ret a)
| hb_Raise (e : exn) : holds_back (Raise e)
| hb_Call (X : Type) (c : libcall X) (k : result X -> prog A) :
    held_back c = false -> (forall r, holds_back (k r)) ->
    holds_back (Call c k)
| hb_Input (q : string) (k : result yn -> prog A) :
    (forall r, holds_back (k r)) -> holds_back (Input q k)
| hb_Print (f : stream) (l : string) (k : prog A) :
    holds_back k -> holds_back (Print f l k)
| hb_Log (lv : Z) (m : string) (k : prog A) :
    holds_back k -> holds_back (Log lv m k)
| hb_LoggingDisable (lv : Z) (k : prog A) :
    holds_back k -> holds_back (LoggingDisable lv k)
| hb_TimeTime (k : Z -> prog A) :
    (forall t, holds_back (k t)) -> holds_back (TimeTime k).

(** A tree that, with a user who answers ['n'] to every prompt (or has
    left the terminal), makes no call that can write and ends only after
    it has printed "Nothing done." for an answer given.  The flag says
    that an answer is still owed its "Nothing done.". *)
Inductive declines (A : Type) : bool -> prog A -> Prop :=
| d_Ret (a : A) : declines false (Ret a)
| d_Raise (e : exn) : declines false (Raise e)
| d_Call (b : bool) (X : Type) (c : libcall X) (k : result X -> prog A) :
    mutating c = false -> (forall r, declines b (k r)) ->
    declines b (Call c k)
| d_Input (b : bool) (q : string) (k : result yn -> prog A) :
    declines true (k (inr ans_n)) -> declines b (k (inl EOF)) ->
    declines b (Input q k)
| d_Print_nothing_done (b : bool) (k : prog A) :
    declines false k -> declines b (Print stdout "Nothing done." k)
| d_Print (b : bool) (f : stream) (l : string) (k : prog A) :
    declines b k -> declines b (Print f l k)
| d_Log (b : bool) (lv : Z) (m : string) (k : prog A) :
    declines b k -> declines b (Log lv m k)
| d_LoggingDisable (b : bool) (lv : Z) (k : prog A) :
    declines b k -> declines b (LoggingDisable lv k)
| d_TimeTime (b : bool) (k : Z -> prog A) :
    (forall t, declines b (k t)) -> declines b (TimeTime k).

(** The calls a run has added to the record: none of them may write, or
    none of them is one a dry run holds back. *)
Definition no_write (calls : list anycall) : Prop :=
  forallb (fun a => negb (mutating_any a)) calls = true.

Definition none_held_back (calls : list anycall) : Prop :=
  forallb (fun a => negb (held_back_any a)) calls = true.

(* ================================================================== *)
(** ** A station, for the examples *)

Module Example.

Import RefLib.

(** Stand-ins for the imported helpers: no colour codes, a [parse_dates]
    that knows the call without dates, the three unit systems. *)
Definition helpers : Helpers :=
  mkHelpers "" ""
    (fun date from_date to_date _ =>
       match date, from_date, to_date with
       | None, None, None => inr (None, None)
       | _, _, _ => inl (Exn ValueError "unknown date format")
       end)
    str_Z
    (fun dt => dt)
    (fun ts => match ts with Some t => str_Z t | None => "N/A" end)
    (fun nick =>
       if String.eqb nick "US" then Some 1
       else if String.eqb nick "METRIC" then Some 16
       else if String.eqb nick "METRICWX" then Some 17
       else None)
    (fun u =>
       if u =? 1 then Some "US"
       else if u =? 16 then Some "METRIC"
       else if u =? 17 then Some "METRICWX"
       else None)
    (fun _ t => str_Z t).

Definition schema : Schema :=
  [("dateTime", "INTEGER"); ("usUnits", "INTEGER"); ("interval", "INTEGER");
   ("outTemp", "REAL"); ("a", "REAL")].

Definition wx_dict : ManagerDict :=
  mkManagerDict (mkDatabaseDict "weewx" "weedb.sqlite") "archive" schema.

Definition dest_dict : ManagerDict :=
  mkManagerDict (mkDatabaseDict "backup" "weedb.sqlite") "archive" schema.

Definition config : Config :=
  mkConfig None [("wx_binding", wx_dict); ("dest_binding", dest_dict)].

(** Three records, two on the first day and one on the second.  The
    second record has no value for [a]. *)
Definition archive : list ArchiveRecord :=
  [mkRecord 300 5 [("outTemp", Some 10); ("a", Some 1)];
   mkRecord 600 5 [("outTemp", Some 12); ("a", None)];
   mkRecord 86700 5 [("outTemp", Some 7); ("a", Some 3)]].

Definition weewx_db (version : option string) : Database :=
  mkDatabase schema archive (Some []) version (Some 1) (fun _ => 0).

(** An archive without records. *)
Definition empty_db : Database :=
  mkDatabase schema [] (Some []) (Some "4.0") None (fun _ => 0).

(** The station: one configuration file and the archive database. *)
Definition station (version : option string) : World :=
  mkWorld [("weewx.conf", config)] [("weewx", weewx_db version)].

Definition empty_station : World :=
  mkWorld [("weewx.conf", config)] [("weewx", empty_db)].

(** The station after an earlier reconfiguration left [weewx_new]. *)
Definition station_with_new : World :=
  mkWorld [("weewx.conf", config)]
          [("weewx", weewx_db (Some "4.0")); ("weewx_new", created_db)].


(** A library whose destination cannot be written: [addRecord] raises. *)
Definition lib_no_write (e : exn) : Library World :=
  fun X c =>
    match c in libcall X return World -> result X * World with
    | dbm_addRecord _ _ => fun w => (inl e, w)
    | c' => lib c'
    end.

(** A library whose databases refuse the work: [drop_columns] and the
    [run] of [CalcMissing] raise [e] and leave the world as it is,
    everything else is the reference library. *)
Definition lib_refusing (e : exn) : Library World :=
  fun X c =>
    match c in libcall X return World -> result X * World with
    | dbm_drop_columns _ _ => fun w => (inl e, w)
    | CalcMissing_run _ _ => fun w => (inl e, w)
    | c' => lib c'
    end.

(** A library in which [CalcMissing] cannot be made: its constructor
    raises [e]. *)
Definition lib_no_fix (e : exn) : Library World :=
  fun X c =>
    match c in libcall X return World -> result X * World with
    | CalcMissing_init _ _ => fun w => (inl e, w)
    | c' => lib c'
    end.

End Example.

(* ================================================================== *)
(** ** Running composed trees *)

#[local] Arguments String.append : simpl never.

Section RunFacts.

Variable W : Type.
Variable lib : Library W.

Lemma run_bind (A B : Type) (p : prog A) (f : A -> prog B) (s : State W) :
  run lib (bind p f) s =
  match run lib p s with
  | (inl e, s') => (inl e, s')
  | (inr a, s') => run lib (f a) s'
  end.
Proof.
  revert s; induction p; intros s; simpl; auto.
  destruct (answers s); auto.
Qed.

Lemma run_try_else (X A : Type) (p : prog X) (h : exn -> option (prog A))
    (els : X -> prog A) (s : State W) :
  run lib (try_else p h els) s =
  match run lib p s with
  | (inr x, s') => run lib (els x) s'
  | (inl e, s') =>
      match h e with
      | Some q => run lib q s'
      | None => (inl e, s')
      end
  end.
Proof.
  revert s; induction p; intros s; simpl; auto.
  - destruct (h e); reflexivity.
  - destruct (answers s); auto.
Qed.

Lemma run_finally (A : Type) (p : prog A) (q : prog unit) (s : State W) :
  run lib (finally_ p q) s =
  match run lib p s with
  | (r, s') =>
      match run lib q s' with
      | (inl e, s'') => (inl e, s'')
      | (inr _, s'') => (r, s'')
      end
  end.
Proof.
  revert s; induction p; intros s; simpl; auto.
  - rewrite run_bind. destruct (run lib q s) as [[e | u] s']; reflexivity.
  - rewrite run_bind. destruct (run lib q s) as [[e' | u] s']; reflexivity.
  - destruct (answers s); auto.
Qed.

(** A tree that holds back adds none of the calls a dry run holds back
    to the record. *)
Lemma holds_back_run (A : Type) (p : prog A) :
  holds_back p ->
  forall s : State W,
  exists calls,
    trace (snd (run lib p s)) = trace s ++ calls /\ none_held_back calls.
Proof.
  induction 1; intros s; simpl.
  - exists []. rewrite app_nil_r. split; reflexivity.
  - exists []. rewrite app_nil_r. split; reflexivity.
  - destruct (H1 (fst (lib c (world s))) (called c (snd (lib c (world s))) s))
      as (cs & Ht & Hn).
    exists (AnyCall c :: cs). split.
    + rewrite Ht. simpl. rewrite <- app_assoc. reflexivity.
    + unfold none_held_back in *. simpl. rewrite H. simpl. exact Hn.
  - destruct (answers s) as [| a rest].
    + destruct (H0 (inl EOF) (asked q [] s)) as (cs & Ht & Hn).
      exists cs. split; auto.
    + destruct (H0 (inr a) (asked q rest s)) as (cs & Ht & Hn).
      exists cs. split; auto.
  - destruct (IHholds_back (printed f l s)) as (cs & Ht & Hn).
    exists cs. split; auto.
  - destruct (IHholds_back (log_record lv m s)) as (cs & Ht & Hn).
    exists cs. split; auto.
  - destruct (IHholds_back (set_disabled lv s)) as (cs & Ht & Hn).
    exists cs. split; auto.
  - destruct (H0 (clock s (reads s)) (ticked s)) as (cs & Ht & Hn).
    exists cs. split; auto.
Qed.

(** With a user who declines, a tree that declines adds no writing call,
    prints "Nothing done." once an answer has been given, and under a
    library that keeps the classification leaves the world as it was. *)
Lemma declines_run (A : Type) (b : bool) (p : prog A) :
  declines b p ->
  forall s : State W,
  Forall (eq ans_n) (answers s) ->
  exists calls lines,
    trace (snd (run lib p s)) = trace s ++ calls
    /\ output (snd (run lib p s)) = output s ++ lines
    /\ no_write calls
    /\ (b = true \/ answers (snd (run lib p s)) <> answers s ->
        In (stdout, "Nothing done.") lines)
    /\ (read_only_calls lib -> world (snd (run lib p s)) = world s).
Proof.
  induction 1; intros s Hans; simpl.
  - exists [], []. rewrite !app_nil_r. repeat split; auto.
    intros [Hb | Hne]; [discriminate | congruence].
  - exists [], []. rewrite !app_nil_r. repeat split; auto.
    intros [Hb | Hne]; [discriminate | congruence].
  - destruct (H1 (fst (lib c (world s))) (called c (snd (lib c (world s))) s)
                 Hans)
      as (cs & ls & Ht & Ho & Hn & Hd & Hw).
    exists (AnyCall c :: cs), ls. repeat split; auto.
    + rewrite Ht. simpl. rewrite <- app_assoc. reflexivity.
    + unfold no_write in *. simpl. rewrite H. simpl. exact Hn.
    + intros Hro. rewrite (Hw Hro). simpl. apply Hro. exact H.
  - destruct (answers s) as [| a rest] eqn:Ea.
    + destruct (IHdeclines2 (asked q [] s)) as (cs & ls & Ht & Ho & Hn & Hd & Hw).
      { simpl. constructor. }
      exists cs, ls. repeat split; auto.
    + assert (a = ans_n) by (inversion Hans; auto). subst a.
      destruct (IHdeclines1 (asked q rest s)) as (cs & ls & Ht & Ho & Hn & Hd & Hw).
      { simpl. inversion Hans; auto. }
      exists cs, ls. repeat split; auto.
  - destruct (IHdeclines (printed stdout "Nothing done." s) Hans)
      as (cs & ls & Ht & Ho & Hn & Hd & Hw).
    exists cs, ((stdout, "Nothing done.") :: ls). repeat split; auto.
    + rewrite Ho. simpl. rewrite <- app_assoc. reflexivity.
    + intros _. left. reflexivity.
  - destruct (IHdeclines (printed f l s) Hans)
      as (cs & ls & Ht & Ho & Hn & Hd & Hw).
    exists cs, ((f, l) :: ls). repeat split; auto.
    + rewrite Ho. simpl. rewrite <- app_assoc. reflexivity.
    + intros Hb. right. apply Hd. exact Hb.
  - destruct (IHdeclines (log_record lv m s) Hans)
      as (cs & ls & Ht & Ho & Hn & Hd & Hw).
    exists cs, ls. repeat split; auto.
  - destruct (IHdeclines (set_disabled lv s) Hans)
      as (cs & ls & Ht & Ho & Hn & Hd & Hw).
    exists cs, ls. repeat split; auto.
  - destruct (H0 (clock s (reads s)) (ticked s) Hans)
      as (cs & ls & Ht & Ho & Hn & Hd & Hw).
    exists cs, ls. repeat split; auto.
Qed.

End RunFacts.

(* ================================================================== *)
(** ** The shape of each handler *)

#[local] Arguments is_a : simpl never.

Ltac tree_match p :=
  match p with
  | context [match ?x with _ => _ end] => first [tree_match x | destruct x]
  end.

Ltac expose :=
  cbv delta [print print_err log_info log_error logging_disable time_time
             call y_or_n when with_ try_ index0 getitem minus_one];
  cbn.

Ltac hb_step :=
  expose;
  match goal with
  | |- holds_back (Ret _) => apply hb_Ret
  | |- holds_back (Raise _) => apply hb_Raise
  | |- holds_back (Call _ _) => apply hb_Call; [reflexivity | intros [? | ?]]
  | |- holds_back (Input _ _) => apply hb_Input; intros [? | [|]]
  | |- holds_back (Print _ _ _) => apply hb_Print
  | |- holds_back (Log _ _ _) => apply hb_Log
  | |- holds_back (LoggingDisable _ _) => apply hb_LoggingDisable
  | |- holds_back (TimeTime _) => apply hb_TimeTime; intros ?
  | |- holds_back ?p => tree_match p
  end.

Ltac d_step :=
  expose;
  match goal with
  | |- declines _ (Ret _) => apply d_Ret
  | |- declines _ (Raise _) => apply d_Raise
  | |- declines _ (Call _ _) => apply d_Call; [reflexivity | intros [? | ?]]
  | |- declines _ (Input _ _) => apply d_Input
  | |- declines _ (Print stdout nothing_done _) => apply d_Print_nothing_done
  | |- declines _ (Print _ _ _) => apply d_Print
  | |- declines _ (Log _ _ _) => apply d_Log
  | |- declines _ (LoggingDisable _ _) => apply d_LoggingDisable
  | |- declines _ (TimeTime _) => apply d_TimeTime; intros ?
  | |- declines _ ?p => tree_match p
  end.

Section Shapes.

Variable H : Helpers.

Lemma create_database_dry_run (config_path db_binding : string) :
  holds_back (create_database H config_path db_binding true).
Proof. unfold create_database. repeat hb_step. Qed.

Lemma drop_daily_dry_run (config_path db_binding : string) :
  holds_back (drop_daily H config_path db_binding true).
Proof. unfold drop_daily, _prepare. repeat hb_step. Qed.

Lemma rebuild_daily_dry_run (config_path : string)
    (date from_date to_date : option string) (db_binding : string) :
  holds_back (rebuild_daily H config_path date from_date to_date db_binding
                true).
Proof. unfold rebuild_daily, _prepare. repeat hb_step. Qed.

Lemma add_column_dry_run (config_path column_name : string)
    (column_type : option string) (db_binding : string) :
  holds_back (add_column H config_path column_name column_type db_binding
                true).
Proof. unfold add_column, _prepare. repeat hb_step. Qed.

Lemma rename_column_dry_run (config_path column_name new_name : string)
    (db_binding : string) :
  holds_back (rename_column H config_path column_name new_name db_binding
                true).
Proof. unfold rename_column, _prepare. repeat hb_step. Qed.

Lemma drop_columns_dry_run (config_path : string)
    (column_names : list string) (db_binding : string) :
  holds_back (drop_columns H config_path column_names db_binding true).
Proof. unfold drop_columns, _prepare. repeat hb_step. Qed.

Lemma reconfigure_database_dry_run (config_path db_binding : string) :
  holds_back (reconfigure_database H config_path db_binding true).
Proof. unfold reconfigure_database, _prepare. repeat hb_step. Qed.

Lemma reweight_daily_dry_run (config_path : string)
    (date from_date to_date : option string) (db_binding : string) :
  holds_back (reweight_daily H config_path date from_date to_date db_binding
                true).
Proof. unfold reweight_daily, _prepare. repeat hb_step. Qed.

Lemma calc_missing_dry_run (config_path : string)
    (date from_date to_date : option string) (db_binding : string) :
  holds_back (calc_missing H config_path date from_date to_date db_binding
                true).
Proof. unfold calc_missing, _prepare. repeat hb_step. Qed.

Lemma drop_daily_declines (config_path db_binding : string)
    (dry_run : bool) :
  declines false (drop_daily H config_path db_binding dry_run).
Proof. unfold drop_daily, _prepare. repeat d_step. Qed.

Lemma rebuild_daily_declines (config_path : string)
    (date from_date to_date : option string) (db_binding : string)
    (dry_run : bool) :
  declines false (rebuild_daily H config_path date from_date to_date
                    db_binding dry_run).
Proof. unfold rebuild_daily, _prepare. repeat d_step. Qed.

Lemma add_column_declines (config_path column_name : string)
    (column_type : option string) (db_binding : string) (dry_run : bool) :
  declines false (add_column H config_path column_name column_type
                    db_binding dry_run).
Proof. unfold add_column, _prepare. repeat d_step. Qed.

Lemma rename_column_declines (config_path column_name new_name : string)
    (db_binding : string) (dry_run : bool) :
  declines false (rename_column H config_path column_name new_name
                    db_binding dry_run).
Proof. unfold rename_column, _prepare. repeat d_step. Qed.

Lemma drop_columns_declines (config_path : string)
    (column_names : list string) (db_binding : string) (dry_run : bool) :
  declines false (drop_columns H config_path column_names db_binding
                    dry_run).
Proof. unfold drop_columns, _prepare. repeat d_step. Qed.

Lemma transfer_database_declines (config_path : string)
    (dest_binding : option string) (db_binding : string) (dry_run : bool) :
  declines false (transfer_database H config_path dest_binding db_binding
                    dry_run).
Proof. unfold transfer_database. repeat d_step. Qed.

Lemma calc_missing_declines (config_path : string)
    (date from_date to_date : option string) (db_binding : string)
    (dry_run : bool) :
  declines false (calc_missing H config_path date from_date to_date
                    db_binding dry_run).
Proof. unfold calc_missing, _prepare. repeat d_step. Qed.

Lemma reweight_daily_declines (config_path : string)
    (date from_date to_date : option string) (db_binding : string)
    (dry_run : bool) :
  declines false (reweight_daily H config_path date from_date to_date
                    db_binding dry_run).
Proof. unfold reweight_daily, _prepare. repeat d_step. Qed.

Lemma reconfigure_database_dry_run_declines (config_path db_binding : string) :
  declines false (reconfigure_database H config_path db_binding true).
Proof. unfold reconfigure_database, _prepare. repeat d_step. Qed.

End Shapes.

(** What the second shape gives: under a library whose calls that only
    read leave the world as it was, a tree that declines, run with a user
    who declines, leaves the world as it was, after printing
    "Nothing done." for the answer given. *)
Lemma declined_frame (W : Type) (lib : Library W) (A : Type) (p : prog A)
    (s : State W) :
  declines false p ->
  read_only_calls lib ->
  Forall (eq ans_n) (answers s) ->
  world (snd (run lib p s)) = world s
  /\ (answers (snd (run lib p s)) <> answers s ->
      In (stdout, "Nothing done.") (output (snd (run lib p s)))).
Proof.
  intros Hp Hro Hans.
  destruct (declines_run lib Hp s Hans) as (cs & ls & _ & Ho & _ & Hd & Hw).
  split; [exact (Hw Hro) |].
  intros Hne. rewrite Ho. apply in_or_app. right. apply Hd. right. exact Hne.
Qed.


(* ================================================================== *)
(** ** Following one run, step by step *)

Section Steps.

Variable W : Type.
Variable lib : Library W.

Lemma step_bind (A B : Type) (p : prog A) (f : A -> prog B) (s s' : State W)
    (r : result A) (R : result B * State W) :
  run lib p s = (r, s') ->
  match r with
  | inl e => (inl e, s')
  | inr a => run lib (f a) s'
  end = R ->
  run lib (bind p f) s = R.
Proof. intros Hp HR. rewrite run_bind, Hp. exact HR. Qed.

Lemma step_try_else (X A : Type) (p : prog X) (h : exn -> option (prog A))
    (els : X -> prog A) (s s' : State W) (r : result X)
    (R : result A * State W) :
  run lib p s = (r, s') ->
  match r with
  | inr x => run lib (els x) s'
  | inl e => match h e with
             | Some q => run lib q s'
             | None => (inl e, s')
             end
  end = R ->
  run lib (try_else p h els) s = R.
Proof. intros Hp HR. rewrite run_try_else, Hp. exact HR. Qed.

Lemma step_finally (A : Type) (p : prog A) (q : prog unit)
    (s s' s'' : State W) (r : result A) (u : result unit) :
  run lib p s = (r, s') ->
  run lib q s' = (u, s'') ->
  run lib (finally_ p q) s
  = (match u with inl e => inl e | inr _ => r end, s'').
Proof.
  intros Hp Hq. rewrite run_finally, Hp, Hq. destruct u; reflexivity.
Qed.

Lemma step_Call (A X : Type) (c : libcall X) (k : result X -> prog A)
    (s : State W) (r : result X) (w' : W) (R : result A * State W) :
  lib c (world s) = (r, w') ->
  run lib (k r) (called c w' s) = R ->
  run lib (Call c k) s = R.
Proof. intros Hc HR. simpl. rewrite Hc. exact HR. Qed.

Lemma step_Input (A : Type) (q : string) (k : result yn -> prog A)
    (s : State W) (a : yn) (rest : list yn) (R : result A * State W) :
  answers s = a :: rest ->
  run lib (k (inr a)) (asked q rest s) = R ->
  run lib (Input q k) s = R.
Proof. intros Ha HR. simpl. rewrite Ha. exact HR. Qed.

Lemma step_Print (A : Type) (f : stream) (l : string) (k : prog A)
    (s : State W) (R : result A * State W) :
  run lib k (printed f l s) = R -> run lib (Print f l k) s = R.
Proof. exact (fun HR => HR). Qed.

Lemma step_Log (A : Type) (lv : Z) (m : string) (k : prog A)
    (s : State W) (R : result A * State W) :
  run lib k (log_record lv m s) = R -> run lib (Log lv m k) s = R.
Proof. exact (fun HR => HR). Qed.

Lemma step_LoggingDisable (A : Type) (lv : Z) (k : prog A)
    (s : State W) (R : result A * State W) :
  run lib k (set_disabled lv s) = R -> run lib (LoggingDisable lv k) s = R.
Proof. exact (fun HR => HR). Qed.

Lemma step_TimeTime (A : Type) (k : Z -> prog A) (s : State W)
    (R : result A * State W) :
  run lib (k (clock s (reads s))) (ticked s) = R ->
  run lib (TimeTime k) s = R.
Proof. exact (fun HR => HR). Qed.

End Steps.

Ltac state_fields :=
  cbn [world answers prompts output disabled logged clock reads trace
       levels called asked printed log_record set_disabled ticked].

(** The reply of the library to the call at hand: a hypothesis of the
    context. *)
Ltac reply := state_fields; solve [eauto].

Ltac tidy :=
  cbn;
  repeat match goal with
         | |- context [(?l ++ ?m) ++ ?n] =>
             rewrite <- (app_assoc l m n)
         end;
  cbn; try reflexivity.

(** The innermost condition a run is waiting for, when the context
    decides it. *)
Ltac decide_condition x :=
  lazymatch x with
  | match ?y with _ => _ end => decide_condition y
  | _ => match goal with
         | Hx : x = _ |- _ => rewrite Hx
         end
  end.

Ltac exec :=
  cbv beta iota zeta;
  lazymatch goal with
  | |- run _ (bind _ _) _ = _ => eapply step_bind; [exec | exec]
  | |- run _ (try_else _ _ _) _ = _ => eapply step_try_else; [exec | exec]
  | |- run _ (finally_ _ _) _ = _ => eapply step_finally; [exec | exec]
  | |- run _ (Call _ _) _ = _ => eapply step_Call; [reply | exec]
  | |- run _ (Input _ _) _ = _ => eapply step_Input; [reply | exec]
  | |- run _ (Print _ _ _) _ = _ => eapply step_Print; exec
  | |- run _ (Log _ _ _) _ = _ => eapply step_Log; exec
  | |- run _ (LoggingDisable _ _) _ = _ => eapply step_LoggingDisable; exec
  | |- run _ (TimeTime _) _ = _ => eapply step_TimeTime; exec
  | |- run _ (Ret _) _ = _ => reflexivity
  | |- run _ (Raise _) _ = _ => reflexivity
  | |- (_, _) = _ => reflexivity
  | |- run _ (match ?x with _ => _ end) _ = _ =>
      first [ decide_condition x; exec
            | let x' := eval cbn in x in
              tryif constr_eq x x' then idtac else (change x with x'; exec) ]
  | |- match ?x with _ => _ end = _ => try (decide_condition x; exec)
  | |- _ => idtac
  end.

Ltac start_run :=
  cbv delta [print print_err log_info log_error logging_disable time_time
             call y_or_n when with_ try_ index0 getitem minus_one _prepare];
  cbv beta iota zeta.


(** The run of the handler in the goal, followed to its end. *)
Ltac run_with prep :=
  match goal with
  | |- context [run ?lib ?p ?s] =>
      let E := fresh "E" in
      eassert (E : run lib p s = _);
      [ prep; start_run; exec | rewrite E; clear E ]
  end.

(* ================================================================== *)
(** ** transfer_database *)

Lemma not_ImportError (e : exn) :
  is_a e [OSError; OperationalError] = true -> is_a e [ImportError] = false.
Proof. destruct e as [[] m]; unfold is_a; cbn; congruence. Qed.


Section Transfer.

Variable W : Type.
Variable lib : Library W.
Variable H : Helpers.
Variable s : State W.
Variables config_path dest_binding db_binding cfgp : string.
Variable cfg : Config.
Variables src_md dest_md : ManagerDict.
Variable src_m : Manager.

Hypothesis Hdest : String.eqb dest_binding "" = false.
Hypothesis Hclose : forall m w, lib (Manager_close m) w = (inr tt, w).
Hypothesis Hcfg :
  lib (weecfg_read_config config_path) (world s) = (inr (cfgp, cfg), world s).
Hypothesis Hsrc :
  lib (get_manager_dict_from_config cfg db_binding) (world s)
  = (inr src_md, world s).
Hypothesis Hdst :
  lib (get_manager_dict_from_config cfg dest_binding) (world s)
  = (inr dest_md, world s).
Hypothesis Hopen :
  lib (Manager_open (md_database_dict src_md) None) (world s)
  = (inr src_m, world s).

Local Abbreviation count_sql :=
  ("SELECT COUNT(dateTime) from " ^^ m_table_name src_m ^^ ";").
Local Abbreviation dest_name := (dd_database_name (md_database_dict dest_md)).
Local Abbreviation banner dry_run :=
  (if dry_run : bool then [(stdout, dry_run_banner)] else []).
Local Abbreviation opening :=
  [AnyCall (weecfg_read_config config_path);
   AnyCall (get_manager_dict_from_config cfg db_binding);
   AnyCall (get_manager_dict_from_config cfg dest_binding);
   AnyCall (Manager_open (md_database_dict src_md) None);
   AnyCall (dbm_getSql src_m count_sql)].
Local Abbreviation open_dest :=
  (Manager_open_with_create (md_database_dict dest_md)
     (md_table_name dest_md) (md_schema dest_md)).
Local Abbreviation question num_recs :=
  ("Transfer " ^^ str_Z num_recs ^^ " records from source database '"
     ^^ m_database_name src_m ^^ "' to destination database '"
     ^^ dest_name ^^ "'? (y/n) ").
Local Abbreviation maybe_missing :=
  ("Maybe it does not exist (MySQL) or is incorrectly defined in "
     ^^ "weewx.conf?").

Ltac run_transfer :=
  run_with ltac:(unfold transfer_database; rewrite Hdest).

(** C10.  A source without records: the handler says so and returns; the
    user is not asked, the destination is not opened, nothing is written. *)
Theorem transfer_database_no_records (dry_run : bool) (rest : list Z) :
  lib (dbm_getSql src_m count_sql) (world s)
  = (inr (Some (0 :: rest)), world s) ->
  let r := run lib (transfer_database H config_path (Some dest_binding)
                      db_binding dry_run) s in
  fst r = inr tt
  /\ world (snd r) = world s
  /\ answers (snd r) = answers s
  /\ prompts (snd r) = prompts s
  /\ output (snd r) =
       output s ++ banner dry_run
         ++ [(stdout, will_be_used H cfgp);
             (stdout, "No records found in source database '"
                        ^^ m_database_name src_m ^^ "'.");
             (stdout, "Nothing done. Aborting.")]
  /\ trace (snd r) = trace s ++ opening ++ [AnyCall (Manager_close src_m)].
Proof.
  intros Hsql r; subst r.
  destruct dry_run; run_transfer; repeat split; tidy.
Qed.

Section Confirmed.

Variable num_recs : Z.
Variable rest : list Z.
Variable more : list yn.

Hypothesis Hsql :
  lib (dbm_getSql src_m count_sql) (world s)
  = (inr (Some (num_recs :: rest)), world s).
Hypothesis Hrecs : (num_recs =? 0) = false.
Hypothesis Hyes : answers s = ans_y :: more.





(** C8.  The transfer proper, with the destination open: when [addRecord]
    raises OSError or OperationalError the handler raises it again and
    logging is still disabled at INFO; when it returns, logging is back at
    NOTSET. *)
Theorem transfer_database_logging (dest_m : Manager) (w1 w2 : W)
    (added : result Z) :
  lib open_dest (world s) = (inr dest_m, w1) ->
  lib (dbm_addRecord dest_m src_m) w1 = (added, w2) ->
  (forall e, added = inl e -> is_a e [OSError; OperationalError] = true) ->
  let r := run lib (transfer_database H config_path (Some dest_binding)
                      db_binding false) s in
  fst r = match added with inl e => inl e | inr _ => inr tt end
  /\ disabled (snd r) = match added with inl _ => INFO | inr _ => NOTSET end.
Proof.
  intros Hw Ha Hcls r; subst r. destruct added as [e | n].
  - pose proof (Hcls e eq_refl) as Ho.
    pose proof (not_ImportError e Ho) as Hi.
    run_transfer. split; reflexivity.
  - run_transfer. split; reflexivity.
Qed.

(** A dry run with a source that has records and a user who confirms: the
    destination is opened with [open_with_create] all the same, and the
    world is the one that call left. *)
Lemma transfer_database_dry_run_opens_destination (dest_m : Manager)
    (w1 : W) :
  lib open_dest (world s) = (inr dest_m, w1) ->
  let r := run lib (transfer_database H config_path (Some dest_binding)
                      db_binding true) s in
  fst r = inr tt
  /\ world (snd r) = w1
  /\ trace (snd r) =
       trace s ++ opening
         ++ [AnyCall open_dest; AnyCall (Manager_close dest_m);
             AnyCall (Manager_close src_m)]
  /\ In (stdout, dry_run_footer) (output (snd r)).
Proof.
  intros Hw r; subst r. run_transfer.
  repeat split; tidy.
  cbn. rewrite !in_app_iff. cbn. auto 10.
Qed.

End Confirmed.
End Transfer.

(* ================================================================== *)
(** ** calc_missing *)

Section CalcMissing.

Variable W : Type.
Variable lib : Library W.
Variable H : Helpers.
Variable s : State W.
Variables config_path db_binding cfgp : string.
Variable cfg : Config.
Variable md : ManagerDict.
Variable m : Manager.
Variables date from_date to_date : option string.
Variables last_ts stop_dt : option Z.

Hypothesis Hclose : forall m w, lib (Manager_close m) w = (inr tt, w).
Hypothesis Hcfg :
  lib (weecfg_read_config config_path) (world s) = (inr (cfgp, cfg), world s).
Hypothesis Hmd :
  lib (get_manager_dict_from_config cfg db_binding) (world s)
  = (inr md, world s).
Hypothesis Hopen :
  lib (Manager_open (md_database_dict md) (Some (md_table_name md)))
      (world s)
  = (inr m, world s).
Hypothesis Hfirst : lib (dbm_firstGoodStamp m) (world s) = (inr None, world s).
Hypothesis Hlast :
  lib (dbm_lastGoodStamp m) (world s) = (inr last_ts, world s).
Hypothesis Hdates :
  parse_dates H date from_date to_date true = inr (None, stop_dt).

(** C9.  No start date and an archive without a first good timestamp:
    [first_ts - 1] raises TypeError, which nothing catches; the user has
    not been asked and no call that can write has been made. *)
Theorem calc_missing_empty_archive (dry_run : bool) :
  let r := run lib (calc_missing H config_path date from_date to_date
                      db_binding dry_run) s in
  (exists msg, fst r = inl (Exn TypeError msg))
  /\ prompts (snd r) = prompts s
  /\ answers (snd r) = answers s
  /\ world (snd r) = world s
  /\ trace (snd r) =
       trace s
         ++ [AnyCall (weecfg_read_config config_path);
             AnyCall (get_manager_dict_from_config cfg db_binding);
             AnyCall (get_manager_dict_from_config cfg db_binding);
             AnyCall (Manager_open (md_database_dict md)
                        (Some (md_table_name md)));
             AnyCall (dbm_firstGoodStamp m);
             AnyCall (dbm_lastGoodStamp m);
             AnyCall (Manager_close m)].
Proof.
  intros r; subst r.
  destruct dry_run; run_with ltac:(unfold calc_missing);
    (split; [eexists; reflexivity | repeat split; tidy]).
Qed.

End CalcMissing.

(* ================================================================== *)
(** ** reconfigure_database *)

Section Reconfigure.

Variable W : Type.
Variable lib : Library W.
Variable H : Helpers.
Variable s : State W.
Variables config_path db_binding cfgp : string.
Variable cfg : Config.
Variable md : ManagerDict.
Variable e : exn.
Variable w1 : W.

Local Abbreviation old_dict := (md_database_dict md).
Local Abbreviation new_dict :=
  (mkDatabaseDict (dd_database_name (md_database_dict md) ^^ "_new")
     (dd_driver (md_database_dict md))).
Local Abbreviation delete_it_first :=
  ("New database '" ^^ dd_database_name new_dict ^^ "' already exists. "
     ^^ "Delete it first? (y/n) ").

Hypothesis Hclose : forall m w, lib (Manager_close m) w = (inr tt, w).
Hypothesis Hcfg :
  lib (weecfg_read_config config_path) (world s) = (inr (cfgp, cfg), world s).
Hypothesis Hmd :
  lib (get_manager_dict_from_config cfg db_binding) (world s)
  = (inr md, world s).
Hypothesis Hexists : lib (weedb_create new_dict) (world s) = (inl e, w1).
Hypothesis He : is_a e [DatabaseExists] = true.

(** The user keeps the database that exists. *)
Lemma reconfigure_database_keep (more : list yn) :
  answers s = ans_n :: more ->
  let r := run lib (reconfigure_database H config_path db_binding false) s in
  fst r = inr tt
  /\ world (snd r) = w1
  /\ prompts (snd r) = prompts s ++ [delete_it_first]
  /\ output (snd r) =
       output s ++ [(stdout, will_be_used H cfgp); (stdout, "Nothing done.")]
  /\ trace (snd r) =
       trace s
         ++ [AnyCall (weecfg_read_config config_path);
             AnyCall (get_manager_dict_from_config cfg db_binding);
             AnyCall (get_manager_dict_from_config cfg db_binding);
             AnyCall (weedb_create new_dict)].
Proof.
  intros Hno r; subst r.
  run_with ltac:(unfold reconfigure_database). repeat split; tidy.
Qed.

(** The user has it deleted, and confirms the copy. *)
Lemma reconfigure_database_recreate (more : list yn) (old_m : Manager)
    (u : Z) (target : option Z) (nick : Z -> string) (w2 w3 : W) :
  answers s = ans_y :: ans_y :: more ->
  lib (weedb_drop new_dict) w1 = (inr tt, w2) ->
  lib (Manager_open old_dict None) w2 = (inr old_m, w2) ->
  m_std_unit_system old_m = Some u ->
  match cfg_target_unit cfg with
  | None => target = None
  | Some name => target <> None /\ unit_constants H (upper name) = target
  end ->
  unit_nicknames H u = Some (nick u) ->
  (forall t, target = Some t -> unit_nicknames H t = Some (nick t)) ->
  lib (manager_reconfig old_dict new_dict target (md_schema md) false) w2
  = (inr tt, w3) ->
  let r := run lib (reconfigure_database H config_path db_binding false) s in
  fst r = inr tt
  /\ world (snd r) = w3
  /\ trace (snd r) =
       trace s
         ++ [AnyCall (weecfg_read_config config_path);
             AnyCall (get_manager_dict_from_config cfg db_binding);
             AnyCall (get_manager_dict_from_config cfg db_binding);
             AnyCall (weedb_create new_dict);
             AnyCall (weedb_drop new_dict);
             AnyCall (Manager_open old_dict None);
             AnyCall (Manager_close old_m);
             AnyCall (manager_reconfig old_dict new_dict target
                        (md_schema md) false)].
Proof.
  intros Hyes Hdrop Hopen Hunit Htarget Hold Hnew Hcopy r; subst r.
  destruct (cfg_target_unit cfg) as [name |] eqn:Ename.
  - destruct Htarget as [Hsome Hconst].
    destruct target as [t |]; [| congruence].
    pose proof (Hnew t eq_refl) as Ht.
    destruct (u =? t) eqn:Eut;
      run_with ltac:(unfold reconfigure_database); repeat split; tidy.
  - subst target.
    run_with ltac:(unfold reconfigure_database); repeat split; tidy.
Qed.

(** C6.  The target database exists already, [weedb.create] raises
    DatabaseExists, and the user decides.  With 'n' the handler prints
    "Nothing done." and returns; it has made no call but the reading of
    the configuration and the [create] that failed.  With 'y' it drops the
    target and goes on: it reads the unit system of the old database, and
    on the confirmation of the copy calls [reconfig] from the old to the
    new database. *)
Theorem reconfigure_database_exists :
  (forall more,
     answers s = ans_n :: more ->
     let r := run lib (reconfigure_database H config_path db_binding false) s in
     fst r = inr tt
     /\ world (snd r) = w1
     /\ output (snd r) =
          output s
            ++ [(stdout, will_be_used H cfgp); (stdout, "Nothing done.")]
     /\ trace (snd r) =
          trace s
            ++ [AnyCall (weecfg_read_config config_path);
                AnyCall (get_manager_dict_from_config cfg db_binding);
                AnyCall (get_manager_dict_from_config cfg db_binding);
                AnyCall (weedb_create new_dict)])
  /\ (forall more old_m u target nick w2 w3,
        answers s = ans_y :: ans_y :: more ->
        lib (weedb_drop new_dict) w1 = (inr tt, w2) ->
        lib (Manager_open old_dict None) w2 = (inr old_m, w2) ->
        m_std_unit_system old_m = Some u ->
        match cfg_target_unit cfg with
        | None => target = None
        | Some name => target <> None /\ unit_constants H (upper name) = target
        end ->
        unit_nicknames H u = Some (nick u) ->
        (forall t, target = Some t -> unit_nicknames H t = Some (nick t)) ->
        lib (manager_reconfig old_dict new_dict target (md_schema md) false) w2
        = (inr tt, w3) ->
        let r :=
          run lib (reconfigure_database H config_path db_binding false) s in
        fst r = inr tt
        /\ world (snd r) = w3
        /\ trace (snd r) =
             trace s
               ++ [AnyCall (weecfg_read_config config_path);
                   AnyCall (get_manager_dict_from_config cfg db_binding);
                   AnyCall (get_manager_dict_from_config cfg db_binding);
                   AnyCall (weedb_create new_dict);
                   AnyCall (weedb_drop new_dict);
                   AnyCall (Manager_open old_dict None);
                   AnyCall (Manager_close old_m);
                   AnyCall (manager_reconfig old_dict new_dict target
                              (md_schema md) false)]).
Proof.
  split.
  - intros more Hno.
    destruct (reconfigure_database_keep Hno) as (Hr & Hw & _ & Ho & Ht).
    repeat split; assumption.
  - intros more old_m u target nick w2 w3.
    apply reconfigure_database_recreate.
Qed.

End Reconfigure.

(* ================================================================== *)
(** ** check *)

Section Check.

Variable W : Type.
Variable lib : Library W.
Variable H : Helpers.
Variable s : State W.
Variables config_path db_binding cfgp : string.
Variable cfg : Config.
Variable md : ManagerDict.
Variable m : Manager.
Variable version : option string.

Hypothesis Hclose : forall m w, lib (Manager_close m) w = (inr tt, w).
Hypothesis Hcfg :
  lib (weecfg_read_config config_path) (world s) = (inr (cfgp, cfg), world s).
Hypothesis Hmd :
  lib (get_manager_dict_from_config cfg db_binding) (world s)
  = (inr md, world s).
Hypothesis Hopen :
  lib (open_manager_with_config cfg db_binding false) (world s)
  = (inr m, world s).
Hypothesis Hversion :
  lib (dbm_read_metadata m "Version") (world s) = (inr version, world s).

(** What [check] prints: the fix is "not required" exactly when a version
    is stored and is, as a string, at least "2.0". *)
Lemma check_reports :
  let r := run lib (check H config_path db_binding) s in
  fst r = inr tt
  /\ world (snd r) = world s
  /\ output (snd r) =
       output s
         ++ [(stdout, will_be_used H cfgp);
             (stdout, "Checking daily summary tables version...");
             (stdout, "Daily summary tables are at version "
                        ^^ str_opt version ^^ ".");
             (stdout,
              if match version with
                 | Some v => str_ge v "2.0"
                 | None => false
                 end
              then fix_not_required else recommend_update)].
Proof.
  intros r; subst r.
  destruct version as [v |].
  - destruct (str_ge v "2.0") eqn:Ev;
      run_with ltac:(unfold check); repeat split; tidy.
  - run_with ltac:(unfold check); repeat split; tidy.
Qed.

End Check.

(* ================================================================== *)
(** ** The reference library *)

Section ReferenceLibrary.

Import RefLib.

Lemma lookup_put (X : Type) (key : string) (x : X) (l : list (string * X)) :
  lookup key (put key x l) = Some x.
Proof. unfold put. simpl. rewrite String.eqb_refl. reflexivity. Qed.

Lemma get_db_put_db (name : string) (db : Database) (w : World) :
  get_db name (put_db name db w) = Some db.
Proof. unfold get_db, put_db. simpl. apply lookup_put. Qed.

Lemma ref_read_config (path : string) (cfg : Config) (w : World) :
  lookup path (w_files w) = Some cfg ->
  lib (weecfg_read_config path) w = (inr (path, cfg), w).
Proof. intros E. cbn. rewrite E. reflexivity. Qed.

Lemma ref_get_manager_dict (cfg : Config) (binding : string)
    (md : ManagerDict) (w : World) :
  lookup binding (cfg_bindings cfg) = Some md ->
  lib (get_manager_dict_from_config cfg binding) w = (inr md, w).
Proof. intros E. cbn. rewrite E. reflexivity. Qed.

Lemma after_open_fields (db : Database) :
  db_schema (after_open db) = db_schema db
  /\ db_records (after_open db) = db_records db
  /\ db_daily (after_open db) = db_daily db
  /\ db_unit (after_open db) = db_unit db
  /\ db_zone (after_open db) = db_zone db.
Proof.
  unfold after_open, patch_version.
  destruct (db_version db) as [v |]; [destruct (needs_patch v) |];
    repeat split; reflexivity.
Qed.

Lemma get_db_after_open (name : string) (db : Database) (w : World) :
  get_db name w = Some db ->
  get_db name (world_after_open name db w) = Some (after_open db).
Proof.
  intros E. unfold world_after_open, after_open.
  destruct (patch_version db); [apply get_db_put_db | exact E].
Qed.

Lemma manager_of_after_open (name table : string) (db : Database) :
  manager_of name table (after_open db) = manager_of name table db.
Proof.
  unfold manager_of. destruct (after_open_fields db) as (_ & _ & _ & E & _).
  rewrite E. reflexivity.
Qed.

Lemma ref_open_manager (cfg : Config) (binding : string) (md : ManagerDict)
    (db : Database) (initialize : bool) (w : World) :
  lookup binding (cfg_bindings cfg) = Some md ->
  get_db (dd_database_name (md_database_dict md)) w = Some db ->
  lib (open_manager_with_config cfg binding initialize) w
  = (inr (manager_of (dd_database_name (md_database_dict md))
            (md_table_name md) db),
     world_after_open (dd_database_name (md_database_dict md)) db w).
Proof.
  intros E1 E2. cbn. rewrite E1, E2, manager_of_after_open. reflexivity.
Qed.

Lemma ref_close (m : Manager) (w : World) :
  lib (Manager_close m) w = (inr tt, w).
Proof. reflexivity. Qed.

Lemma ref_drop_columns_missing (iter : list string -> list string)
    (m : Manager) (names : list string) (db : Database) (n : string)
    (w : World) :
  get_db (m_database_name m) w = Some db ->
  first_missing (db_schema db) (iter names) = Some n ->
  lib_in_order iter (dbm_drop_columns m names) w
  = (inl (Exn NoColumnError (no_column_msg n)), w).
Proof.
  intros E1 E2. cbn. unfold update_db, on_db, drop_columns_db.
  rewrite E1, E2. reflexivity.
Qed.

Lemma ref_backfill (m : Manager) (start_d stop_d : option Z) (trans_days : Z)
    (db : Database) (w : World) :
  get_db (m_database_name m) w = Some db ->
  lib (dbm_backfill_day_summary m start_d stop_d trans_days) w
  = (inr (fst (backfill_day_summary start_d stop_d trans_days db)),
     put_db (m_database_name m)
       (snd (backfill_day_summary start_d stop_d trans_days db)) w).
Proof.
  intros E. cbn. unfold on_db. rewrite E.
  destruct (backfill_day_summary start_d stop_d trans_days db) as [n db'].
  reflexivity.
Qed.

(** The reference library keeps the classification of the calls. *)
Lemma ref_lib_read_only : read_only_calls lib.
Proof.
  intros X c w Hc.
  destruct c; try discriminate Hc; cbn in *; unfold on_db;
    repeat match goal with
           | |- context [match ?x with _ => _ end] => destruct x
           end;
    try reflexivity; discriminate.
Qed.

(** *** The first missing column *)

Lemma no_column_msg_names (n : string) : names_column (no_column_msg n) n.
Proof.
  exists "Cannot DROP '", "'; column does not exist.". reflexivity.
Qed.

(** Whatever the order the set is gone through in, the first missing name
    is one of the requested names the schema lacks. *)
Lemma first_missing_exists (sch : Schema) (names enum : list string) :
  (forall c, In c enum <-> In c names) ->
  (exists c, In c names /\ has_column sch c = false) ->
  exists n, first_missing sch enum = Some n
            /\ In n names /\ has_column sch n = false.
Proof.
  intros Henum (c & Hin & Hc). unfold first_missing.
  destruct (find (fun n => negb (has_column sch n)) enum) as [n |] eqn:E.
  - exists n. apply find_some in E. destruct E as [Hn Hm].
    apply Henum in Hn.
    repeat split; auto. destruct (has_column sch n); auto; discriminate.
  - exfalso. apply find_none with (x := c) in E.
    + rewrite Hc in E. discriminate.
    + apply Henum. exact Hin.
Qed.

(** *** The summary builder *)

Lemma key_eqbP (a b : string * Z) : reflect (a = b) (key_eqb a b).
Proof.
  destruct a as [x m], b as [y n]. unfold key_eqb. simpl.
  destruct (String.eqb_spec x y), (Z.eqb_spec m n); simpl; constructor;
    congruence.
Qed.

Lemma row_of_set_row (K k : string * Z) (row : DaySummary)
    (t : SummaryTable) :
  row_of K (set_row k row t) = if key_eqb K k then Some row else row_of K t.
Proof.
  induction t as [| [k' x] t IH]; simpl.
  - reflexivity.
  - destruct (key_eqbP k k'); simpl.
    + subst k'. destruct (key_eqb K k); reflexivity.
    + rewrite IH. destruct (key_eqbP K k'), (key_eqbP K k);
        try reflexivity. congruence.
Qed.

Lemma row_of_app (K : string * Z) (a b : SummaryTable) :
  row_of K (a ++ b)
  = match row_of K a with Some r => Some r | None => row_of K b end.
Proof.
  induction a as [| [k x] a IH]; simpl.
  - reflexivity.
  - destruct (key_eqb K k); auto.
Qed.

(** One record, folded into the rows of its day: the row of each
    observation type of that day takes the record in, the other rows
    stay. *)
Lemma row_of_fold_type (d : Z) (r : ArchiveRecord) (types : list string) :
  NoDup types ->
  forall (t : SummaryTable) (ty : string) (D : Z),
    row_of (ty, D) (fold_left (fold_type d r) types t)
    = if (D =? d) && existsb (String.eqb ty) types
      then Some (add_record ty (row_or_empty (row_of (ty, D) t)) r)
      else row_of (ty, D) t.
Proof.
  induction 1 as [| ty0 types Hnotin Hnodup IH]; intros t ty D; simpl.
  - rewrite andb_false_r. reflexivity.
  - rewrite IH.
    assert (E0 : row_of (ty, D) (fold_type d r t ty0)
                 = if key_eqb (ty, D) (ty0, d)
                   then Some (add_record ty0
                                (row_or_empty (row_of (ty0, d) t)) r)
                   else row_of (ty, D) t)
      by (unfold fold_type; apply row_of_set_row).
    rewrite E0. unfold key_eqb. simpl.
    destruct (Z.eqb_spec D d) as [-> | HD]; simpl.
    + destruct (String.eqb_spec ty ty0) as [-> | Hty]; simpl.
      * assert (E : existsb (String.eqb ty0) types = false).
        { destruct (existsb (String.eqb ty0) types) eqn:E; auto.
          apply existsb_exists in E. destruct E as (x & Hx & Ex).
          apply String.eqb_eq in Ex. subst x. contradiction. }
        rewrite E. reflexivity.
      * reflexivity.
    + rewrite andb_false_r. reflexivity.
Qed.

Lemma row_of_rebuilt (db : Database) (rs : list ArchiveRecord)
    (t : SummaryTable) (ty : string) (D : Z) :
  In ty (obs_types (db_schema db)) ->
  row_of (ty, D) (fold_left (fold_record db) rs t)
  = fold_left (fun acc r => Some (add_record ty (row_or_empty acc) r))
      (filter (fun r => day_of db (dateTime r) =? D) rs) (row_of (ty, D) t).
Proof.
  intros Hty. revert t. induction rs as [| r rs IH]; intros t; simpl.
  - reflexivity.
  - rewrite IH. unfold fold_record at 1.
    rewrite row_of_fold_type by apply NoDup_nodup.
    assert (E : existsb (String.eqb ty) (obs_types (db_schema db)) = true).
    { apply existsb_exists. exists ty. split; [exact Hty |].
      apply String.eqb_refl. }
    rewrite E, andb_true_r, (Z.eqb_sym D).
    destruct (day_of db (dateTime r) =? D); reflexivity.
Qed.

Lemma fold_rows (ty : string) (rs : list ArchiveRecord)
    (acc : option DaySummary) :
  fold_left (fun acc r => Some (add_record ty (row_or_empty acc) r)) rs acc
  = match rs with
    | [] => acc
    | _ :: _ => Some (fold_left (add_record ty) rs (row_or_empty acc))
    end.
Proof.
  revert acc. induction rs as [| r rs IH]; intros acc; simpl.
  - reflexivity.
  - rewrite IH. destruct rs; reflexivity.
Qed.

Lemma sum_snoc (l : list Z) (x : Z) :
  fold_right Z.add 0 (l ++ [x]) = fold_right Z.add 0 l + x.
Proof. induction l; simpl; lia. Qed.

Lemma summarises_empty : summarises empty_row [].
Proof. unfold summarises, empty_row; simpl. repeat split. Qed.

Lemma summarises_add_value (row : DaySummary) (vs : list (Z * Z * Z))
    (ts w x : Z) :
  summarises row vs ->
  summarises (add_value row ts w x) (vs ++ [(ts, w, x)]).
Proof.
  intros (Hc & Hs & Hw & Ht & Hmin & Hmax).
  unfold summarises, add_value; simpl.
  rewrite !map_app, length_app. simpl. rewrite !sum_snoc. simpl.
  repeat split; try lia.
  - destruct (ds_min row) as [[m t] |].
    + destruct Hmin as (Hb & w0 & Hin).
      destruct (Z.ltb_spec x m); split.
      * intros v Hv. apply in_app_iff in Hv.
        destruct Hv as [Hv | [<- | []]]; [specialize (Hb v Hv) |]; simpl; lia.
      * exists w. apply in_app_iff. right. left. reflexivity.
      * intros v Hv. apply in_app_iff in Hv.
        destruct Hv as [Hv | [<- | []]]; [specialize (Hb v Hv) |]; simpl; lia.
      * exists w0. apply in_app_iff. left. exact Hin.
    + subst vs. split.
      * intros v [<- | []]. simpl. lia.
      * exists w. left. reflexivity.
  - destruct (ds_max row) as [[m t] |].
    + destruct Hmax as (Hb & w0 & Hin).
      destruct (Z.ltb_spec m x); split.
      * intros v Hv. apply in_app_iff in Hv.
        destruct Hv as [Hv | [<- | []]]; [specialize (Hb v Hv) |]; simpl; lia.
      * exists w. apply in_app_iff. right. left. reflexivity.
      * intros v Hv. apply in_app_iff in Hv.
        destruct Hv as [Hv | [<- | []]]; [specialize (Hb v Hv) |]; simpl; lia.
      * exists w0. apply in_app_iff. left. exact Hin.
    + subst vs. split.
      * intros v [<- | []]. simpl. lia.
      * exists w. left. reflexivity.
Qed.

Lemma samples_app (ty : string) (a b : list ArchiveRecord) :
  samples ty (a ++ b) = samples ty a ++ samples ty b.
Proof. unfold samples. apply flat_map_app. Qed.

Lemma summarises_fold (ty : string) (rs pre : list ArchiveRecord)
    (row : DaySummary) :
  summarises row (samples ty pre) ->
  summarises (fold_left (add_record ty) rs row) (samples ty (pre ++ rs)).
Proof.
  revert pre row. induction rs as [| r rs IH]; intros pre row Hrow; simpl.
  - rewrite app_nil_r. exact Hrow.
  - replace (pre ++ r :: rs) with ((pre ++ [r]) ++ rs)
      by (rewrite <- app_assoc; reflexivity).
    apply IH. rewrite samples_app. unfold add_record, samples at 2. simpl.
    destruct (value_of ty r) as [x |]; simpl.
    + apply summarises_add_value. exact Hrow.
    + rewrite app_nil_r. exact Hrow.
Qed.

(** The samples of a list of records are as many as its records with a
    value, and as many as its records when none lacks one. *)
Lemma length_samples (ty : string) (rs : list ArchiveRecord) :
  List.length (samples ty rs) = List.length (filter (has_value ty) rs).
Proof.
  induction rs as [| r rs IH]; simpl; [reflexivity |].
  unfold has_value. destruct (value_of ty r); simpl; rewrite IH; reflexivity.
Qed.

Lemma filter_all (X : Type) (f : X -> bool) (l : list X) :
  (forall x, In x l -> f x = true) -> filter f l = l.
Proof.
  intros Hf. induction l as [| x l IH]; simpl; [reflexivity |].
  rewrite (Hf x) by (left; reflexivity).
  rewrite IH by (intros y Hy; apply Hf; right; exact Hy). reflexivity.
Qed.

(** The day the builder files a timestamp under is the day it falls in. *)
Lemma day_of_falls_in (db : Database) (D ts : Z) :
  (day_of db ts =? D) = falls_in db D ts.
Proof.
  unfold day_of, falls_in. set (x := local_time db ts).
  pose proof (Z.div_mod x 86400 ltac:(lia)) as Hx.
  pose proof (Z.mod_pos_bound x 86400 ltac:(lia)) as Hm.
  destruct (Z.eqb_spec (x / 86400) D), (Z.leb_spec (86400 * D) x),
    (Z.ltb_spec x (86400 * (D + 1))); simpl; try reflexivity; lia.
Qed.

(** After a rebuild without bounds, every day a record falls in has, for
    every observation type, its row, and the row is the summary of the
    values the records of the day hold for that type. *)
Lemma backfill_all_days (db : Database) (trans_days : Z) (ty : string)
    (D : Z) :
  In ty (obs_types (db_schema db)) ->
  records_of_day db D <> [] ->
  exists row,
    daily_row (snd (backfill_day_summary None None trans_days db)) ty D
    = Some row
    /\ summarises row (samples ty (records_of_day db D)).
Proof.
  intros Hty Hne. unfold backfill_day_summary, daily_row. simpl.
  rewrite filter_all by reflexivity.
  unfold overlay. rewrite row_of_app, (@row_of_rebuilt db _ _ ty D Hty). simpl.
  rewrite fold_rows.
  replace (filter (fun r => day_of db (dateTime r) =? D) (db_records db))
    with (records_of_day db D)
    by (unfold records_of_day; apply filter_ext; intros r;
        symmetry; apply day_of_falls_in).
  destruct (records_of_day db D) as [| r rs] eqn:E; [congruence |].
  eexists. split; [reflexivity |].
  apply (summarises_fold ty (r :: rs) []). apply summarises_empty.
Qed.

End ReferenceLibrary.

(* ================================================================== *)
(** ** drop_columns and rebuild_daily on the reference library *)

Section OnTheReferenceLibrary.

Import RefLib.

Variable H : Helpers.
Variable s : State World.
Variables config_path db_binding : string.
Variable cfg : Config.
Variable md : ManagerDict.
Variable db : Database.
Variable more : list yn.

Local Abbreviation name := (dd_database_name (md_database_dict md)).
Local Abbreviation dbm := (manager_of name (md_table_name md) db).
Local Abbreviation opened := (world_after_open name db (world s)).

Hypothesis Hfile : lookup config_path (w_files (world s)) = Some cfg.
Hypothesis Hbinding : lookup db_binding (cfg_bindings cfg) = Some md.
Hypothesis Hdb : get_db name (world s) = Some db.
Hypothesis Hyes : answers s = ans_y :: more.

(** C3.  Some requested column is not in the schema.  In whatever order
    [iter] the manager goes through the set of the names, it fails with a
    NoColumnError that names the first missing one in that order, which
    is a requested name the schema lacks (the one, when only one is
    missing); the handler prints that error and "Nothing done.", and the
    schema of the database is as it was: no column has been dropped. *)
Theorem drop_columns_missing_column (iter : list string -> list string)
    (column_names : list string) :
  (forall l c, In c (iter l) <-> In c l) ->
  (exists c, In c column_names /\ has_column (db_schema db) c = false) ->
  let r := run (lib_in_order iter)
             (drop_columns H config_path column_names db_binding false) s in
  exists n msg,
    first_missing (db_schema db) (iter (py_set column_names)) = Some n
    /\ In n column_names
    /\ has_column (db_schema db) n = false
    /\ (forall b,
          (forall c, In c column_names ->
                     has_column (db_schema db) c = false -> c = b) ->
          n = b)
    /\ fst (lib_in_order iter (dbm_drop_columns dbm (py_set column_names))
              opened)
       = inl (Exn NoColumnError msg)
    /\ names_column msg n
    /\ fst r = inr tt
    /\ world (snd r) = opened
    /\ (exists db', get_db name (world (snd r)) = Some db'
                    /\ db_schema db' = db_schema db)
    /\ output (snd r) =
         output s
           ++ [(stdout, will_be_used H config_path);
               (stdout, "This may take a while...");
               (stderr, msg);
               (stdout, "Nothing done.")].
Proof.
  intros Hiter Hmissing r; subst r.
  assert (Henum : forall c, In c (iter (py_set column_names))
                            <-> In c column_names).
  { intros c. rewrite Hiter. unfold py_set. apply nodup_In. }
  destruct (@first_missing_exists (db_schema db) column_names _ Henum
              Hmissing)
    as (n & Hn & Hin & Hcol).
  pose proof (@get_db_after_open _ _ _ Hdb) as Hdb'.
  destruct (after_open_fields db) as (Hsch & _).
  assert (R1 : lib_in_order iter (weecfg_read_config config_path) (world s)
               = (inr (config_path, cfg), world s))
    by exact (ref_read_config config_path (world s) Hfile).
  assert (R2 : lib_in_order iter
                 (get_manager_dict_from_config cfg db_binding) (world s)
               = (inr md, world s))
    by exact (ref_get_manager_dict cfg db_binding (world s) Hbinding).
  assert (R3 : lib_in_order iter
                 (open_manager_with_config cfg db_binding false) (world s)
               = (inr dbm, opened))
    by exact (ref_open_manager cfg db_binding false (world s) Hbinding Hdb).
  assert (Hn' : first_missing (db_schema (after_open db))
                  (iter (py_set column_names)) = Some n)
    by (rewrite Hsch; exact Hn).
  pose proof (@ref_drop_columns_missing iter dbm (py_set column_names)
                _ _ opened Hdb' Hn') as R4.
  assert (R5 : forall m w, lib_in_order iter (Manager_close m) w
                           = (inr tt, w)) by exact ref_close.
  assert (Hcls : is_a (Exn NoColumnError (no_column_msg n)) [NoColumnError]
                 = true) by reflexivity.
  exists n, (no_column_msg n). rewrite R4.
  run_with ltac:(unfold drop_columns).
  repeat split; tidy; auto.
  - apply no_column_msg_names.
  - exists (after_open db). split; [exact Hdb' | exact Hsch].
Qed.

(** C4.  A confirmed rebuild without date bounds returns, and then, for
    every observation type the database keeps summaries of, every day a
    record falls in has its row in the daily summaries.  The count of the
    row is the number of the records of the day that hold a value for that
    type, which is the number of the records of the day when none of them
    lacks one, and the row is the summary of those values. *)
Theorem rebuild_daily_counts :
  parse_dates H None None None false = inr (None, None) ->
  let r := run lib (rebuild_daily H config_path None None None db_binding
                      false) s in
  fst r = inr tt
  /\ exists db',
       get_db name (world (snd r)) = Some db'
       /\ db_records db' = db_records db
       /\ forall ty D,
            In ty (obs_types (db_schema db)) ->
            (exists rec, In rec (db_records db)
                         /\ falls_in db D (dateTime rec) = true) ->
            exists row,
              daily_row db' ty D = Some row
              /\ ds_count row
                 = Z.of_nat (List.length (filter (has_value ty)
                                            (records_of_day db D)))
              /\ ((forall rec, In rec (records_of_day db D) ->
                               has_value ty rec = true) ->
                  ds_count row
                  = Z.of_nat (List.length (records_of_day db D)))
              /\ summarises row (samples ty (records_of_day db D)).
Proof.
  intros Hdates r; subst r.
  pose proof (@get_db_after_open _ _ _ Hdb) as Hdb'.
  destruct (after_open_fields db) as (Hsch & Hrec & _ & _ & Hzone).
  pose proof (ref_read_config config_path (world s) Hfile) as R1.
  pose proof (ref_get_manager_dict cfg db_binding (world s) Hbinding) as R2.
  pose proof (ref_open_manager cfg db_binding true (world s) Hbinding Hdb)
    as R3.
  pose proof (@ref_backfill dbm None None 20 _ opened Hdb') as R4.
  pose proof ref_close as R5.
  assert (Hday : forall D, records_of_day (after_open db) D
                           = records_of_day db D).
  { intros D. unfold records_of_day, falls_in, local_time.
    rewrite Hrec, Hzone. reflexivity. }
  destruct (backfill_day_summary None None 20 (after_open db))
    as [[nrecs ndays] db'] eqn:Eb.
  assert (Hrows : forall ty D,
            In ty (obs_types (db_schema db)) ->
            records_of_day db D <> [] ->
            exists row, daily_row db' ty D = Some row
                        /\ summarises row (samples ty (records_of_day db D))).
  { intros ty D Hty HD. rewrite <- Hsch in Hty. rewrite <- Hday in HD.
    pose proof (@backfill_all_days (after_open db) 20 ty D Hty HD) as HB.
    rewrite Eb, Hday in HB. exact HB. }
  assert (Hrecs : db_records db' = db_records db).
  { unfold backfill_day_summary in Eb. inversion Eb. exact Hrec. }
  cbn [fst snd] in R4. clear Eb.
  assert (Hend :
    fst (run lib (rebuild_daily H config_path None None None db_binding
                    false) s) = inr tt
    /\ world (snd (run lib (rebuild_daily H config_path None None None
                              db_binding false) s))
       = put_db name db' opened).
  { destruct (negb (nrecs =? 0)) eqn:E0;
      [ destruct (nrecs >=? 1000) eqn:E1; destruct (ndays =? 1) eqn:E2 | ];
      run_with ltac:(unfold rebuild_daily); split; reflexivity. }
  destruct Hend as [Hr Hw]. split; [exact Hr |].
  exists db'. rewrite Hw, get_db_put_db. repeat split; auto.
  intros ty D Hty (rec & Hin & Hfalls).
  destruct (Hrows ty D Hty) as (row & Erow & Hs).
  { unfold records_of_day. intros Hnil.
    assert (Hf : In rec (filter (fun r => falls_in db D (dateTime r))
                           (db_records db)))
      by (apply filter_In; split; assumption).
    rewrite Hnil in Hf. exact Hf. }
  assert (Hcount : ds_count row
                   = Z.of_nat (List.length (filter (has_value ty)
                                              (records_of_day db D))))
    by (rewrite <- length_samples; apply Hs).
  exists row. split; [exact Erow |]. split; [exact Hcount |].
  split; [| exact Hs].
  intros Hall. rewrite Hcount, (filter_all _ _ Hall). reflexivity.
Qed.

End OnTheReferenceLibrary.

(* ================================================================== *)
(** ** The handlers at the station *)

Section AtTheStation.

Import RefLib Example.

(** C1.  A dry run of [transfer_database], a source with three records, a
    user who confirms: the run ends with "This was a dry run. Nothing was
    actually done.", and the destination database, which did not exist,
    has been created by [open_with_create], a call that can write. *)
Theorem transfer_database_dry_run_creates_destination :
  let s := start (station (Some "4.0")) [ans_y] in
  let r := run lib (transfer_database helpers "weewx.conf"
                      (Some "dest_binding") "wx_binding" true) s in
  get_db "backup" (world s) = None
  /\ fst r = inr tt
  /\ In (stdout, dry_run_footer) (output (snd r))
  /\ get_db "backup" (world (snd r)) = Some (initialized_db schema false)
  /\ In (AnyCall (Manager_open_with_create (md_database_dict dest_dict)
                    "archive" schema)) (trace (snd r))
  /\ existsb mutating_any (trace (snd r)) = true.
Proof.
  vm_compute. repeat split; auto 10.
Qed.

(** A stored version "10.0" does not reach [check] as it is: it lies, as
    a string, between "1.0" and "4.0", the open patches it, and [check]
    reads "4.0". *)
Lemma check_version_patched :
  let s := start (station (Some "10.0")) [] in
  let r := run lib (check helpers "weewx.conf" "wx_binding") s in
  needs_patch "10.0" = true
  /\ fst r = inr tt
  /\ output (snd r) =
       [(stdout, "The configuration file weewx.conf will be used.");
        (stdout, "Checking daily summary tables version...");
        (stdout, "Daily summary tables are at version 4.0.");
        (stdout, fix_not_required)].
Proof.
  vm_compute. repeat split.
Qed.

(** C2.  A stored version "02.0": as a version it is 2.0, and so at least
    2.0; as a string it is below "2.0", and below "1.0" too, so that the
    open does not patch it; [check] reads it as it is stored and
    recommends the update. *)
Theorem check_version_leading_zero :
  let s := start (station (Some "02.0")) [] in
  let r := run lib (check helpers "weewx.conf" "wx_binding") s in
  version_at_least "02.0" "2.0" = true
  /\ str_ge "02.0" "2.0" = false
  /\ needs_patch "02.0" = false
  /\ fst r = inr tt
  /\ world (snd r) = station (Some "02.0")
  /\ output (snd r) =
       [(stdout, "The configuration file weewx.conf will be used.");
        (stdout, "Checking daily summary tables version...");
        (stdout, "Daily summary tables are at version 02.0.");
        (stdout, recommend_update)].
Proof.
  vm_compute. repeat split.
Qed.

(** C7.  [reconfigure_database] with a user who declines the copy: the
    handler prints "Nothing done.", and the database [weewx_new], which
    did not exist, has been created by the [weedb.create] that comes
    before the question. *)
Theorem reconfigure_database_declined_creates_target :
  let s := start (station (Some "4.0")) [ans_n] in
  let r := run lib (reconfigure_database helpers "weewx.conf" "wx_binding"
                      false) s in
  get_db "weewx_new" (world s) = None
  /\ fst r = inr tt
  /\ answers (snd r) = []
  /\ In (stdout, "Nothing done.") (output (snd r))
  /\ get_db "weewx_new" (world (snd r)) = Some created_db
  /\ In (AnyCall (weedb_create (mkDatabaseDict "weewx_new" "weedb.sqlite")))
        (trace (snd r)).
Proof.
  vm_compute. repeat split; auto 10.
Qed.

(** *** The theorems with hypotheses, at the station *)

Lemma drop_columns_missing_column_witness :
  let r := run (lib_in_order (@rev string))
             (drop_columns helpers "weewx.conf" ["zz"; "a"; "b"] "wx_binding"
                false)
             (start (station (Some "4.0")) [ans_y]) in
  fst r = inr tt
  /\ world (snd r) = station (Some "4.0")
  /\ exists msg, In (stderr, msg) (output (snd r)) /\ names_column msg "b".
Proof.
  destruct (@drop_columns_missing_column helpers
              (start (station (Some "4.0")) [ans_y]) "weewx.conf"
              "wx_binding" config wx_dict (weewx_db (Some "4.0")) []
              eq_refl eq_refl eq_refl eq_refl (@rev string) ["zz"; "a"; "b"]
              (fun l c => iff_sym (in_rev l c))
              (ex_intro _ "b" (conj (or_intror (or_intror (or_introl eq_refl)))
                                 eq_refl)))
    as (n & msg & Hn & _ & _ & _ & _ & Hmsg & Hr & Hw & _ & Ho).
  injection Hn as <-.
  split; [exact Hr |]. split; [exact Hw |].
  exists msg. split; [| exact Hmsg].
  rewrite Ho. apply in_or_app. right. right. right. left. reflexivity.
Defined.

Lemma rebuild_daily_counts_witness :
  let r := run lib (rebuild_daily helpers "weewx.conf" None None None
                      "wx_binding" false)
             (start (station (Some "4.0")) [ans_y]) in
  fst r = inr tt
  /\ exists db' row,
       get_db "weewx" (world (snd r)) = Some db'
       /\ daily_row db' "outTemp" 0 = Some row
       /\ ds_count row = 2.
Proof.
  destruct (@rebuild_daily_counts helpers
              (start (station (Some "4.0")) [ans_y]) "weewx.conf"
              "wx_binding" config wx_dict (weewx_db (Some "4.0")) []
              eq_refl eq_refl eq_refl eq_refl eq_refl)
    as (Hr & db' & Hdb' & _ & Hrows).
  destruct (Hrows "outTemp" 0 (or_introl eq_refl)
              (ex_intro _ (mkRecord 300 5 [("outTemp", Some 10);
                                           ("a", Some 1)])
                 (conj (or_introl eq_refl) eq_refl)))
    as (row & Erow & Hcount & _).
  split; [exact Hr |]. exists db', row.
  split; [exact Hdb' |]. split; [exact Erow | exact Hcount].
Defined.

(** The claim as it stands, with the count of a row the number of the
    records of its day, fails at the station: two records fall in day 0,
    one of them has no value for [a], and the row of [a] for day 0 counts
    one. *)
Lemma rebuild_daily_counts_counterexample :
  let db := weewx_db (Some "4.0") in
  let r := run lib (rebuild_daily helpers "weewx.conf" None None None
                      "wx_binding" false)
             (start (station (Some "4.0")) [ans_y]) in
  fst r = inr tt
  /\ List.length (records_of_day db 0) = 2%nat
  /\ exists db' row,
       get_db "weewx" (world (snd r)) = Some db'
       /\ daily_row db' "a" 0 = Some row
       /\ ds_count row = 1
       /\ ds_count row <> Z.of_nat (List.length (records_of_day db 0)).
Proof.
  vm_compute. split; [reflexivity |]. split; [reflexivity |].
  eexists. eexists. split; [reflexivity |]. split; [reflexivity |].
  split; [reflexivity | discriminate].
Qed.

Lemma transfer_database_no_records_witness :
  let r := run lib (transfer_database helpers "weewx.conf"
                      (Some "dest_binding") "wx_binding" false)
             (start empty_station []) in
  fst r = inr tt /\ world (snd r) = empty_station.
Proof.
  pose proof (@transfer_database_no_records _ lib helpers
                (start empty_station []) "weewx.conf" "dest_binding"
                "wx_binding" "weewx.conf" config wx_dict dest_dict
                (mkManager "weewx" "archive" None)
                eq_refl ref_close eq_refl eq_refl eq_refl eq_refl
                false [] eq_refl) as (Hr & Hw & _).
  split; [exact Hr | exact Hw].
Defined.



Lemma transfer_database_logging_witness :
  let e := Exn OSError "disk full" in
  let go := transfer_database helpers "weewx.conf" (Some "dest_binding")
              "wx_binding" false in
  let s := start (station (Some "4.0")) [ans_y] in
  disabled (snd (run (lib_no_write e) go s)) = INFO
  /\ disabled (snd (run lib go s)) = NOTSET.
Proof.
  intros e go s. split.
  - refine (proj2 (@transfer_database_logging _ (lib_no_write e) helpers s
                     "weewx.conf" "dest_binding" "wx_binding" "weewx.conf"
                     config wx_dict dest_dict
                     (mkManager "weewx" "archive" (Some 1))
                     eq_refl (fun m w => eq_refl) eq_refl eq_refl eq_refl
                     eq_refl 3 [] [] eq_refl eq_refl eq_refl
                     (mkManager "backup" "archive" None)
                     (put_db "backup" (initialized_db schema false)
                        (station (Some "4.0")))
                     (put_db "backup" (initialized_db schema false)
                        (station (Some "4.0")))
                     (inl e) eq_refl eq_refl _)).
    intros e' He'. injection He' as <-. reflexivity.
  - refine (proj2 (@transfer_database_logging _ lib helpers s
                     "weewx.conf" "dest_binding" "wx_binding" "weewx.conf"
                     config wx_dict dest_dict
                     (mkManager "weewx" "archive" (Some 1))
                     eq_refl ref_close eq_refl eq_refl eq_refl
                     eq_refl 3 [] [] eq_refl eq_refl eq_refl
                     (mkManager "backup" "archive" None)
                     (put_db "backup" (initialized_db schema false)
                        (station (Some "4.0")))
                     _ (inr 3) eq_refl eq_refl _)).
    intros e' He'. discriminate He'.
Defined.

Lemma calc_missing_empty_archive_witness :
  exists msg,
    fst (run lib (calc_missing helpers "weewx.conf" None None None
                    "wx_binding" false) (start empty_station [ans_y]))
    = inl (Exn TypeError msg).
Proof.
  exact (proj1 (@calc_missing_empty_archive _ lib helpers
                  (start empty_station [ans_y]) "weewx.conf" "wx_binding"
                  "weewx.conf" config wx_dict
                  (mkManager "weewx" "archive" None) None None None None None
                  ref_close eq_refl eq_refl eq_refl eq_refl eq_refl eq_refl
                  false)).
Defined.

Lemma reconfigure_database_exists_witness :
  let go := reconfigure_database helpers "weewx.conf" "wx_binding" false in
  world (snd (run lib go (start station_with_new [ans_n])))
  = station_with_new
  /\ fst (run lib go (start station_with_new [ans_y; ans_y])) = inr tt.
Proof.
  intros go. split.
  - refine (proj1 (proj2 (proj1 (@reconfigure_database_exists _ lib helpers
                                   (start station_with_new [ans_n])
                                   "weewx.conf" "wx_binding" "weewx.conf"
                                   config wx_dict
                                   (Exn DatabaseExists "weewx_new")
                                   station_with_new ref_close eq_refl
                                   eq_refl eq_refl eq_refl)
                            [] eq_refl))).
  - refine (proj1 (proj2 (@reconfigure_database_exists _ lib helpers
                            (start station_with_new [ans_y; ans_y])
                            "weewx.conf" "wx_binding" "weewx.conf"
                            config wx_dict
                            (Exn DatabaseExists "weewx_new")
                            station_with_new ref_close eq_refl
                            eq_refl eq_refl eq_refl)
                     [] (mkManager "weewx" "archive" (Some 1)) 1 None
                     (fun _ => "US") _ _ eq_refl eq_refl eq_refl eq_refl
                     eq_refl eq_refl _ eq_refl)).
    intros t Ht. discriminate Ht.
Defined.

End AtTheStation.

(* ================================================================== *)
(** ** More of transfer_database *)

(** Whether an exception at hand is of one of the classes of a clause. *)
Ltac class_fact x cs :=
  let b := eval vm_compute in (is_a x cs) in
  assert (is_a x cs = b) by reflexivity.

Section TransferEdges.

Variable W : Type.
Variable lib : Library W.
Variable H : Helpers.
Variable s : State W.
Variables config_path db_binding : string.

(** X1.  Without a destination binding, [None] or the empty string, the
    handler prints one line on the error stream and returns: it reads no
    configuration, makes no call, asks nothing, and says nothing about a
    dry run. *)
Theorem transfer_database_no_destination_binding (dry_run : bool) :
  run lib (transfer_database H config_path None db_binding dry_run) s
  = (inr tt,
     printed stderr
       "Destination binding not specified. Nothing Done. Aborting." s)
  /\ run lib (transfer_database H config_path (Some "") db_binding dry_run) s
     = (inr tt,
        printed stderr
          "Destination binding not specified. Nothing Done. Aborting." s).
Proof. split; reflexivity. Qed.

Variables dest_binding cfgp : string.
Variable cfg : Config.
Variable src_md : ManagerDict.

Hypothesis Hdest : String.eqb dest_binding "" = false.
Hypothesis Hclose : forall m w, lib (Manager_close m) w = (inr tt, w).
Hypothesis Hcfg :
  lib (weecfg_read_config config_path) (world s) = (inr (cfgp, cfg), world s).
Hypothesis Hsrc :
  lib (get_manager_dict_from_config cfg db_binding) (world s)
  = (inr src_md, world s).

Local Abbreviation banner dry_run :=
  (if dry_run : bool then [(stdout, dry_run_banner)] else []).

(** X2.  The destination binding cannot be resolved: for each of the
    exceptions the handler names (UnknownBinding, UnknownDatabase,
    ValueError, AttributeError, UnknownDatabaseType) it prints the lines of
    that clause, ends with "Nothing Done. Aborting." on the error stream,
    and returns normally; it has opened no database and asked nothing. *)
Theorem transfer_database_unresolved_destination (dry_run : bool) (e : exn)
    (w1 : W) :
  is_a e [UnknownBinding; UnknownDatabase; ValueError; AttributeError;
          UnknownDatabaseType] = true ->
  lib (get_manager_dict_from_config cfg dest_binding) (world s)
  = (inl e, w1) ->
  let r := run lib (transfer_database H config_path (Some dest_binding)
                      db_binding dry_run) s in
  fst r = inr tt
  /\ world (snd r) = w1
  /\ prompts (snd r) = prompts s
  /\ output (snd r) =
       output s ++ banner dry_run ++ [(stdout, will_be_used H cfgp)]
         ++ match exn_class e with
            | UnknownBinding =>
                [(stdout, "Unknown destination binding '" ^^ dest_binding
                            ^^ "'. Please confirm the destination binding.")]
            | UnknownDatabase =>
                [(stderr, "Error accessing destination database: "
                            ^^ exn_msg e)]
            | UnknownDatabaseType =>
                [(stderr, "Error accessing destination database.");
                 (stderr, "Maybe the destination database is incorrectly "
                            ^^ "defined in weewx.conf?")]
            | _ =>
                [(stderr, "Error accessing destination database.");
                 (stderr, "Maybe the destination schema is incorrectly "
                            ^^ "specified in binding '" ^^ dest_binding
                            ^^ "' in weewx.conf?")]
            end
         ++ [(stderr, "Nothing Done. Aborting.")]
  /\ trace (snd r) =
       trace s
         ++ [AnyCall (weecfg_read_config config_path);
             AnyCall (get_manager_dict_from_config cfg db_binding);
             AnyCall (get_manager_dict_from_config cfg dest_binding)].
Proof.
  intros He Hdst r; subst r.
  destruct e as [[] msg]; try discriminate He; clear He;
    match type of Hdst with
    | _ = (inl ?x, _) =>
        class_fact x [UnknownBinding];
        class_fact x [UnknownDatabase];
        class_fact x [ValueError; AttributeError];
        class_fact x [UnknownDatabaseType]
    end;
    destruct dry_run;
    run_with ltac:(unfold transfer_database; rewrite Hdest);
    repeat split; tidy.
Qed.

Section Resolved.

Variable dest_md : ManagerDict.
Variable src_m : Manager.
Variable num_recs : Z.
Variable rest : list Z.
Variable more : list yn.

Local Abbreviation count_sql :=
  ("SELECT COUNT(dateTime) from " ^^ m_table_name src_m ^^ ";").
Local Abbreviation dest_name := (dd_database_name (md_database_dict dest_md)).
Local Abbreviation opening :=
  [AnyCall (weecfg_read_config config_path);
   AnyCall (get_manager_dict_from_config cfg db_binding);
   AnyCall (get_manager_dict_from_config cfg dest_binding);
   AnyCall (Manager_open (md_database_dict src_md) None);
   AnyCall (dbm_getSql src_m count_sql)].
Local Abbreviation open_dest :=
  (Manager_open_with_create (md_database_dict dest_md)
     (md_table_name dest_md) (md_schema dest_md)).
Local Abbreviation question :=
  ("Transfer " ^^ str_Z num_recs ^^ " records from source database '"
     ^^ m_database_name src_m ^^ "' to destination database '"
     ^^ dest_name ^^ "'? (y/n) ").

Hypothesis Hdst :
  lib (get_manager_dict_from_config cfg dest_binding) (world s)
  = (inr dest_md, world s).
Hypothesis Hopen :
  lib (Manager_open (md_database_dict src_md) None) (world s)
  = (inr src_m, world s).
Hypothesis Hsql :
  lib (dbm_getSql src_m count_sql) (world s)
  = (inr (Some (num_recs :: rest)), world s).
Hypothesis Hrecs : (num_recs =? 0) = false.

(** X3.  The user declines the transfer: "Nothing done." and the handler
    returns.  The question names the count, the source and the
    destination; the destination is not opened; and in a dry run the
    closing line of a dry run is not printed, because the handler has
    returned before it. *)
Theorem transfer_database_declined (dry_run : bool) :
  answers s = ans_n :: more ->
  let r := run lib (transfer_database H config_path (Some dest_binding)
                      db_binding dry_run) s in
  fst r = inr tt
  /\ world (snd r) = world s
  /\ answers (snd r) = more
  /\ prompts (snd r) = prompts s ++ [question]
  /\ output (snd r) =
       output s ++ banner dry_run
         ++ [(stdout, will_be_used H cfgp); (stdout, "Nothing done.")]
  /\ trace (snd r) = trace s ++ opening ++ [AnyCall (Manager_close src_m)].
Proof.
  intros Hno r; subst r.
  destruct dry_run;
    run_with ltac:(unfold transfer_database; rewrite Hdest);
    repeat split; tidy.
Qed.

(** X4.  A confirmed transfer that succeeds: the destination is opened,
    logging is disabled at INFO for the one call of [addRecord], and for
    no other call, and set back to NOTSET, whatever it was before; the
    count printed is the one [addRecord] returned, the destination is
    closed before the source, and the world is the one [addRecord]
    left. *)
Theorem transfer_database_transfers (dest_m : Manager) (w1 w2 : W) (n : Z) :
  answers s = ans_y :: more ->
  lib open_dest (world s) = (inr dest_m, w1) ->
  lib (dbm_addRecord dest_m src_m) w1 = (inr n, w2) ->
  let r := run lib (transfer_database H config_path (Some dest_binding)
                      db_binding false) s in
  fst r = inr tt
  /\ world (snd r) = w2
  /\ disabled (snd r) = NOTSET
  /\ answers (snd r) = more
  /\ output (snd r) =
       output s
         ++ [(stdout, will_be_used H cfgp);
             (stdout, "Transferring, this may take a while.... ");
             (stdout, LF ^^ "Completed.");
             (stdout,
              str_Z n ^^ " records transferred from source database '"
                ^^ m_database_name src_m ^^ "' to destination database '"
                ^^ m_database_name dest_m ^^ "' in "
                ^^ fmt_f H 2 (clock s (S (reads s)) - clock s (reads s))
                ^^ " seconds.")]
  /\ trace (snd r) =
       trace s ++ opening
         ++ [AnyCall open_dest; AnyCall (dbm_addRecord dest_m src_m);
             AnyCall (Manager_close dest_m); AnyCall (Manager_close src_m)]
  /\ levels (snd r) =
       levels s
         ++ map (fun _ => disabled s) opening
         ++ [disabled s; INFO; NOTSET; NOTSET].
Proof.
  intros Hyes Hw Ha r; subst r.
  run_with ltac:(unfold transfer_database; rewrite Hdest);
    repeat split; tidy.
Qed.

(** X5.  A confirmed dry run: [addRecord] is not called and logging is
    not touched, the count printed is 0, the closing line of a dry run is
    printed; the destination has been opened with [open_with_create] all
    the same, and the world is the one that call left. *)
Theorem transfer_database_confirmed_dry_run (dest_m : Manager) (w1 : W) :
  answers s = ans_y :: more ->
  lib open_dest (world s) = (inr dest_m, w1) ->
  let r := run lib (transfer_database H config_path (Some dest_binding)
                      db_binding true) s in
  fst r = inr tt
  /\ world (snd r) = w1
  /\ disabled (snd r) = disabled s
  /\ output (snd r) =
       output s
         ++ [(stdout, dry_run_banner);
             (stdout, will_be_used H cfgp);
             (stdout, "Transferring, this may take a while.... ");
             (stdout, LF ^^ "Completed.");
             (stdout,
              "0 records transferred from source database '"
                ^^ m_database_name src_m ^^ "' to destination database '"
                ^^ m_database_name dest_m ^^ "' in "
                ^^ fmt_f H 2 (clock s (S (reads s)) - clock s (reads s))
                ^^ " seconds.");
             (stdout, dry_run_footer)]
  /\ trace (snd r) =
       trace s ++ opening
         ++ [AnyCall open_dest; AnyCall (Manager_close dest_m);
             AnyCall (Manager_close src_m)].
Proof.
  intros Hyes Hw r; subst r.
  run_with ltac:(unfold transfer_database; rewrite Hdest);
    repeat split; tidy.
Qed.

End Resolved.
End TransferEdges.

(* ================================================================== *)
(** ** create_database *)

Section CreateDatabase.

Variable W : Type.
Variable lib : Library W.
Variable H : Helpers.
Variable s : State W.
Variables config_path db_binding cfgp : string.
Variable cfg : Config.

Hypothesis Hclose : forall m w, lib (Manager_close m) w = (inr tt, w).
Hypothesis Hcfg :
  lib (weecfg_read_config config_path) (world s) = (inr (cfgp, cfg), world s).

Local Abbreviation banner dry_run :=
  (if dry_run : bool then [(stdout, dry_run_banner)] else []).

(** X6.  The database can be opened: it exists, the handler says so and
    does nothing else, in a dry run or not. *)
Theorem create_database_exists (dry_run : bool) (m : Manager) :
  lib (open_manager_with_config cfg db_binding false) (world s)
  = (inr m, world s) ->
  let r := run lib (create_database H config_path db_binding dry_run) s in
  fst r = inr tt
  /\ world (snd r) = world s
  /\ output (snd r) =
       output s ++ banner dry_run
         ++ [(stdout, will_be_used H cfgp);
             (stdout, "Database '" ^^ m_database_name m
                        ^^ "' already exists. Nothing done.")]
  /\ trace (snd r) =
       trace s
         ++ [AnyCall (weecfg_read_config config_path);
             AnyCall (open_manager_with_config cfg db_binding false);
             AnyCall (Manager_close m)].
Proof.
  intros Hopen r; subst r.
  destruct dry_run; run_with ltac:(unfold create_database);
    repeat split; tidy.
Qed.

(** X7.  The plain open raises OperationalError: the database is taken
    not to exist.  A real run opens it again with [initialize=True] and
    prints "Created database"; a dry run stops there, without a further
    call and without a further line. *)
Theorem create_database_missing (dry_run : bool) (e : exn) (m : Manager)
    (w1 w2 : W) :
  is_a e [OperationalError] = true ->
  lib (open_manager_with_config cfg db_binding false) (world s)
  = (inl e, w1) ->
  lib (open_manager_with_config cfg db_binding true) w1 = (inr m, w2) ->
  let r := run lib (create_database H config_path db_binding dry_run) s in
  fst r = inr tt
  /\ world (snd r) = (if dry_run then w1 else w2)
  /\ output (snd r) =
       output s ++ banner dry_run ++ [(stdout, will_be_used H cfgp)]
         ++ (if dry_run then []
             else [(stdout, "Created database '" ^^ m_database_name m
                              ^^ "'.")])
  /\ trace (snd r) =
       trace s
         ++ [AnyCall (weecfg_read_config config_path);
             AnyCall (open_manager_with_config cfg db_binding false)]
         ++ (if dry_run then []
             else [AnyCall (open_manager_with_config cfg db_binding true);
                   AnyCall (Manager_close m)]).
Proof.
  intros He Hopen Hinit r; subst r.
  destruct dry_run; run_with ltac:(unfold create_database);
    repeat split; tidy.
Qed.

(** X8.  Any other exception of the plain open reaches the caller:
    nothing is created and nothing more is printed. *)
Theorem create_database_open_error (dry_run : bool) (e : exn) (w1 : W) :
  is_a e [OperationalError] = false ->
  lib (open_manager_with_config cfg db_binding false) (world s)
  = (inl e, w1) ->
  let r := run lib (create_database H config_path db_binding dry_run) s in
  fst r = inl e
  /\ world (snd r) = w1
  /\ output (snd r) =
       output s ++ banner dry_run ++ [(stdout, will_be_used H cfgp)]
  /\ trace (snd r) =
       trace s
         ++ [AnyCall (weecfg_read_config config_path);
             AnyCall (open_manager_with_config cfg db_binding false)].
Proof.
  intros He Hopen r; subst r.
  destruct dry_run; run_with ltac:(unfold create_database);
    repeat split; tidy.
Qed.

End CreateDatabase.

(* ================================================================== *)
(** ** drop_daily *)

Section DropDaily.

Variable W : Type.
Variable lib : Library W.
Variable H : Helpers.
Variable s : State W.
Variables config_path db_binding cfgp : string.
Variable cfg : Config.
Variable md : ManagerDict.
Variable more : list yn.

Local Abbreviation database_name :=
  (dd_database_name (md_database_dict md)).
Local Abbreviation banner dry_run :=
  (if dry_run : bool then [(stdout, dry_run_banner)] else []).
Local Abbreviation footer dry_run :=
  (if dry_run : bool then [(stdout, dry_run_footer)] else []).
Local Abbreviation preamble :=
  [AnyCall (weecfg_read_config config_path);
   AnyCall (get_manager_dict_from_config cfg db_binding)].
Local Abbreviation announced :=
  [(stdout, will_be_used H cfgp);
   (stdout, "Proceeding will delete all your daily summaries from database '"
              ^^ database_name ^^ "'");
   (stdout, "Dropping daily summary tables from '" ^^ database_name
              ^^ "' ... ")].

Hypothesis Hclose : forall m w, lib (Manager_close m) w = (inr tt, w).
Hypothesis Hcfg :
  lib (weecfg_read_config config_path) (world s) = (inr (cfgp, cfg), world s).
Hypothesis Hmd :
  lib (get_manager_dict_from_config cfg db_binding) (world s)
  = (inr md, world s).
Hypothesis Hyes : answers s = ans_y :: more.

(** X9.  The database cannot be opened with an OperationalError: the
    handler takes it that there are no daily summaries, says so, and
    returns normally; [drop_daily] is not called. *)
Theorem drop_daily_no_summaries (dry_run : bool) (e : exn) (w1 : W) :
  is_a e [OperationalError] = true ->
  lib (open_manager_with_config cfg db_binding false) (world s)
  = (inl e, w1) ->
  let r := run lib (drop_daily H config_path db_binding dry_run) s in
  fst r = inr tt
  /\ world (snd r) = w1
  /\ output (snd r) =
       output s ++ banner dry_run ++ announced
         ++ [(stdout, "No daily summaries found in database '"
                        ^^ database_name ^^ "'. Nothing done.")]
         ++ footer dry_run
  /\ trace (snd r) =
       trace s ++ preamble
         ++ [AnyCall (open_manager_with_config cfg db_binding false)].
Proof.
  intros He Hopen r; subst r.
  destruct dry_run; run_with ltac:(unfold drop_daily);
    repeat split; tidy.
Qed.

(** X10.  The manager's [drop_daily] raises OperationalError: the error
    goes to the error stream, the failure is reported, the manager is
    closed, and the handler returns normally. *)
Theorem drop_daily_fails (e : exn) (m : Manager) (w1 : W) :
  is_a e [OperationalError] = true ->
  lib (open_manager_with_config cfg db_binding false) (world s)
  = (inr m, world s) ->
  lib (dbm_drop_daily m) (world s) = (inl e, w1) ->
  let r := run lib (drop_daily H config_path db_binding false) s in
  fst r = inr tt
  /\ world (snd r) = w1
  /\ output (snd r) =
       output s ++ announced
         ++ [(stderr, "Error '" ^^ exn_msg e ^^ "'");
             (stdout, "Drop daily summary tables failed for database '"
                        ^^ database_name ^^ "'")]
  /\ trace (snd r) =
       trace s ++ preamble
         ++ [AnyCall (open_manager_with_config cfg db_binding false);
             AnyCall (dbm_drop_daily m);
             AnyCall (Manager_close m)].
Proof.
  intros He Hopen Hdrop r; subst r.
  run_with ltac:(unfold drop_daily); repeat split; tidy.
Qed.

(** X11.  The confirmed drop: a real run calls the manager's
    [drop_daily]; a dry run opens the database and does not call it.  Both
    print that the tables have been dropped, with the time taken; the dry
    run then adds that nothing was done. *)
Theorem drop_daily_drops (dry_run : bool) (m : Manager) (w1 : W) :
  lib (open_manager_with_config cfg db_binding false) (world s)
  = (inr m, world s) ->
  lib (dbm_drop_daily m) (world s) = (inr tt, w1) ->
  let r := run lib (drop_daily H config_path db_binding dry_run) s in
  fst r = inr tt
  /\ world (snd r) = (if dry_run then world s else w1)
  /\ output (snd r) =
       output s ++ banner dry_run ++ announced
         ++ [(stdout, "Daily summary tables dropped from database '"
                        ^^ database_name ^^ "' in "
                        ^^ fmt_f H 2 (clock s (S (reads s))
                                      - clock s (reads s))
                        ^^ " seconds")]
         ++ footer dry_run
  /\ trace (snd r) =
       trace s ++ preamble
         ++ [AnyCall (open_manager_with_config cfg db_binding false)]
         ++ (if dry_run then [] else [AnyCall (dbm_drop_daily m)])
         ++ [AnyCall (Manager_close m)].
Proof.
  intros Hopen Hdrop r; subst r.
  destruct dry_run; run_with ltac:(unfold drop_daily);
    repeat split; tidy.
Qed.

End DropDaily.

(* ================================================================== *)
(** ** rebuild_daily and reweight_daily *)

Lemma last_app_cons (X : Type) (l m : list X) (x d : X) :
  last (l ++ x :: m) d = last (x :: m) d.
Proof.
  induction l as [| y l IH]; [reflexivity |].
  simpl. destruct (l ++ x :: m) eqn:E; [| exact IH].
  destruct l; discriminate E.
Qed.

Section Rebuild.

Variable W : Type.
Variable lib : Library W.
Variable H : Helpers.
Variable s : State W.
Variables config_path db_binding cfgp : string.
Variable cfg : Config.
Variable md : ManagerDict.
Variables date from_date to_date : option string.
Variable more : list yn.

Local Abbreviation preamble :=
  [AnyCall (weecfg_read_config config_path);
   AnyCall (get_manager_dict_from_config cfg db_binding)].

Hypothesis Hclose : forall m w, lib (Manager_close m) w = (inr tt, w).
Hypothesis Hcfg :
  lib (weecfg_read_config config_path) (world s) = (inr (cfgp, cfg), world s).
Hypothesis Hmd :
  lib (get_manager_dict_from_config cfg db_binding) (world s)
  = (inr md, world s).

(** X12.  The dates cannot be parsed: the exception of [parse_dates]
    reaches the caller of [rebuild_daily] and of [reweight_daily] before
    the user is asked and before any database is opened. *)
Theorem bad_dates_stop_the_handler (dry_run : bool) (e : exn) :
  parse_dates H date from_date to_date false = inl e ->
  let r1 := run lib (rebuild_daily H config_path date from_date to_date
                       db_binding dry_run) s in
  let r2 := run lib (reweight_daily H config_path date from_date to_date
                       db_binding dry_run) s in
  (fst r1 = inl e /\ prompts (snd r1) = prompts s
   /\ world (snd r1) = world s /\ trace (snd r1) = trace s ++ preamble)
  /\ (fst r2 = inl e /\ prompts (snd r2) = prompts s
      /\ world (snd r2) = world s /\ trace (snd r2) = trace s ++ preamble).
Proof.
  intros Hdates r1 r2; subst r1 r2.
  destruct dry_run; (split;
    [ run_with ltac:(unfold rebuild_daily)
    | run_with ltac:(unfold reweight_daily) ]);
    repeat split; tidy.
Qed.

Variables from_d to_d : option Z.

Hypothesis Hdates :
  parse_dates H date from_date to_date false = inr (from_d, to_d).
Hypothesis Hyes : answers s = ans_y :: more.

(** X13.  A confirmed dry run of [rebuild_daily] announces the rebuild and
    returns: beyond the reading of the configuration it makes no call, it
    does not even open the database. *)
Theorem rebuild_daily_dry_run_opens_nothing :
  let r := run lib (rebuild_daily H config_path date from_date to_date
                      db_binding true) s in
  fst r = inr tt
  /\ world (snd r) = world s
  /\ trace (snd r) = trace s ++ preamble
  /\ last (output (snd r)) (stdout, "") = (stdout, dry_run_footer).
Proof.
  intros r; subst r.
  run_with ltac:(unfold rebuild_daily).
  repeat split; tidy.
  rewrite last_app_cons; reflexivity.
Qed.

(** X14.  A confirmed rebuild opens the database with [initialize=True]
    and calls [backfill_day_summary] once, with the bounds [parse_dates]
    gave and 20 days per transaction, then closes the database; the world
    is the one the backfill left. *)
Theorem rebuild_daily_backfills (m : Manager) (w1 w2 : W) (nrecs ndays : Z) :
  lib (open_manager_with_config cfg db_binding true) (world s)
  = (inr m, w1) ->
  lib (dbm_backfill_day_summary m from_d to_d 20) w1
  = (inr (nrecs, ndays), w2) ->
  let r := run lib (rebuild_daily H config_path date from_date to_date
                      db_binding false) s in
  fst r = inr tt
  /\ world (snd r) = w2
  /\ trace (snd r) =
       trace s ++ preamble
         ++ [AnyCall (open_manager_with_config cfg db_binding true);
             AnyCall (dbm_backfill_day_summary m from_d to_d 20);
             AnyCall (Manager_close m)]
  /\ (nrecs = 0 ->
      last (output (snd r)) (stdout, "")
      = (stdout, "Daily summaries up to date in '"
                   ^^ dd_database_name (md_database_dict md) ^^ "'.")).
Proof.
  intros Hopen Hfill r; subst r.
  (destruct (negb (nrecs =? 0)) eqn:E0;
     [ destruct (nrecs >=? 1000) eqn:E1; destruct (ndays =? 1) eqn:E2 | ]);
    run_with ltac:(unfold rebuild_daily);
    repeat split; tidy;
    try (intros ->; discriminate E0);
    intros _; rewrite last_app_cons; reflexivity.
Qed.

(** X15.  A confirmed [reweight_daily] opens the database without
    initializing it; a real run calls [recalculate_weights] once, with the
    bounds [parse_dates] gave, a dry run does not call it; both close the
    database and report the reweighting as finished. *)
Theorem reweight_daily_recalculates (dry_run : bool) (m : Manager) (w1 : W) :
  lib (open_manager_with_config cfg db_binding false) (world s)
  = (inr m, world s) ->
  lib (dbm_recalculate_weights m from_d to_d) (world s) = (inr tt, w1) ->
  let r := run lib (reweight_daily H config_path date from_date to_date
                      db_binding dry_run) s in
  fst r = inr tt
  /\ world (snd r) = (if dry_run then world s else w1)
  /\ trace (snd r) =
       trace s ++ preamble
         ++ [AnyCall (open_manager_with_config cfg db_binding false)]
         ++ (if dry_run then []
             else [AnyCall (dbm_recalculate_weights m from_d to_d)])
         ++ [AnyCall (Manager_close m)]
  /\ In (stdout,
         "Finished reweighting in "
           ^^ fmt_f H 1 (clock s (S (reads s)) - clock s (reads s))
           ^^ " seconds.") (output (snd r)).
Proof.
  intros Hopen Hcalc r; subst r.
  destruct dry_run;
    run_with ltac:(unfold reweight_daily);
    repeat split; tidy;
    apply in_or_app; right; cbn; auto 10.
Qed.

End Rebuild.

(* ================================================================== *)
(** ** add_column, rename_column and drop_columns *)

Section Columns.

Variable W : Type.
Variable lib : Library W.
Variable H : Helpers.
Variable s : State W.
Variables config_path db_binding cfgp : string.
Variable cfg : Config.
Variable md : ManagerDict.
Variable m : Manager.
Variable more : list yn.

Local Abbreviation banner dry_run :=
  (if dry_run : bool then [(stdout, dry_run_banner)] else []).
Local Abbreviation footer dry_run :=
  (if dry_run : bool then [(stdout, dry_run_footer)] else []).
Local Abbreviation preamble :=
  [AnyCall (weecfg_read_config config_path);
   AnyCall (get_manager_dict_from_config cfg db_binding)].
Local Abbreviation opened :=
  (AnyCall (open_manager_with_config cfg db_binding false)).

Hypothesis Hclose : forall m w, lib (Manager_close m) w = (inr tt, w).
Hypothesis Hcfg :
  lib (weecfg_read_config config_path) (world s) = (inr (cfgp, cfg), world s).
Hypothesis Hmd :
  lib (get_manager_dict_from_config cfg db_binding) (world s)
  = (inr md, world s).
Hypothesis Hyes : answers s = ans_y :: more.
Hypothesis Hopen :
  lib (open_manager_with_config cfg db_binding false) (world s)
  = (inr m, world s).

(** X16.  Without a column type, [None] or the empty string, the column
    is added as REAL: that is the type in the question, in the call of the
    manager and in the report. *)
Theorem add_column_default_type (column_name : string)
    (column_type : option string) (w1 : W) :
  column_type = None \/ column_type = Some "" ->
  lib (dbm_add_column m column_name "REAL") (world s) = (inr tt, w1) ->
  let r := run lib (add_column H config_path column_name column_type
                      db_binding false) s in
  fst r = inr tt
  /\ world (snd r) = w1
  /\ prompts (snd r) =
       prompts s
         ++ ["Add new column '" ^^ column_name ^^ "' of type 'REAL' "
               ^^ "to database '" ^^ dd_database_name (md_database_dict md)
               ^^ "'? (y/n) "]
  /\ output (snd r) =
       output s
         ++ [(stdout, will_be_used H cfgp);
             (stdout, "New column " ^^ column_name
                        ^^ " of type REAL added to database.")]
  /\ trace (snd r) =
       trace s ++ preamble
         ++ [opened; AnyCall (dbm_add_column m column_name "REAL");
             AnyCall (Manager_close m)].
Proof.
  intros [-> | ->] Hadd r; subst r;
    run_with ltac:(unfold add_column); repeat split; tidy.
Qed.

(** X17.  A confirmed dry run of [add_column] opens and closes the
    database without calling the manager's [add_column]; it still prints
    that the column has been added, and then that nothing was done. *)
Theorem add_column_dry_run_reports (column_name column_type : string) :
  String.eqb column_type "" = false ->
  let r := run lib (add_column H config_path column_name (Some column_type)
                      db_binding true) s in
  fst r = inr tt
  /\ world (snd r) = world s
  /\ output (snd r) =
       output s
         ++ [(stdout, dry_run_banner);
             (stdout, will_be_used H cfgp);
             (stdout, "New column " ^^ column_name ^^ " of type "
                        ^^ column_type ^^ " added to database.");
             (stdout, dry_run_footer)]
  /\ trace (snd r) =
       trace s ++ preamble ++ [opened; AnyCall (Manager_close m)].
Proof.
  intros Hty r; subst r.
  run_with ltac:(unfold add_column; rewrite Hty); repeat split; tidy.
Qed.

(** X18.  What the manager raises in [add_column] or [rename_column]
    reaches the caller: neither handler catches anything.  The database is
    closed on the way out and the report of success is not printed. *)
Theorem column_errors_propagate
    (column_name column_type old_name new_name : string) (e1 e2 : exn)
    (w1 w2 : W) :
  String.eqb column_type "" = false ->
  lib (dbm_add_column m column_name column_type) (world s) = (inl e1, w1) ->
  lib (dbm_rename_column m old_name new_name) (world s) = (inl e2, w2) ->
  let r1 := run lib (add_column H config_path column_name (Some column_type)
                       db_binding false) s in
  let r2 := run lib (rename_column H config_path old_name new_name
                       db_binding false) s in
  (fst r1 = inl e1
   /\ output (snd r1) = output s ++ [(stdout, will_be_used H cfgp)]
   /\ trace (snd r1) =
        trace s ++ preamble
          ++ [opened; AnyCall (dbm_add_column m column_name column_type);
              AnyCall (Manager_close m)])
  /\ (fst r2 = inl e2
      /\ output (snd r2) = output s ++ [(stdout, will_be_used H cfgp)]
      /\ trace (snd r2) =
           trace s ++ preamble
             ++ [opened; AnyCall (dbm_rename_column m old_name new_name);
                 AnyCall (Manager_close m)]).
Proof.
  intros Hty Hadd Hren r1 r2; subst r1 r2. split.
  - run_with ltac:(unfold add_column; rewrite Hty); repeat split; tidy.
  - run_with ltac:(unfold rename_column); repeat split; tidy.
Qed.

(** X19.  A confirmed [rename_column]: a real run calls the manager's
    [rename_column] with the two names, a dry run does not; both report
    the renaming. *)
Theorem rename_column_renames (dry_run : bool)
    (column_name new_name : string) (w1 : W) :
  lib (dbm_rename_column m column_name new_name) (world s) = (inr tt, w1) ->
  let r := run lib (rename_column H config_path column_name new_name
                      db_binding dry_run) s in
  fst r = inr tt
  /\ world (snd r) = (if dry_run then world s else w1)
  /\ output (snd r) =
       output s ++ banner dry_run
         ++ [(stdout, will_be_used H cfgp);
             (stdout, "Column '" ^^ column_name ^^ "' renamed to '"
                        ^^ new_name ^^ "'.")]
         ++ footer dry_run
  /\ trace (snd r) =
       trace s ++ preamble ++ [opened]
         ++ (if dry_run then []
             else [AnyCall (dbm_rename_column m column_name new_name)])
         ++ [AnyCall (Manager_close m)].
Proof.
  intros Hren r; subst r.
  destruct dry_run; run_with ltac:(unfold rename_column);
    repeat split; tidy.
Qed.

(** X20.  A confirmed [drop_columns] hands the manager the set of the
    requested names, each name once, and reports the columns as the user
    gave them. *)
Theorem drop_columns_drops (column_names : list string) (w1 : W) :
  lib (dbm_drop_columns m (py_set column_names)) (world s) = (inr tt, w1) ->
  let r := run lib (drop_columns H config_path column_names db_binding
                      false) s in
  fst r = inr tt
  /\ world (snd r) = w1
  /\ NoDup (py_set column_names)
  /\ (forall c, In c (py_set column_names) <-> In c column_names)
  /\ output (snd r) =
       output s
         ++ [(stdout, will_be_used H cfgp);
             (stdout, "This may take a while...");
             (stdout, "Column(s) '" ^^ join ", " column_names
                        ^^ "' dropped from the database.")]
  /\ trace (snd r) =
       trace s ++ preamble
         ++ [opened; AnyCall (dbm_drop_columns m (py_set column_names));
             AnyCall (Manager_close m)].
Proof.
  intros Hdrop r; subst r.
  run_with ltac:(unfold drop_columns).
  repeat split; tidy.
  - apply NoDup_nodup.
  - unfold py_set. apply nodup_In.
  - unfold py_set. apply nodup_In.
Qed.

(** X21.  An exception of the manager's [drop_columns] that is not a
    NoColumnError reaches the caller, after the database is closed. *)
Theorem drop_columns_other_error (column_names : list string) (e : exn)
    (w1 : W) :
  is_a e [NoColumnError] = false ->
  lib (dbm_drop_columns m (py_set column_names)) (world s) = (inl e, w1) ->
  let r := run lib (drop_columns H config_path column_names db_binding
                      false) s in
  fst r = inl e
  /\ world (snd r) = w1
  /\ output (snd r) =
       output s
         ++ [(stdout, will_be_used H cfgp);
             (stdout, "This may take a while...")]
  /\ trace (snd r) =
       trace s ++ preamble
         ++ [opened; AnyCall (dbm_drop_columns m (py_set column_names));
             AnyCall (Manager_close m)].
Proof.
  intros He Hdrop r; subst r.
  run_with ltac:(unfold drop_columns); repeat split; tidy.
Qed.

End Columns.

Section DropColumnsDryRun.

Variable W : Type.
Variable lib : Library W.
Variable H : Helpers.
Variable s : State W.
Variables config_path db_binding cfgp : string.
Variable cfg : Config.
Variable md : ManagerDict.
Variable more : list yn.

Hypothesis Hcfg :
  lib (weecfg_read_config config_path) (world s) = (inr (cfgp, cfg), world s).
Hypothesis Hmd :
  lib (get_manager_dict_from_config cfg db_binding) (world s)
  = (inr md, world s).
Hypothesis Hyes : answers s = ans_y :: more.

(** X22.  A confirmed dry run of [drop_columns] does not open the
    database: no column is looked up, so a name that is not a column is
    not reported, whatever the names are. *)
Theorem drop_columns_dry_run_checks_nothing (column_names : list string) :
  let r := run lib (drop_columns H config_path column_names db_binding
                      true) s in
  fst r = inr tt
  /\ world (snd r) = world s
  /\ output (snd r) =
       output s
         ++ [(stdout, dry_run_banner);
             (stdout, will_be_used H cfgp);
             (stdout, "This may take a while...");
             (stdout, dry_run_footer)]
  /\ trace (snd r) =
       trace s
         ++ [AnyCall (weecfg_read_config config_path);
             AnyCall (get_manager_dict_from_config cfg db_binding)].
Proof.
  intros r; subst r.
  run_with ltac:(unfold drop_columns); repeat split; tidy.
Qed.

End DropColumnsDryRun.

(* ================================================================== *)
(** ** reconfigure_database on a fresh target *)

Section ReconfigureFresh.

Variable W : Type.
Variable lib : Library W.
Variable H : Helpers.
Variable s : State W.
Variables config_path db_binding cfgp : string.
Variable cfg : Config.
Variable md : ManagerDict.
Variable dry_run : bool.
Variable w1 : W.
Variable old_m : Manager.

Local Abbreviation old_dict := (md_database_dict md).
Local Abbreviation new_dict :=
  (mkDatabaseDict (dd_database_name (md_database_dict md) ^^ "_new")
     (dd_driver (md_database_dict md))).
Local Abbreviation banner :=
  (if dry_run then [(stdout, dry_run_banner)] else []).
Local Abbreviation footer :=
  (if dry_run then [(stdout, dry_run_footer)] else []).
Local Abbreviation created := (if dry_run then world s else w1).
Local Abbreviation preamble :=
  ([AnyCall (weecfg_read_config config_path);
    AnyCall (get_manager_dict_from_config cfg db_binding);
    AnyCall (get_manager_dict_from_config cfg db_binding)]
     ++ (if dry_run then [] else [AnyCall (weedb_create new_dict)])
     ++ [AnyCall (Manager_open old_dict None);
         AnyCall (Manager_close old_m)]).
Local Abbreviation copying :=
  ("Copying database '" ^^ dd_database_name old_dict ^^ "' to '"
     ^^ dd_database_name new_dict ^^ "'").

Hypothesis Hclose : forall m w, lib (Manager_close m) w = (inr tt, w).
Hypothesis Hcfg :
  lib (weecfg_read_config config_path) (world s) = (inr (cfgp, cfg), world s).
Hypothesis Hmd :
  lib (get_manager_dict_from_config cfg db_binding) (world s)
  = (inr md, world s).
Hypothesis Hcreate : lib (weedb_create new_dict) (world s) = (inr tt, w1).
Hypothesis Hopen :
  lib (Manager_open old_dict None) created = (inr old_m, created).

(** X23.  The old database has no unit system yet: the handler says that
    nothing is to be done and returns without asking anything.  In a real
    run the new database has been created by then; in a dry run the
    closing line of a dry run is not printed. *)
Theorem reconfigure_database_uninitialized :
  m_std_unit_system old_m = None ->
  let r := run lib (reconfigure_database H config_path db_binding dry_run) s in
  fst r = inr tt
  /\ world (snd r) = created
  /\ prompts (snd r) = prompts s
  /\ answers (snd r) = answers s
  /\ output (snd r) =
       output s ++ banner
         ++ [(stdout, will_be_used H cfgp);
             (stdout,
              "Old database has not been initialized. Nothing to be done.")]
  /\ trace (snd r) = trace s ++ preamble.
Proof.
  intros Hunit r; subst r.
  destruct dry_run; cbn in Hopen;
    run_with ltac:(unfold reconfigure_database); repeat split; tidy.
Qed.

(** X24.  A target unit system that [unit_constants] does not know: the
    lookup raises KeyError with the upper-cased name, before the handler
    announces the copy or asks for confirmation.  In a real run the new
    database has been created by then. *)
Theorem reconfigure_database_unknown_unit (u : Z) (name : string) :
  m_std_unit_system old_m = Some u ->
  cfg_target_unit cfg = Some name ->
  unit_constants H (upper name) = None ->
  let r := run lib (reconfigure_database H config_path db_binding dry_run) s in
  fst r = inl (Exn KeyError (upper name))
  /\ world (snd r) = created
  /\ prompts (snd r) = prompts s
  /\ output (snd r) = output s ++ banner ++ [(stdout, will_be_used H cfgp)]
  /\ trace (snd r) = trace s ++ preamble.
Proof.
  intros Hunit Hname Hconst r; subst r.
  destruct dry_run; cbn in Hopen;
    run_with ltac:(unfold reconfigure_database); repeat split; tidy.
Qed.

(** X25.  The confirmed copy to a fresh target.  [reconfig] gets the old
    and the new database dictionary, the target unit system of the
    configuration ([None] without one), the schema of the binding and the
    dry-run flag; a dry run makes this call too, and leaves out only
    [weedb.create].  The units are announced as converted exactly when a
    target is configured and differs from the unit system of the old
    database. *)
Theorem reconfigure_database_copies (more : list yn) (u : Z)
    (target : option Z) (nick : Z -> string) (w2 : W) :
  answers s = ans_y :: more ->
  m_std_unit_system old_m = Some u ->
  match cfg_target_unit cfg with
  | None => target = None
  | Some name => target <> None /\ unit_constants H (upper name) = target
  end ->
  unit_nicknames H u = Some (nick u) ->
  (forall t, target = Some t -> unit_nicknames H t = Some (nick t)) ->
  lib (manager_reconfig old_dict new_dict target (md_schema md) dry_run)
      created
  = (inr tt, w2) ->
  let r := run lib (reconfigure_database H config_path db_binding dry_run) s in
  fst r = inr tt
  /\ world (snd r) = w2
  /\ answers (snd r) = more
  /\ output (snd r) =
       output s ++ banner
         ++ [(stdout, will_be_used H cfgp);
             (stdout, copying);
             (stdout,
              match target with
              | Some t =>
                  if u =? t then
                    "The new database will use the same unit system as "
                      ^^ "the old ('" ^^ nick u ^^ "')."
                  else
                    "Units will be converted from the '" ^^ nick u
                      ^^ "' system to the '" ^^ nick t ^^ "' system."
              | None =>
                  "The new database will use the same unit system as "
                    ^^ "the old ('" ^^ nick u ^^ "')."
              end);
             (stdout, "Database '" ^^ dd_database_name old_dict
                        ^^ "' copied to '" ^^ dd_database_name new_dict
                        ^^ "' in "
                        ^^ fmt_f H 2 (clock s (S (reads s))
                                      - clock s (reads s))
                        ^^ " seconds.")]
         ++ footer
  /\ trace (snd r) =
       trace s ++ preamble
         ++ [AnyCall (manager_reconfig old_dict new_dict target
                        (md_schema md) dry_run)].
Proof.
  intros Hyes Hunit Htarget Hold Hnew Hcopy r; subst r.
  destruct (cfg_target_unit cfg) as [name |] eqn:Ename.
  - destruct Htarget as [Hsome Hconst].
    destruct target as [t |]; [| congruence].
    pose proof (Hnew t eq_refl) as Ht.
    destruct (u =? t) eqn:Eut; destruct dry_run; cbn in Hopen, Hcopy;
      run_with ltac:(unfold reconfigure_database); repeat split; tidy.
  - subst target.
    destruct dry_run; cbn in Hopen, Hcopy;
      run_with ltac:(unfold reconfigure_database); repeat split; tidy.
Qed.

End ReconfigureFresh.

(* ================================================================== *)
(** ** calc_missing on an archive with records *)

Section CalcMissingRuns.

Variable W : Type.
Variable lib : Library W.
Variable H : Helpers.
Variable s : State W.
Variables config_path db_binding cfgp : string.
Variable cfg : Config.
Variable md : ManagerDict.
Variable m : Manager.
Variables date from_date to_date : option string.
Variables first_ts last_ts start_dt stop_dt : option Z.
Variable start_ts : Z.
Variable dry_run : bool.
Variable more : list yn.

Local Abbreviation stop_ts :=
  (match stop_dt with Some dt => Some (mktime H dt) | None => last_ts end).
Local Abbreviation cm_config :=
  (mkCalcMissingConfig "Calculate Missing Derived Observations" db_binding
     start_ts stop_ts 20 dry_run).
Local Abbreviation preamble :=
  [AnyCall (weecfg_read_config config_path);
   AnyCall (get_manager_dict_from_config cfg db_binding);
   AnyCall (get_manager_dict_from_config cfg db_binding);
   AnyCall (Manager_open (md_database_dict md) (Some (md_table_name md)));
   AnyCall (dbm_firstGoodStamp m);
   AnyCall (dbm_lastGoodStamp m);
   AnyCall (Manager_close m);
   AnyCall (CalcMissing_init cfg cm_config)].
Local Abbreviation plan :=
  ("Missing derived observations will be calculated "
     ^^ match start_dt, stop_dt with
        | None, None => "for all records."
        | Some _, None =>
            "from " ^^ timestamp_to_string H (Some start_ts)
              ^^ " through to the end (" ^^ timestamp_to_string H stop_ts
              ^^ ")."
        | None, Some _ =>
            "from the beginning (" ^^ timestamp_to_string H (Some start_ts)
              ^^ ") through to " ^^ timestamp_to_string H stop_ts ^^ "."
        | Some _, Some _ =>
            "from " ^^ timestamp_to_string H (Some start_ts)
              ^^ " through to " ^^ timestamp_to_string H stop_ts
              ^^ " inclusive."
        end).
Local Abbreviation planned :=
  ((if dry_run then [(stdout, dry_run_banner)] else [])
     ++ [(stdout, will_be_used H cfgp)]
     ++ (if dry_run
         then [(stdout, "This is a dry run, missing derived observations "
                          ^^ "will be calculated but not saved")]
         else [])
     ++ [(stdout, plan)]).
Local Abbreviation announced :=
  (planned ++ [(stdout, "Calculating missing derived observations...")]).

Hypothesis Hclose : forall m w, lib (Manager_close m) w = (inr tt, w).
Hypothesis Hcfg :
  lib (weecfg_read_config config_path) (world s) = (inr (cfgp, cfg), world s).
Hypothesis Hmd :
  lib (get_manager_dict_from_config cfg db_binding) (world s)
  = (inr md, world s).
Hypothesis Hopen :
  lib (Manager_open (md_database_dict md) (Some (md_table_name md)))
      (world s)
  = (inr m, world s).
Hypothesis Hfirst :
  lib (dbm_firstGoodStamp m) (world s) = (inr first_ts, world s).
Hypothesis Hlast :
  lib (dbm_lastGoodStamp m) (world s) = (inr last_ts, world s).
Hypothesis Hdates :
  parse_dates H date from_date to_date true = inr (start_dt, stop_dt).
Hypothesis Hstart :
  match start_dt with
  | Some dt => start_ts = mktime H dt
  | None => exists f, first_ts = Some f /\ start_ts = f - 1
  end.
Hypothesis Hyes : answers s = ans_y :: more.

(** X26.  The confirmed calculation.  [CalcMissing] is made and run for
    the period from the start date, or else one second before the first
    good timestamp, to the stop date, or else the last good timestamp,
    twenty days to a transaction, with the dry-run flag of the handler: a
    dry run makes the two calls too.  With a start date the first good
    timestamp is not needed, and an archive without one does not stop the
    handler.  The closing line of a dry run is never printed. *)
Theorem calc_missing_runs (w0 w1 : W) :
  lib (CalcMissing_init cfg cm_config) (world s) = (inr tt, w0) ->
  lib (CalcMissing_run cfg cm_config) w0 = (inr tt, w1) ->
  let r := run lib (calc_missing H config_path date from_date to_date
                      db_binding dry_run) s in
  fst r = inr tt
  /\ world (snd r) = w1
  /\ answers (snd r) = more
  /\ output (snd r) =
       output s ++ announced
         ++ [(stdout, "Missing derived observations calculated in "
                        ^^ fmt_f H 2 (clock s (S (reads s))
                                      - clock s (reads s))
                        ^^ " seconds")]
  /\ trace (snd r) =
       trace s ++ preamble ++ [AnyCall (CalcMissing_run cfg cm_config)].
Proof.
  intros Hinit Hrun r; subst r.
  destruct start_dt as [dt |];
    [subst start_ts | destruct Hstart as (f & -> & ->)];
    destruct stop_dt as [dt' |]; destruct dry_run;
    run_with ltac:(unfold calc_missing); repeat split; tidy.
Qed.

(** X27.  [CalcMissing] raises.  What its constructor raises reaches the
    caller as it is, an UnknownBinding too: the constructor is called
    outside the [try], before "Calculating missing derived observations..."
    is printed.  What [run] raises is caught when it is an UnknownBinding:
    it is reported on the standard output and logged as an error, with the
    hint at [StdWXCalculate], and the handler exits with SystemExit
    "Nothing done. Aborting."; any other exception of [run] reaches the
    caller as it is. *)
Theorem calc_missing_raises (e : exn) (w0 w1 : W) :
  disabled s < ERROR ->
  (lib (CalcMissing_init cfg cm_config) (world s) = (inl e, w0) ->
   let r := run lib (calc_missing H config_path date from_date to_date
                       db_binding dry_run) s in
   fst r = inl e
   /\ world (snd r) = w0
   /\ output (snd r) = output s ++ planned
   /\ trace (snd r) = trace s ++ preamble)
  /\ (lib (CalcMissing_init cfg cm_config) (world s) = (inr tt, w0) ->
      lib (CalcMissing_run cfg cm_config) w0 = (inl e, w1) ->
      let r := run lib (calc_missing H config_path date from_date to_date
                          db_binding dry_run) s in
      world (snd r) = w1
      /\ trace (snd r) =
           trace s ++ preamble ++ [AnyCall (CalcMissing_run cfg cm_config)]
      /\ (is_a e [UnknownBinding] = true ->
          fst r = inl (Exn SystemExit "Nothing done. Aborting.")
          /\ output (snd r) =
               output s ++ announced
                 ++ [(stdout, "Error: '" ^^ exn_msg e ^^ "'");
                     (stdout, "Perhaps StdWXCalculate is using a different "
                                ^^ "binding. Check configuration file "
                                ^^ "[StdWXCalculate] stanza")]
          /\ last (logged (snd r)) (NOTSET, "")
             = (ERROR, "Error: '" ^^ exn_msg e ^^ "'"))
      /\ (is_a e [UnknownBinding] = false ->
          fst r = inl e /\ output (snd r) = output s ++ announced)).
Proof.
  intros Hlevel.
  assert (Hlog : (ERROR <=? disabled s) = false)
    by (apply Z.leb_gt; exact Hlevel).
  split.
  - intros Hinit r; subst r.
    destruct start_dt as [dt |];
      [subst start_ts | destruct Hstart as (f & -> & ->)];
      destruct stop_dt as [dt' |]; destruct dry_run;
      run_with ltac:(unfold calc_missing); repeat split; tidy.
  - intros Hinit Hrun r; subst r.
    destruct (is_a e [UnknownBinding]) eqn:He;
      (destruct start_dt as [dt |];
       [subst start_ts | destruct Hstart as (f & -> & ->)];
       destruct stop_dt as [dt' |]; destruct dry_run;
       run_with ltac:(unfold calc_missing);
       repeat split; try discriminate; intros; tidy;
       try (rewrite Hlog; rewrite !app_assoc; apply last_last)).
Qed.

End CalcMissingRuns.

(* ================================================================== *)
(** ** check *)

Section CheckReads.

Variable W : Type.
Variable lib : Library W.
Variable H : Helpers.
Variable s : State W.
Variables config_path db_binding cfgp : string.
Variable cfg : Config.
Variable md : ManagerDict.
Variable m : Manager.
Variable version : option string.

Hypothesis Hclose : forall m w, lib (Manager_close m) w = (inr tt, w).
Hypothesis Hcfg :
  lib (weecfg_read_config config_path) (world s) = (inr (cfgp, cfg), world s).
Hypothesis Hmd :
  lib (get_manager_dict_from_config cfg db_binding) (world s)
  = (inr md, world s).
Hypothesis Hopen :
  lib (open_manager_with_config cfg db_binding false) (world s)
  = (inr m, world s).
Hypothesis Hversion :
  lib (dbm_read_metadata m "Version") (world s) = (inr version, world s).

(** X28.  [check] asks nothing, and of the database it asks three things
    only: it opens it without initialising it, reads the version and
    closes.  With logging
    enabled the version found is always logged; of the two verdicts only
    "not required" is logged, the recommendation to update is printed
    only. *)
Theorem check_only_reads :
  disabled s < INFO ->
  let r := run lib (check H config_path db_binding) s in
  fst r = inr tt
  /\ prompts (snd r) = prompts s
  /\ answers (snd r) = answers s
  /\ trace (snd r) =
       trace s
         ++ [AnyCall (weecfg_read_config config_path);
             AnyCall (get_manager_dict_from_config cfg db_binding);
             AnyCall (open_manager_with_config cfg db_binding false);
             AnyCall (dbm_read_metadata m "Version");
             AnyCall (Manager_close m)]
  /\ logged (snd r) =
       logged s
         ++ [(INFO, "Daily summary tables are at version "
                      ^^ str_opt version ^^ ".")]
         ++ (if match version with
                | Some v => str_ge v "2.0"
                | None => false
                end
             then [(INFO, fix_not_required)] else []).
Proof.
  intros Hlevel r; subst r.
  assert (Hlog : (INFO <=? disabled s) = false) by (apply Z.leb_gt; exact Hlevel).
  destruct version as [v |].
  - destruct (str_ge v "2.0") eqn:Ev;
      run_with ltac:(unfold check); repeat split; tidy;
      state_fields; rewrite Hlog; tidy.
  - run_with ltac:(unfold check); repeat split; tidy;
      state_fields; rewrite Hlog; tidy.
Qed.

End CheckReads.

(* ================================================================== *)
(** ** What no dry run and no declined run does *)

Section NothingDone.

Variable W : Type.
Variable lib : Library W.
Variable H : Helpers.
Variables config_path db_binding column_name new_name : string.
Variables date from_date to_date column_type dest_binding : option string.
Variable column_names : list string.

(** X29.  A dry run of any handler but [transfer_database] makes none of
    the calls a dry run holds back, whatever the user answers and whatever
    the library returns or raises: no method that changes the schema or
    the data, no [weedb.create] or [weedb.drop], no open with
    [initialize=True], and [reconfig] and [CalcMissing] only with the
    dry-run flag.  What the calls it does make write is the library's
    business. *)
Theorem dry_runs_hold_back (p : prog unit) (s : State W) :
  In p [create_database H config_path db_binding true;
        drop_daily H config_path db_binding true;
        rebuild_daily H config_path date from_date to_date db_binding true;
        add_column H config_path column_name column_type db_binding true;
        rename_column H config_path column_name new_name db_binding true;
        drop_columns H config_path column_names db_binding true;
        reconfigure_database H config_path db_binding true;
        calc_missing H config_path date from_date to_date db_binding true;
        reweight_daily H config_path date from_date to_date db_binding
          true] ->
  exists calls,
    trace (snd (run lib p s)) = trace s ++ calls
    /\ none_held_back calls
    /\ forall (X : Type) (c : libcall X),
         In (AnyCall c) calls -> held_back c = false.
Proof.
  intros Hp.
  assert (Hhb : holds_back p).
  { cbn [In] in Hp.
    repeat (destruct Hp as [<- | Hp];
            [auto using create_database_dry_run, drop_daily_dry_run,
               rebuild_daily_dry_run, add_column_dry_run,
               rename_column_dry_run, drop_columns_dry_run,
               reconfigure_database_dry_run, calc_missing_dry_run,
               reweight_daily_dry_run |]).
    destruct Hp. }
  destruct (holds_back_run lib Hhb s) as (calls & Ht & Hn).
  exists calls. split; [exact Ht |]. split; [exact Hn |].
  intros X c Hin. unfold none_held_back in Hn.
  rewrite forallb_forall in Hn. specialize (Hn _ Hin).
  simpl in Hn. destruct (held_back c); [discriminate | reflexivity].
Qed.

(** X30.  With a user who answers 'n' to every question, or has left
    the terminal, no handler that asks first makes a call that can write,
    in a real run or a dry run; once an answer has been taken,
    "Nothing done." is on the standard output; under a library whose
    reading calls leave the world alone, the world is unchanged. *)
Theorem declined_runs_write_nothing (dry_run : bool) (p : prog unit)
    (s : State W) :
  In p [drop_daily H config_path db_binding dry_run;
        rebuild_daily H config_path date from_date to_date db_binding
          dry_run;
        add_column H config_path column_name column_type db_binding dry_run;
        rename_column H config_path column_name new_name db_binding dry_run;
        drop_columns H config_path column_names db_binding dry_run;
        transfer_database H config_path dest_binding db_binding dry_run;
        calc_missing H config_path date from_date to_date db_binding dry_run;
        reweight_daily H config_path date from_date to_date db_binding
          dry_run] ->
  Forall (eq ans_n) (answers s) ->
  (exists calls,
     trace (snd (run lib p s)) = trace s ++ calls /\ no_write calls)
  /\ (answers (snd (run lib p s)) <> answers s ->
      In (stdout, "Nothing done.") (output (snd (run lib p s))))
  /\ (read_only_calls lib -> world (snd (run lib p s)) = world s).
Proof.
  intros Hp Hans.
  assert (Hd : declines false p).
  { cbn [In] in Hp.
    repeat (destruct Hp as [<- | Hp];
            [auto using drop_daily_declines, rebuild_daily_declines,
               add_column_declines, rename_column_declines,
               drop_columns_declines, transfer_database_declines,
               calc_missing_declines, reweight_daily_declines |]).
    destruct Hp. }
  destruct (declines_run lib Hd s Hans)
    as (calls & lines & Ht & Ho & Hn & Hnd & Hw).
  split; [exists calls; split; assumption |].
  split; [| exact Hw].
  intros Hne. rewrite Ho. apply in_or_app. right. apply Hnd. right. exact Hne.
Qed.

End NothingDone.

(* ================================================================== *)
(** ** The further theorems, at the station *)

Section MoreAtTheStation.

Import RefLib Example.

(** The station without its database, with a database that has no daily
    summaries, and with a target unit system nobody knows. *)
Local Abbreviation no_database_yet := (mkWorld [("weewx.conf", config)] []).
Local Abbreviation no_summaries :=
  (mkWorld [("weewx.conf", config)]
           [("weewx", initialized_db schema false)]).
Local Abbreviation odd_units :=
  (mkWorld [("weewx.conf",
             mkConfig (Some "klingon") [("wx_binding", wx_dict)])]
           [("weewx", weewx_db (Some "4.0"))]).
Local Abbreviation locked := (Exn OperationalError "database is locked").

Ltac at_the_station :=
  try reflexivity;
  try (left; reflexivity);
  try (eexists; split; reflexivity);
  try (intros ? ?; discriminate).

Lemma transfer_database_unresolved_destination_witness :
  fst (run lib (transfer_database helpers "weewx.conf" (Some "no_binding")
                  "wx_binding" false) (start (station (Some "4.0")) []))
  = inr tt.
Proof.
  eapply proj1.
  eapply (@transfer_database_unresolved_destination World lib helpers).
  all: at_the_station. all: at_the_station.
Defined.

Lemma transfer_database_declined_witness :
  fst (run lib (transfer_database helpers "weewx.conf" (Some "dest_binding")
                  "wx_binding" false) (start (station (Some "4.0")) [ans_n]))
  = inr tt.
Proof.
  eapply proj1.
  eapply (@transfer_database_declined World lib helpers).
  all: at_the_station. all: at_the_station.
Defined.

Lemma transfer_database_transfers_witness :
  fst (run lib (transfer_database helpers "weewx.conf" (Some "dest_binding")
                  "wx_binding" false) (start (station (Some "4.0")) [ans_y]))
  = inr tt.
Proof.
  eapply proj1.
  eapply (@transfer_database_transfers World lib helpers).
  all: at_the_station. all: at_the_station.
Defined.

Lemma transfer_database_confirmed_dry_run_witness :
  fst (run lib (transfer_database helpers "weewx.conf" (Some "dest_binding")
                  "wx_binding" true) (start (station (Some "4.0")) [ans_y]))
  = inr tt.
Proof.
  eapply proj1.
  eapply (@transfer_database_confirmed_dry_run World lib helpers).
  all: at_the_station. all: at_the_station.
Defined.

Lemma create_database_exists_witness :
  fst (run lib (create_database helpers "weewx.conf" "wx_binding" false)
         (start (station (Some "4.0")) []))
  = inr tt.
Proof.
  eapply proj1.
  eapply (@create_database_exists World lib helpers).
  all: at_the_station. all: at_the_station.
Defined.

Lemma create_database_missing_witness :
  fst (run lib (create_database helpers "weewx.conf" "wx_binding" false)
         (start no_database_yet []))
  = inr tt.
Proof.
  eapply proj1.
  eapply (@create_database_missing World lib helpers).
  all: at_the_station. all: at_the_station.
Defined.

Lemma create_database_open_error_witness :
  fst (run lib (create_database helpers "weewx.conf" "no_binding" false)
         (start (station (Some "4.0")) []))
  = inl (Exn UnknownBinding "no_binding").
Proof.
  eapply proj1.
  eapply (@create_database_open_error World lib helpers).
  all: at_the_station. all: at_the_station.
Defined.

Lemma drop_daily_no_summaries_witness :
  fst (run lib (drop_daily helpers "weewx.conf" "wx_binding" false)
         (start no_database_yet [ans_y]))
  = inr tt.
Proof.
  eapply proj1.
  eapply (@drop_daily_no_summaries World lib helpers).
  all: at_the_station. all: at_the_station.
Defined.

Lemma drop_daily_fails_witness :
  fst (run lib (drop_daily helpers "weewx.conf" "wx_binding" false)
         (start no_summaries [ans_y]))
  = inr tt.
Proof.
  eapply proj1.
  eapply (@drop_daily_fails World lib helpers).
  all: at_the_station. all: at_the_station.
Defined.

Lemma drop_daily_drops_witness :
  fst (run lib (drop_daily helpers "weewx.conf" "wx_binding" false)
         (start (station (Some "4.0")) [ans_y]))
  = inr tt.
Proof.
  eapply proj1.
  eapply (@drop_daily_drops World lib helpers).
  all: at_the_station. all: at_the_station.
Defined.

Lemma bad_dates_stop_the_handler_witness :
  fst (run lib (rebuild_daily helpers "weewx.conf" (Some "yesterday") None
                  None "wx_binding" false)
         (start (station (Some "4.0")) [ans_y]))
  = inl (Exn ValueError "unknown date format").
Proof.
  eapply proj1. eapply proj1.
  eapply (@bad_dates_stop_the_handler World lib helpers).
  all: at_the_station. all: at_the_station.
Defined.

Lemma rebuild_daily_dry_run_opens_nothing_witness :
  fst (run lib (rebuild_daily helpers "weewx.conf" None None None
                  "wx_binding" true)
         (start (station (Some "4.0")) [ans_y]))
  = inr tt.
Proof.
  eapply proj1.
  eapply (@rebuild_daily_dry_run_opens_nothing World lib helpers).
  all: at_the_station. all: at_the_station.
Defined.

Lemma rebuild_daily_backfills_witness :
  fst (run lib (rebuild_daily helpers "weewx.conf" None None None
                  "wx_binding" false)
         (start (station (Some "4.0")) [ans_y]))
  = inr tt.
Proof.
  eapply proj1.
  eapply (@rebuild_daily_backfills World lib helpers).
  all: at_the_station. all: at_the_station.
Defined.

Lemma reweight_daily_recalculates_witness :
  fst (run lib (reweight_daily helpers "weewx.conf" None None None
                  "wx_binding" false)
         (start (station (Some "4.0")) [ans_y]))
  = inr tt.
Proof.
  eapply proj1.
  eapply (@reweight_daily_recalculates World lib helpers).
  all: at_the_station. all: at_the_station.
Defined.

Lemma add_column_default_type_witness :
  fst (run lib (add_column helpers "weewx.conf" "b" None "wx_binding" false)
         (start (station (Some "4.0")) [ans_y]))
  = inr tt.
Proof.
  eapply proj1.
  eapply (@add_column_default_type World lib helpers).
  all: at_the_station. all: at_the_station.
Defined.

Lemma add_column_dry_run_reports_witness :
  fst (run lib (add_column helpers "weewx.conf" "b" (Some "INTEGER")
                  "wx_binding" true)
         (start (station (Some "4.0")) [ans_y]))
  = inr tt.
Proof.
  eapply proj1.
  eapply (@add_column_dry_run_reports World lib helpers).
  all: at_the_station. all: at_the_station.
Defined.

Lemma column_errors_propagate_witness :
  fst (run lib (add_column helpers "weewx.conf" "a" (Some "REAL")
                  "wx_binding" false)
         (start (station (Some "4.0")) [ans_y]))
  = inl (Exn OperationalError "duplicate column name: a").
Proof.
  eapply proj1. eapply proj1.
  eapply (@column_errors_propagate World lib helpers) with
    (old_name := "b") (new_name := "c").
  all: at_the_station. all: at_the_station.
Defined.

Lemma rename_column_renames_witness :
  fst (run lib (rename_column helpers "weewx.conf" "a" "b" "wx_binding"
                  false)
         (start (station (Some "4.0")) [ans_y]))
  = inr tt.
Proof.
  eapply proj1.
  eapply (@rename_column_renames World lib helpers).
  all: at_the_station. all: at_the_station.
Defined.

Lemma drop_columns_drops_witness :
  fst (run lib (drop_columns helpers "weewx.conf" ["a"; "a"] "wx_binding"
                  false)
         (start (station (Some "4.0")) [ans_y]))
  = inr tt.
Proof.
  eapply proj1.
  eapply (@drop_columns_drops World lib helpers).
  all: at_the_station. all: at_the_station.
Defined.

Lemma drop_columns_other_error_witness :
  fst (run (lib_refusing locked)
         (drop_columns helpers "weewx.conf" ["a"] "wx_binding" false)
         (start (station (Some "4.0")) [ans_y]))
  = inl locked.
Proof.
  eapply proj1.
  eapply (@drop_columns_other_error World (lib_refusing locked) helpers).
  all: at_the_station. all: at_the_station.
Defined.

Lemma drop_columns_dry_run_checks_nothing_witness :
  fst (run lib (drop_columns helpers "weewx.conf" ["no_such_column"]
                  "wx_binding" true)
         (start (station (Some "4.0")) [ans_y]))
  = inr tt.
Proof.
  eapply proj1.
  eapply (@drop_columns_dry_run_checks_nothing World lib helpers).
  all: at_the_station. all: at_the_station.
Defined.

Lemma reconfigure_database_uninitialized_witness :
  fst (run lib (reconfigure_database helpers "weewx.conf" "wx_binding" false)
         (start empty_station [ans_y]))
  = inr tt.
Proof.
  eapply proj1.
  eapply (@reconfigure_database_uninitialized World lib helpers).
  all: at_the_station. all: at_the_station.
Defined.

Lemma reconfigure_database_unknown_unit_witness :
  fst (run lib (reconfigure_database helpers "weewx.conf" "wx_binding" false)
         (start odd_units [ans_y]))
  = inl (Exn KeyError "KLINGON").
Proof.
  eapply proj1.
  eapply (@reconfigure_database_unknown_unit World lib helpers) with
    (name := "klingon").
  all: at_the_station. all: at_the_station.
Defined.

Lemma reconfigure_database_copies_witness :
  fst (run lib (reconfigure_database helpers "weewx.conf" "wx_binding" false)
         (start (station (Some "4.0")) [ans_y]))
  = inr tt.
Proof.
  eapply proj1.
  eapply (@reconfigure_database_copies World lib helpers) with
    (nick := fun _ => "US") (target := None).
  all: at_the_station. all: at_the_station.
Defined.

Lemma calc_missing_runs_witness :
  fst (run lib (calc_missing helpers "weewx.conf" None None None "wx_binding"
                  false)
         (start (station (Some "4.0")) [ans_y]))
  = inr tt.
Proof.
  eapply proj1.
  eapply (@calc_missing_runs World lib helpers).
  all: at_the_station. all: at_the_station.
Defined.

Lemma check_only_reads_witness :
  fst (run lib (check helpers "weewx.conf" "wx_binding")
         (start (station (Some "4.0")) []))
  = inr tt.
Proof.
  eapply proj1.
  eapply (@check_only_reads World lib helpers).
  all: at_the_station. all: at_the_station.
Defined.

Lemma calc_missing_raises_witness :
  let e := Exn UnknownBinding "wx_binding" in
  let go := calc_missing helpers "weewx.conf" None None None "wx_binding"
              false in
  let s := start (station (Some "4.0")) [ans_y] in
  fst (run (lib_no_fix e) go s) = inl e
  /\ fst (run (lib_refusing e) go s)
     = inl (Exn SystemExit "Nothing done. Aborting.").
Proof.
  intros e go s. split.
  - edestruct (@calc_missing_raises World (lib_no_fix e) helpers s
                 "weewx.conf" "wx_binding")
      with (date := @None string) (from_date := @None string)
           (to_date := @None string) (dry_run := false) (e := e)
           (w0 := station (Some "4.0")) (w1 := station (Some "4.0"))
      as ((Hr & _) & _).
    all: try exact Hr.
    all: at_the_station. all: at_the_station.
  - edestruct (@calc_missing_raises World (lib_refusing e) helpers s
                 "weewx.conf" "wx_binding")
      with (date := @None string) (from_date := @None string)
           (to_date := @None string) (dry_run := false) (e := e)
           (w0 := station (Some "4.0")) (w1 := station (Some "4.0"))
      as (_ & Hrun).
    all: try (edestruct Hrun as (_ & _ & Hexit & _);
              [| | exact (proj1 (Hexit eq_refl))]).
    all: at_the_station. all: at_the_station.
Defined.

Lemma dry_runs_hold_back_witness :
  exists calls,
    trace (snd (run lib (reconfigure_database helpers "weewx.conf"
                           "wx_binding" true)
                  (start (station (Some "4.0")) [ans_y])))
    = calls
    /\ none_held_back calls.
Proof.
  destruct (@dry_runs_hold_back World lib helpers "weewx.conf" "wx_binding"
              "a" "b" None None None None ["a"]
              (reconfigure_database helpers "weewx.conf" "wx_binding" true)
              (start (station (Some "4.0")) [ans_y]))
    as (calls & Ht & Hn & _).
  - do 6 right. left. reflexivity.
  - exists calls. split; [exact Ht | exact Hn].
Defined.

Lemma declined_runs_write_nothing_witness :
  world (snd (run lib (drop_daily helpers "weewx.conf" "wx_binding" false)
                (start (station (Some "4.0")) [ans_n])))
  = station (Some "4.0").
Proof.
  refine (proj2 (proj2 (@declined_runs_write_nothing World lib helpers
                          "weewx.conf" "wx_binding" "a" "b" None None None
                          None None ["a"] false _ _ _ _))
            ref_lib_read_only).
  - left; reflexivity.
  - repeat constructor.
Defined.

End MoreAtTheStation.
